(** * reconbf/lib/result.py: result aggregation and reporting

    A shallow embedding of the result model of [reconbf] (outcome
    constants, [TestResult], [GroupTestResult], [TestResults]), of the
    visibility filter and of the four renderers, followed by the
    properties of the specification that were checked against it. *)

From Stdlib Require Import ZArith String Ascii List Bool Lia.
From stdpp Require Import base option list gmap strings.

Local Open Scope string_scope.
Local Open Scope list_scope.
Local Open Scope Z_scope.

(** ** Python values and exceptions *)

(** The values a caller can store in an attribute that the module never
    validates (a confidence).  A list stands for the unhashable values:
    using one as a dictionary key raises [TypeError]. *)
#[warnings="-register-all"] Inductive pyval :=
| PyNone
| PyInt (n : Z)
| PyStr (s : string)
| PyList (xs : list pyval).

Definition hashable (v : pyval) : bool :=
  match v with
  | PyList _ => false
  | _ => true
  end.

(** [k1 == k2] on hashable keys. *)
Definition py_key_eqb (k1 k2 : pyval) : bool :=
  match k1, k2 with
  | PyNone, PyNone => true
  | PyInt a, PyInt b => Z.eqb a b
  | PyStr a, PyStr b => String.eqb a b
  | _, _ => false
  end.

Inductive exn :=
| KeyError
| TypeError
| IndexError
| ValueError
| EnvironmentError.

(** The outcome of a computation that may raise. *)
Inductive raising (A : Type) :=
| Ok (a : A)
| Raise (e : exn).
Arguments Ok {A} a.
Arguments Raise {A} e.

#[global] Instance raising_ret : MRet raising := @Ok.

#[global] Instance raising_bind : MBind raising := fun A B k r =>
  match r with
  | Ok a => k a
  | Raise e => Raise e
  end.

Definition raises {A} (r : raising A) : Prop := exists e, r = Raise e.

(** A dictionary literal, as the list of its items. *)
Fixpoint dict_find {V} (d : list (pyval * V)) (k : pyval) : option V :=
  match d with
  | [] => None
  | (k', v) :: d' => if py_key_eqb k' k then Some v else dict_find d' k
  end.

(** [d[k]]: hashes [k], then raises [KeyError] when [k] is not a key. *)
Definition dict_getitem {V} (d : list (pyval * V)) (k : pyval) : raising V :=
  if hashable k then
    match dict_find d k with
    | Some v => Ok v
    | None => Raise KeyError
    end
  else Raise TypeError.

(** [d.get(k)]: hashes [k], then gives [None] when [k] is not a key. *)
Definition dict_get {V} (d : list (pyval * V)) (k : pyval) : raising (option V) :=
  if hashable k then Ok (dict_find d k) else Raise TypeError.

(** [x == n] for an int constant [n].  The classes of this module define
    no [__eq__], and neither an instance nor a dict is ever equal to an
    int. *)
Class PyEq (A : Type) := py_eq : A -> Z -> bool.

#[global] Instance int_PyEq : PyEq Z := Z.eqb.

(** ** The outcome model *)

Module Result.
Definition PASS : Z := 1.
Definition FAIL : Z := 2.
Definition SKIP : Z := 3.

Definition CONF_SURE : Z := 1.
Definition CONF_GUESS : Z := 3.
End Result.

Module ResultDisplayType.
Definition DISPLAY_ALL : Z := 4.
Definition DISPLAY_NOT_PASS : Z := 3.
Definition DISPLAY_FAIL_ONLY : Z := 2.
Definition DISPLAY_OVERALL_ONLY : Z := 1.
End ResultDisplayType.

(** The four verbosity levels of the data model. *)
Definition display_types : list Z :=
  [ResultDisplayType.DISPLAY_OVERALL_ONLY; ResultDisplayType.DISPLAY_FAIL_ONLY;
   ResultDisplayType.DISPLAY_NOT_PASS; ResultDisplayType.DISPLAY_ALL].

(** A dict with the keys ['name'] and ['result']. *)
Record named (A : Type) := Named { name : string; result_of : A }.
Arguments Named {A} name result_of.
Arguments name {A} _.
Arguments result_of {A} _.

#[global] Instance dict_PyEq {A} : PyEq (named A) := fun _ _ => false.

(** ** TestResult *)

Module TestResult.
Record t := __init__ { _result : Z; _notes : option string; _confidence : pyval }.

Definition result (self : t) : Z := _result self.
Definition notes (self : t) : option string := _notes self.
Definition confidence (self : t) : pyval := _confidence self.
End TestResult.

#[global] Instance TestResult_PyEq : PyEq TestResult.t := fun _ _ => false.

(** ** GroupTestResult *)

Module GroupTestResult.
Record t := { _results_list : list (named TestResult.t); _group_result : Z }.

Definition __init__ : t :=
  {| _results_list := []; _group_result := Result.SKIP |}.

Definition add_result (self : t) (name : string) (result : TestResult.t) : t :=
  let new_result := Named name result in
  let group_result :=
    if (TestResult.result result =? Result.PASS)
       && (_group_result self =? Result.SKIP)
    then Result.PASS
    else if TestResult.result result =? Result.FAIL
    then Result.FAIL
    else _group_result self in
  {| _results_list := _results_list self ++ [new_result];
     _group_result := group_result |}.

Definition result (self : t) : Z := _group_result self.
Definition results (self : t) : list (named TestResult.t) := _results_list self.
Definition __len__ (self : t) : nat := length (_results_list self).

(** A run of [add_result] calls, in order. *)
Definition add_all (self : t) (rs : list (named TestResult.t)) : t :=
  fold_left (fun g r => add_result g (name r) (result_of r)) rs self.
End GroupTestResult.

(** ** The visibility filter *)

Definition _check_display_result {A} `{PyEq A} (result : A) (display_mode : Z) : bool :=
  if display_mode =? ResultDisplayType.DISPLAY_ALL then true
  else if py_eq result Result.FAIL
          && (display_mode >=? ResultDisplayType.DISPLAY_FAIL_ONLY) then true
  else if py_eq result Result.SKIP
          && (display_mode >=? ResultDisplayType.DISPLAY_NOT_PASS) then true
  else false.

(** ** Strings *)

Definition nl : string := String (ascii_of_nat 10) "".

Definition py_len (s : string) : Z := Z.of_nat (String.length s).

(** [s * n]: empty when [n <= 0]. *)
Definition str_repeat (s : string) (n : Z) : string :=
  Nat.iter (Z.to_nat n) (fun acc => s +:+ acc) "".

(** ['{0: <{1}}'.format(s, w)]: pads with spaces on the right, never cuts. *)
Definition ljust (s : string) (w : Z) : string :=
  s +:+ str_repeat " " (w - py_len s).

(** [s[0:stop]]: a negative [stop] counts from the end of [s]. *)
Definition slice_to (s : string) (stop : Z) : string :=
  let stop' := if stop <? 0 then Z.max 0 (stop + py_len s)
               else Z.min stop (py_len s) in
  substring 0 (Z.to_nat stop') s.

(** The truth value of [notes]: [None] and the empty string are false. *)
Definition truthy (notes : option string) : bool :=
  match notes with
  | Some (String _ _) => true
  | _ => false
  end.

(** [s.replace(c, new)] for a one-character [c]. *)
Fixpoint replace_char (c : ascii) (new : string) (s : string) : string :=
  match s with
  | EmptyString => EmptyString
  | String a s' =>
      if Ascii.eqb a c then new +:+ replace_char c new s'
      else String a (replace_char c new s')
  end.

(** [cgi.escape(s)], without quote escaping. *)
Definition cgi_escape (s : string) : string :=
  replace_char ">" "&gt;" (replace_char "<" "&lt;" (replace_char "&" "&amp;" s)).

(** The scan of [s.replace(old, new)]: [skip] characters of a replaced
    occurrence are still to be passed over. *)
Fixpoint replace_from (skip : nat) (old new s : string) : string :=
  match s with
  | EmptyString => EmptyString
  | String a s' =>
      match skip with
      | S k => replace_from k old new s'
      | O =>
          if String.prefix old s
          then new +:+ replace_from (Nat.pred (String.length old)) old new s'
          else String a (replace_from O old new s')
      end
  end.

(** [s.replace(old, new)] for a non-empty [old]: every occurrence, left to
    right, without overlap. *)
Definition str_replace (old new s : string) : string := replace_from O old new s.

(** [str(x)] in a format field. *)
Definition format_opt (x : option string) : string :=
  match x with
  | Some s => s
  | None => "None"
  end.

(** The number of characters [c] in [s], and the texts without any. *)
Fixpoint count_char (c : ascii) (s : string) : nat :=
  match s with
  | EmptyString => O
  | String a s' => ((if Ascii.eqb a c then 1 else 0) + count_char c s')%nat
  end.

Definition no_char (c : ascii) (s : string) : bool := (count_char c s =? 0)%nat.

(** ** Text of outcomes and confidences *)

Definition _result_text (result : Z) : option string :=
  if result =? Result.PASS then Some "PASS"
  else if result =? Result.FAIL then Some "FAIL"
  else if result =? Result.SKIP then Some "SKIP"
  else None.

Definition _confidence_text (result : pyval) : raising (option string) :=
  dict_get [(PyInt Result.CONF_GUESS, "guess"); (PyInt Result.CONF_SURE, "sure")]
           result.

Definition _result_to_class (r : Z) : raising string :=
  let PASS_CLASS := "test_pass" in
  let FAIL_CLASS := "test_fail" in
  let SKIP_CLASS := "test_skip" in
  let mapping := [(PyInt Result.PASS, PASS_CLASS); (PyInt Result.FAIL, FAIL_CLASS);
                  (PyInt Result.SKIP, SKIP_CLASS)] in
  dict_getitem mapping (PyInt r).

(** ** Rows of the terminal report *)

Record widths_t := { TEST_NAME : Z; TEST_RESULT : Z; TEST_CONFIDENCE : Z; TOTAL : Z }.

(** The dict of [_get_term_colors], by key. *)
Record term_colors_t := { tc_pass : string; tc_fail : string; tc_skip : string; tc_end : string }.

(** The subscript of the literal dict in [_build_result_string]. *)
Definition conf_string_of (confidence : pyval) : raising string :=
  dict_getitem [(PyInt Result.CONF_SURE, "");
                (PyInt Result.CONF_GUESS, "guess");
                (PyNone, "")] confidence.

Definition _build_result_string (name : string) (result : Z) (confidence : pyval)
    (notes : option string) (use_color : bool) (term_colors : term_colors_t)
    (indent : bool) (widths : widths_t) : raising string :=
  let name_newline_str := nl +:+ str_repeat " " (TEST_NAME widths) in
  let '(result_color, pass_string) :=
    if result =? Result.PASS then (tc_pass term_colors, "PASS")
    else if result =? Result.SKIP then (tc_skip term_colors, "SKIP")
    else if result =? Result.FAIL then (tc_fail term_colors, "FAIL")
    else ("", "") in
  conf_string ← conf_string_of confidence;
  let tab := if indent then "     " else "" in
  let result_string := "" in
  let result_string := result_string +:+ ljust (tab +:+ name) (TEST_NAME widths) in
  let result_string :=
    if py_len (tab +:+ name) >? TEST_NAME widths
    then result_string +:+ name_newline_str else result_string in
  let result_string :=
    if use_color then result_string +:+ result_color else result_string in
  let result_string := result_string +:+ ljust pass_string (TEST_RESULT widths) in
  let result_string :=
    if use_color then result_string +:+ tc_end term_colors else result_string in
  let result_string := result_string +:+ ljust conf_string (TEST_CONFIDENCE widths) in
  let result_string :=
    if truthy notes then result_string +:+ format_opt notes else result_string in
  Ok result_string.

(** The notes as the terminal report shows them in a column of
    [notes_width] characters (the same three lines for an entry and for a
    member of a group). *)
Definition truncate_notes (notes : option string) (notes_width : Z) : option string :=
  match notes with
  | Some s =>
      if truthy notes && (py_len s >? notes_width)
      then Some (slice_to s (notes_width - 3) +:+ "...")
      else notes
  | None => notes
  end.

(** ** The terminal probes, in full *)

(** [s.split(sep)] for a one-character [sep]: the pieces between the
    separators, empty pieces included. *)
Fixpoint split_char (sep : ascii) (s : string) : list string :=
  match s with
  | EmptyString => [EmptyString]
  | String a s' =>
      if Ascii.eqb a sep then EmptyString :: split_char sep s'
      else match split_char sep s' with
           | piece :: pieces => String a piece :: pieces
           | [] => [String a EmptyString]
           end
  end.

(** [s.split(sep, 1)] for a one-character [sep], when it has two pieces:
    the text before the first separator and the text after it. *)
Fixpoint split_once (sep : ascii) (s : string) : option (string * string) :=
  match s with
  | EmptyString => None
  | String a s' =>
      if Ascii.eqb a sep then Some (EmptyString, s')
      else match split_once sep s' with
           | Some (part1, part2) => Some (String a part1, part2)
           | None => None
           end
  end.

Definition LF : ascii := ascii_of_nat 10.
Definition CR : ascii := ascii_of_nat 13.

(** [s.splitlines()] on bytes: a line ends at LF, at CR or at CR LF, and
    an empty last line is not listed. *)
Fixpoint splitlines (s : string) : list string :=
  match s with
  | EmptyString => []
  | String a s' =>
      if Ascii.eqb a LF then EmptyString :: splitlines s'
      else if Ascii.eqb a CR then
        EmptyString :: match s' with
                       | String b s'' =>
                           if Ascii.eqb b LF then splitlines s'' else splitlines s'
                       | EmptyString => []
                       end
      else match splitlines s' with
           | line :: lines => String a line :: lines
           | [] => [String a EmptyString]
           end
  end.

(** The whitespace of [strip()]: space, tab, LF, vertical tab, form feed
    and CR. *)
Definition is_space (a : ascii) : bool :=
  let n := nat_of_ascii a in
  (n =? 32)%nat || ((9 <=? n)%nat && (n <=? 13)%nat).

Fixpoint lstrip (s : string) : string :=
  match s with
  | EmptyString => EmptyString
  | String a s' => if is_space a then lstrip s' else s
  end.

Fixpoint rstrip (s : string) : string :=
  match s with
  | EmptyString => EmptyString
  | String a s' =>
      match rstrip s' with
      | EmptyString => if is_space a then EmptyString else String a EmptyString
      | rest => String a rest
      end
  end.

(** [s.strip()] *)
Definition strip (s : string) : string := rstrip (lstrip s).

Definition ESC : string := String (ascii_of_nat 27) "".

Module Terminal.
Section Probes.
(** [config.get_config(key, default)] and the colour constants of
    [constants], from the other modules of the package; [int(b)] of the
    language on a byte string, [None] when it raises [ValueError]. *)
Variable get_config : string -> string -> string.
Variables TC_PASS TC_FAIL TC_SKIP TC_END : string.
Variable py_int : string -> option Z.

(** ["\033[" + value.split('[')[1]]; [None] when the subscript raises
    [IndexError]. *)
Definition reconstruct (value : string) : option string :=
  match split_char "[" value with
  | _ :: code :: _ => Some (ESC +:+ "[" +:+ code)
  | _ => None
  end.

(** [None] when a colour raises [IndexError]. *)
Definition _get_term_colors : option term_colors_t :=
  let pass := get_config "output.terminal.term_color_pass" TC_PASS in
  let fail := get_config "output.terminal.term_color_fail" TC_FAIL in
  let skip := get_config "output.terminal.term_color_skip" TC_SKIP in
  let end_ := get_config "output.terminal.term_color_end" TC_END in
  pass ← reconstruct pass;
  fail ← reconstruct fail;
  skip ← reconstruct skip;
  end_ ← reconstruct end_;
  Some {| tc_pass := pass; tc_fail := fail; tc_skip := skip; tc_end := end_ |}.

(** The body of the inner loop on one setting: [Some n] when the function
    returns [n], [None] when the loop goes on (no second part, no
    [columns], or a number that [int] refuses). *)
Definition setting_width (setting : string) : option Z :=
  match split_once " " (strip setting) with
  | None => None
  | Some (part1, part2) =>
      if String.eqb (strip part1) "columns" then py_int (strip part2)
      else if String.eqb (strip part2) "columns" then py_int (strip part1)
      else None
  end.

Fixpoint scan_settings (settings : list string) : option Z :=
  match settings with
  | [] => None
  | setting :: rest =>
      match setting_width setting with
      | Some n => Some n
      | None => scan_settings rest
      end
  end.

Fixpoint scan_lines (lines : list string) : option Z :=
  match lines with
  | [] => None
  | line :: rest =>
      match scan_settings (split_char ";" line) with
      | Some n => Some n
      | None => scan_lines rest
      end
  end.

(** [stty] is the output of [stty -a], or [None] when running it raised
    [IOError] or [CalledProcessError]. *)
Definition _get_term_width (stty : option string) : Z :=
  match stty with
  | None => 80
  | Some term_settings => default 80 (scan_lines (splitlines term_settings))
  end.
End Probes.
End Terminal.

(** ** The environment: standard output, files, the log, the terminal *)

Inductive level := INFO | ERROR.

(** [locked] holds the paths that cannot be opened.  [get_config] is
    [config.get_config] as the configuration stands, and [TC] holds the
    constants [TC_PASS], [TC_FAIL], [TC_SKIP] and [TC_END] of [constants].
    [term_width] is the width that [_get_term_width] returns: that
    function raises nothing, whatever [stty] does. *)
Record World := {
  stdout : list string;
  files : gmap string string;
  locked : gset string;
  logged : list (level * string);
  get_config : string -> string -> string;
  TC : term_colors_t;
  term_width : Z
}.

Definition set_stdout (out : list string) (w : World) : World :=
  {| stdout := out; files := files w; locked := locked w; logged := logged w;
     get_config := get_config w; TC := TC w; term_width := term_width w |}.

Definition set_files (fs : gmap string string) (w : World) : World :=
  {| stdout := stdout w; files := fs; locked := locked w; logged := logged w;
     get_config := get_config w; TC := TC w; term_width := term_width w |}.

Definition set_logged (l : list (level * string)) (w : World) : World :=
  {| stdout := stdout w; files := files w; locked := locked w; logged := l;
     get_config := get_config w; TC := TC w; term_width := term_width w |}.

(** A statement: it changes the world and returns or raises. *)
Definition IO (A : Type) : Type := World -> World * raising A.

#[global] Instance IO_ret : MRet IO := fun A a w => (w, Ok a).

#[global] Instance IO_bind : MBind IO := fun A B k m w =>
  match m w with
  | (w', Ok a) => k a w'
  | (w', Raise e) => (w', Raise e)
  end.

Definition lift {A} (r : raising A) : IO A := fun w => (w, r).

(** [print(s)]: one more line on standard output. *)
Definition print (s : string) : IO unit := fun w =>
  (set_stdout (stdout w ++ [s]) w, Ok tt).

Definition logger_info (msg : string) : IO unit := fun w =>
  (set_logged (logged w ++ [(INFO, msg)]) w, Ok tt).

Definition logger_error (msg : string) : IO unit := fun w =>
  (set_logged (logged w ++ [(ERROR, msg)]) w, Ok tt).

Definition NUL : ascii := ascii_of_nat 0.

(** What [open(path, mode)] raises before it touches any file, if it does:
    [ValueError] for a path that holds a NUL character, and an environment
    error for the empty path and for a path that cannot be opened (a
    missing directory, a path without permission). *)
Definition open_error (w : World) (path : string) : option exn :=
  if negb (no_char NUL path) then Some ValueError
  else if String.eqb path "" || bool_decide (path ∈ locked w) then Some EnvironmentError
  else None.

(** [open(path, 'w')]: raises on such a path, and otherwise leaves an
    empty file. *)
Definition open_w (path : string) : IO unit := fun w =>
  match open_error w path with
  | Some e => (w, Raise e)
  | None => (set_files (<[path := ""]> (files w)) w, Ok tt)
  end.

(** A write on the file opened at [path]; writes on an open file are
    taken to succeed. *)
Definition file_write (path : string) (s : string) : IO unit := fun w =>
  (set_files (<[path := default "" (files w !! path) +:+ s]> (files w)) w, Ok tt).

(** [open(path, 'r')] followed by [read()]: a file that does not exist
    cannot be opened for reading. *)
Definition read_file (path : string) : IO string := fun w =>
  match open_error w path with
  | Some e => (w, Raise e)
  | None =>
      match files w !! path with
      | Some s => (w, Ok s)
      | None => (w, Raise EnvironmentError)
      end
  end.

(** [try: body / except EnvironmentError: handler / else: orelse]; any
    other exception goes on to the caller. *)
Definition try_except_else {A B} (body : IO A) (handler : IO B)
    (orelse : A -> IO B) : IO B := fun w =>
  match body w with
  | (w', Ok a) => orelse a w'
  | (w', Raise EnvironmentError) => handler w'
  | (w', Raise e) => (w', Raise e)
  end.

Fixpoint for_each {A} (xs : list A) (body : A -> IO unit) : IO unit :=
  match xs with
  | [] => mret tt
  | x :: xs' => body x ;; for_each xs' body
  end.

(** The colours that [_get_term_colors] makes of the configuration of a
    world, [None] when a configured colour holds no bracket. *)
Definition term_colors (w : World) : option term_colors_t :=
  Terminal._get_term_colors (get_config w) (tc_pass (TC w)) (tc_fail (TC w))
    (tc_skip (TC w)) (tc_end (TC w)).

(** [_get_term_colors()]: the subscript of a colour without a bracket
    raises [IndexError]. *)
Definition _get_term_colors : IO term_colors_t := fun w =>
  match term_colors w with
  | Some colors => (w, Ok colors)
  | None => (w, Raise IndexError)
  end.

Definition _get_term_width : IO Z := fun w => (w, Ok (term_width w)).

(** ** JSON values *)

#[warnings="-register-all"] Inductive json :=
| JNull
| JString (s : string)
| JArray (xs : list json)
| JObject (items : list (string * json)).

Definition json_of_opt (x : option string) : json :=
  match x with
  | Some s => JString s
  | None => JNull
  end.

(** ** Rows of the HTML report *)

Definition _create_html_result_row (result : named TestResult.t) (do_indent : bool)
    : raising string :=
  let INDENT_CLASS := "result_indent" in
  let indent_class := if do_indent then " class=" +:+ INDENT_CLASS else "" in
  c ← _result_to_class (TestResult.result (result_of result));
  let result_class := " class=" +:+ c in
  let row_string := "" in
  let row_string := row_string +:+ "  <tr" +:+ result_class +:+ ">" +:+ nl in
  let row_string := row_string +:+ "    <td" +:+ indent_class +:+ ">"
                    +:+ cgi_escape (name result) +:+ "</td>" +:+ nl in
  let row_string := row_string +:+ "    <td" +:+ result_class +:+ ">"
                    +:+ format_opt (_result_text (TestResult.result (result_of result)))
                    +:+ "</td>" +:+ nl in
  let row_string := row_string +:+ "    <td>"
                    +:+ cgi_escape (default "" (if truthy (TestResult.notes (result_of result))
                                                then TestResult.notes (result_of result)
                                                else None))
                    +:+ "</td>" +:+ nl in
  let row_string := row_string +:+ "  </tr>" +:+ nl in
  mret row_string.

Definition _create_html_group_row (result : named GroupTestResult.t) : raising string :=
  c ← _result_to_class (GroupTestResult.result (result_of result));
  let result_class := " class=" +:+ c in
  let row_string := "" in
  let row_string := row_string +:+ "  <tr" +:+ result_class +:+ ">" +:+ nl in
  let row_string := row_string +:+ "    <td>" +:+ cgi_escape (name result)
                    +:+ "</td>" +:+ nl in
  let row_string := row_string +:+ "    <td" +:+ result_class +:+ ">"
                    +:+ format_opt (_result_text (GroupTestResult.result (result_of result)))
                    +:+ "</td>" +:+ nl in
  let row_string := row_string +:+ "    <td></td>" +:+ nl in
  let row_string := row_string +:+ "  </tr>" +:+ nl in
  mret row_string.

(** ** TestResults *)

(** The value under ['result'] of an entry: every use is guarded by
    [isinstance]. *)
Inductive test_or_group :=
| Single (r : TestResult.t)
| Group (g : GroupTestResult.t).

Definition entry : Type := named test_or_group.

Definition cell : Type := option string.

Module TestResults.
Definition t : Type := list entry.

Definition __init__ (results_list : list entry) : t := results_list.

Definition add_results (self : t) (new_results : list entry) : t :=
  fold_left (fun results result => results ++ [result]) new_results self.

(** *** The terminal report *)

(** The strings of the members of a group that pass the filter. *)
Fixpoint child_results (result_list : list (named TestResult.t)) (use_color : bool)
    (display_type : Z) (colors : term_colors_t) (notes_width : Z)
    (widths : widths_t) : raising (list string) :=
  match result_list with
  | [] => mret []
  | child_res :: rest =>
      if _check_display_result (TestResult.result (result_of child_res)) display_type
      then
        let notes := truncate_notes (TestResult.notes (result_of child_res)) notes_width in
        s ← _build_result_string (name child_res)
              (TestResult.result (result_of child_res))
              (TestResult.confidence (result_of child_res))
              notes use_color colors true widths;
        ss ← child_results rest use_color display_type colors notes_width widths;
        mret (s :: ss)
      else child_results rest use_color display_type colors notes_width widths
  end.

(** The body of the loop over the entries. *)
Definition display_entry (res : entry) (use_color : bool) (display_type : Z)
    (colors : term_colors_t) (notes_width : Z) (widths : widths_t) : IO unit :=
  match result_of res with
  | Single r =>
      if _check_display_result (TestResult.result r) display_type
         || (display_type =? ResultDisplayType.DISPLAY_OVERALL_ONLY)
      then
        let notes := truncate_notes (TestResult.notes r) notes_width in
        result_string ← lift (_build_result_string (name res) (TestResult.result r)
                                (TestResult.confidence r) notes use_color colors
                                false widths);
        print result_string
      else mret tt
  | Group g =>
      let result_list := GroupTestResult.results g in
      children ← lift (child_results result_list use_color display_type colors
                         notes_width widths);
      let parent_result := GroupTestResult.result g in
      if _check_display_result parent_result display_type
         || (display_type =? ResultDisplayType.DISPLAY_OVERALL_ONLY)
      then
        parent_string ← lift (_build_result_string (name res) parent_result PyNone
                                (Some "") use_color colors false widths);
        print parent_string ;;
        for_each children print
      else mret tt
  end.

Definition display_on_terminal (self : t) (use_color : bool) (display_type : Z)
    : IO unit :=
  colors ← _get_term_colors;
  width ← _get_term_width;
  let widths := {| TEST_NAME := 60; TEST_RESULT := 9; TEST_CONFIDENCE := 11;
                   TOTAL := width |} in
  let notes_width := TOTAL widths - TEST_NAME widths - TEST_RESULT widths
                     - TEST_CONFIDENCE widths in
  print nl ;;
  print (str_repeat "=" (TOTAL widths)) ;;
  print (ljust "Test Name" (TEST_NAME widths) +:+ ljust "Result" (TEST_RESULT widths)
         +:+ ljust "Confidence" (TEST_CONFIDENCE widths) +:+ "Notes") ;;
  print (str_repeat "=" (TOTAL widths)) ;;
  for_each self (fun res =>
    display_entry res use_color display_type colors notes_width widths) ;;
  print nl.

(** *** had_failures *)

Fixpoint had_failures (self : t) : bool :=
  match self with
  | [] => false
  | result :: rest =>
      match result_of result with
      | Single r =>
          if py_eq r Result.FAIL then true else had_failures rest
      | Group g =>
          if py_eq (GroupTestResult.result g) Result.FAIL then true
          else had_failures rest
      end
  end.

(** *** The CSV and JSON rows *)

Fixpoint sub_rows (test_name : string) (subs : list (named TestResult.t))
    : raising (list (list cell)) :=
  match subs with
  | [] => mret []
  | sub_result :: rest =>
      conf ← _confidence_text (TestResult.confidence (result_of sub_result));
      rows ← sub_rows test_name rest;
      mret ([Some test_name; Some (name sub_result);
             _result_text (TestResult.result (result_of sub_result));
             TestResult.notes (result_of sub_result); conf] :: rows)
  end.

Fixpoint csv_rows (self : t) : raising (list (list cell)) :=
  match self with
  | [] => mret []
  | test_result :: rest =>
      new ← match result_of test_result with
            | Group g => sub_rows (name test_result) (GroupTestResult.results g)
            | Single r =>
                conf ← _confidence_text (TestResult.confidence r);
                mret [[Some (name test_result); None;
                       _result_text (TestResult.result r);
                       TestResult.notes r; conf]]
            end;
      rows ← csv_rows rest;
      mret (new ++ rows)
  end.

Definition json_leaf (nm : string) (r : TestResult.t) : json :=
  JObject [("name", JString nm);
           ("result", json_of_opt (_result_text (TestResult.result r)));
           ("notes", json_of_opt (TestResult.notes r))].

Definition json_tests (self : t) : list json :=
  map (fun test : entry =>
         match result_of test with
         | Single r => json_leaf (name test) r
         | Group g =>
             let results :=
               map (fun ind_result : named TestResult.t =>
                      json_leaf (name ind_result) (result_of ind_result))
                   (GroupTestResult.results g) in
             JObject [("name", JString (name test)); ("result", JArray results)]
         end) self.

(** *** The HTML rows *)

Fixpoint child_rows (result_list : list (named TestResult.t)) (display_type : Z)
    : raising (list string) :=
  match result_list with
  | [] => mret []
  | child_res :: rest =>
      if _check_display_result (TestResult.result (result_of child_res)) display_type
      then
        row ← _create_html_result_row child_res true;
        rows ← child_rows rest display_type;
        mret (row :: rows)
      else child_rows rest display_type
  end.

(** What one entry adds to [html_rows]. *)
Definition html_entry_rows (res : entry) (display_type : Z) : raising string :=
  match result_of res with
  | Single r =>
      if _check_display_result (TestResult.result r) display_type
         || (display_type =? ResultDisplayType.DISPLAY_OVERALL_ONLY)
      then _create_html_result_row (Named (name res) r) false
      else mret ""
  | Group g =>
      rows ← child_rows (GroupTestResult.results g) display_type;
      parent_row ←
        (if _check_display_result res display_type
            || (display_type =? ResultDisplayType.DISPLAY_OVERALL_ONLY)
         then _create_html_group_row (Named (name res) g)
         else mret "");
      mret (parent_row +:+ String.concat "" rows)
  end.

Fixpoint html_rows_from (html_rows : string) (self : t) (display_type : Z)
    : raising string :=
  match self with
  | [] => mret html_rows
  | res :: rest =>
      new ← html_entry_rows res display_type;
      html_rows_from (html_rows +:+ new) rest display_type
  end.

(** *** The writers *)

Section Writers.
(** The text [csv.writer] writes for one row, and the text [json.dump]
    writes with [indent=4]. *)
Variable csv_line : list cell -> string.
Variable json_dump : json -> string.

Definition write_csv (self : t) (filename : string) : IO unit :=
  logger_info ("Preparing to write CSV file [ " +:+ filename +:+ " ] ") ;;
  let header_row_items :=
    [Some "Test"; Some "Subtest"; Some "Result"; Some "Notes"; Some "Confidence"] in
  rows ← lift (csv_rows self);
  try_except_else
    (open_w filename ;;
     file_write filename (csv_line header_row_items) ;;
     for_each rows (fun row => file_write filename (csv_line row)))
    (logger_info ("Unable to open CSV file [ " +:+ filename +:+ " ] for writing"))
    (fun _ => logger_info ("Writing CSV file: [ " +:+ filename +:+ " ] successful ")).

Definition write_html (self : t) (filename html_template : string)
    (display_type : Z) : IO unit :=
  let RESULTS_MARKER := "$$$RESULTS$$$" in
  logger_info ("Preparing to write HTML file: [ " +:+ filename +:+ " ]") ;;
  html_rows ← lift (html_rows_from "" self display_type);
  try_except_else
    (read_file html_template)
    (logger_error ("Unable to open template file: [ " +:+ html_template +:+ " ]"))
    (fun template_content =>
       let template_content :=
         str_replace RESULTS_MARKER html_rows template_content in
       try_except_else
         (open_w filename)
         (logger_error ("Unable to open output file: [ " +:+ filename
                        +:+ " ] for writing"))
         (fun _ =>
            file_write filename template_content ;;
            logger_info ("Successfully wrote HTML file: [ " +:+ filename +:+ " ]"))).

Definition write_json (self : t) (filename : string) : IO unit :=
  logger_info ("Preparing to write JSON file [ " +:+ filename +:+ " ]") ;;
  let tests := json_tests self in
  try_except_else
    (open_w filename ;;
     file_write filename (json_dump (JArray tests)))
    (logger_info ("Unable to open JSON file [ " +:+ filename +:+ " ] for writing!"))
    (fun _ => logger_info ("Writing JSON file: [ " +:+ filename +:+ " ] successful!")).
End Writers.
End TestResults.

(** ** Notions of the specification *)

(** A leaf: the name of its entry, the name of the member when it belongs
    to a group, and the record. *)
Definition leaf : Type := string * option string * TestResult.t.

Definition leaves (self : TestResults.t) : list leaf :=
  flat_map (fun e : entry =>
              match result_of e with
              | Single r => [(name e, None, r)]
              | Group g =>
                  map (fun m : named TestResult.t => (name e, Some (name m), result_of m))
                      (GroupTestResult.results g)
              end) self.

Definition is_fail (r : named TestResult.t) : bool :=
  TestResult.result (result_of r) =? Result.FAIL.

Definition is_pass (r : named TestResult.t) : bool :=
  TestResult.result (result_of r) =? Result.PASS.

(** The aggregate after one more member, as a function of the aggregate
    before. *)
Definition step (agg : Z) (r : named TestResult.t) : Z :=
  if is_pass r && (agg =? Result.SKIP) then Result.PASS
  else if is_fail r then Result.FAIL
  else agg.

(** The outcome of an entry: the field of a record, the aggregate of a
    group. *)
Definition entry_outcome (e : entry) : Z :=
  match result_of e with
  | Single r => TestResult.result r
  | Group g => GroupTestResult.result g
  end.

Definition valid_outcome (r : Z) : bool :=
  (r =? Result.PASS) || (r =? Result.FAIL) || (r =? Result.SKIP).

(** Every outcome of the collection, aggregates included, is one of the
    three of the data model. *)
Definition valid_outcomes (self : TestResults.t) : bool :=
  forallb (fun e : entry => valid_outcome (entry_outcome e)) self
  && forallb (fun l : leaf => valid_outcome (TestResult.result l.2)) (leaves self).

Definition hashable_confidences (self : TestResults.t) : bool :=
  forallb (fun l : leaf => hashable (TestResult.confidence l.2)) (leaves self).

(** The cell of the confidence column for a hashable confidence. *)
Definition confidence_cell (c : pyval) : cell :=
  match c with
  | PyInt n =>
      if n =? Result.CONF_SURE then Some "sure"
      else if n =? Result.CONF_GUESS then Some "guess"
      else None
  | _ => None
  end.

Definition csv_row_of_leaf (l : leaf) : list cell :=
  [Some l.1.1; l.1.2; _result_text (TestResult.result l.2); TestResult.notes l.2;
   confidence_cell (TestResult.confidence l.2)].

Definition json_of_leaf (l : leaf) : json :=
  TestResults.json_leaf (default l.1.1 l.1.2) l.2.

(** The leaf objects of a JSON report: the members of the array under
    ["result"] for a group, the object itself otherwise. *)
Definition json_leaf_objects (tests : list json) : list json :=
  flat_map (fun o =>
              match o with
              | JObject [_; (_, JArray members)] => members
              | _ => [o]
              end) tests.

Definition csv_header : list cell :=
  [Some "Test"; Some "Subtest"; Some "Result"; Some "Notes"; Some "Confidence"].

(** What [open(path, 'r')] and [read()] give: the text of the file, or
    the exception raised. *)
Definition template_text (w : World) (path : string) : raising string :=
  match open_error w path with
  | Some e => Raise e
  | None =>
      match files w !! path with
      | Some s => Ok s
      | None => Raise EnvironmentError
      end
  end.

(** The layout of the terminal report in a world, and the lines above
    its rows. *)
Definition widths_of (w : World) : widths_t :=
  {| TEST_NAME := 60; TEST_RESULT := 9; TEST_CONFIDENCE := 11; TOTAL := term_width w |}.

Definition notes_width_of (w : World) : Z := term_width w - 60 - 9 - 11.

Definition report_head (w : World) : list string :=
  [nl; str_repeat "=" (term_width w);
   ljust "Test Name" 60 +:+ ljust "Result" 9 +:+ ljust "Confidence" 11 +:+ "Notes";
   str_repeat "=" (term_width w)].

(** ** Sample data *)

(** The collection of the scenario of the specification: a PASS record
    [check-a], and a group [check-b] with a FAIL member and a PASS member. *)
Definition scenario : TestResults.t :=
  [Named "check-a" (Single (TestResult.__init__ Result.PASS None (PyInt Result.CONF_SURE)));
   Named "check-b"
     (Group (GroupTestResult.add_all GroupTestResult.__init__
               [Named "s1" (TestResult.__init__ Result.FAIL (Some "world writable")
                              (PyInt Result.CONF_SURE));
                Named "s2" (TestResult.__init__ Result.PASS None
                              (PyInt Result.CONF_GUESS))]))].

(** A group whose aggregate is PASS and which has a SKIP member. *)
Definition pass_group : entry :=
  Named "check-c"
    (Group (GroupTestResult.add_all GroupTestResult.__init__
              [Named "s1" (TestResult.__init__ Result.PASS None (PyInt Result.CONF_SURE));
               Named "s2" (TestResult.__init__ Result.SKIP (Some "not installed")
                             (PyInt Result.CONF_SURE))])).

(** A world with a template, on a terminal of 80 columns, in which nothing
    under [/missing] can be opened. *)
Definition sample_world : World :=
  {| stdout := [];
     files := {[ "report.tpl" := "<table>$$$RESULTS$$$</table>" ]};
     locked := {[ "/missing/report.csv"; "/missing/report.json";
                  "/missing/report.html"; "/missing/report.tpl" ]};
     logged := [];
     get_config := fun _ dflt => dflt;
     TC := {| tc_pass := ESC +:+ "[32m"; tc_fail := ESC +:+ "[31m";
              tc_skip := ESC +:+ "[33m"; tc_end := ESC +:+ "[0m" |};
     term_width := 80 |}.

(** The colours of that world. *)
Definition sample_colors : term_colors_t :=
  {| tc_pass := ESC +:+ "[32m"; tc_fail := ESC +:+ "[31m"; tc_skip := ESC +:+ "[33m";
     tc_end := ESC +:+ "[0m" |}.

(** The same world on a terminal of 91 columns. *)
Definition wide_world : World :=
  {| stdout := stdout sample_world; files := files sample_world;
     locked := locked sample_world; logged := logged sample_world;
     get_config := get_config sample_world; TC := TC sample_world;
     term_width := 91 |}.

(** The same world with a colour that was configured by its name. *)
Definition plain_colour_world : World :=
  {| stdout := stdout sample_world; files := files sample_world;
     locked := locked sample_world; logged := logged sample_world;
     get_config := fun key dflt =>
                     if String.eqb key "output.terminal.term_color_fail" then "red"
                     else dflt;
     TC := TC sample_world;
     term_width := term_width sample_world |}.

(** Serializers to run the writers on. *)
Definition sample_csv_line (row : list cell) : string :=
  String.concat "," (map (default "") row) +:+ nl.

Definition dq : string := String (ascii_of_nat 34) "".

Fixpoint sample_json_dump (j : json) : string :=
  match j with
  | JNull => "null"
  | JString s => dq +:+ s +:+ dq
  | JArray xs => "[" +:+ String.concat ", " (map sample_json_dump xs) +:+ "]"
  | JObject items =>
      "{" +:+ String.concat ", "
                (map (fun kv : string * json =>
                        let '(k, v) := kv in dq +:+ k +:+ dq +:+ ": " +:+ sample_json_dump v)
                     items) +:+ "}"
  end.

(** ** Reading a JSON report *)

(** The name of a JSON object of the report, and its keys in order. *)
Definition json_name (o : json) : option string :=
  match o with
  | JObject (("name", JString nm) :: _) => Some nm
  | _ => None
  end.

Definition json_keys (o : json) : list string :=
  match o with
  | JObject items => map fst items
  | _ => []
  end.

(** ** Reading texts *)

(** [x in s]: [x] occurs somewhere in [s]. *)
Fixpoint occurs (x s : string) : bool :=
  String.prefix x s
  || match s with
     | EmptyString => false
     | String _ s' => occurs x s'
     end.

(** The marker that [write_html] replaces. *)
Definition RESULTS_MARKER : string := "$$$RESULTS$$$".

(** ** Reading the terminal report *)

(** The lines that the body of the loop prints for an entry, or the
    exception that it raises before printing any. *)
Definition entry_lines (e : entry) (use_color : bool) (display_type : Z)
    (colors : term_colors_t) (notes_width : Z) (widths : widths_t)
    : raising (list string) :=
  match result_of e with
  | Single r =>
      if _check_display_result (TestResult.result r) display_type
         || (display_type =? ResultDisplayType.DISPLAY_OVERALL_ONLY)
      then
        row ← _build_result_string (name e) (TestResult.result r)
                (TestResult.confidence r)
                (truncate_notes (TestResult.notes r) notes_width) use_color colors
                false widths;
        mret [row]
      else mret []
  | Group g =>
      children ← TestResults.child_results (GroupTestResult.results g) use_color
                   display_type colors notes_width widths;
      if _check_display_result (GroupTestResult.result g) display_type
         || (display_type =? ResultDisplayType.DISPLAY_OVERALL_ONLY)
      then
        parent ← _build_result_string (name e) (GroupTestResult.result g) PyNone
                   (Some "") use_color colors false widths;
        mret (parent :: children)
      else mret []
  end.

(** The lines of all the entries, when none raises. *)
Fixpoint report_lines (self : TestResults.t) (use_color : bool) (display_type : Z)
    (colors : term_colors_t) (notes_width : Z) (widths : widths_t)
    : raising (list string) :=
  match self with
  | [] => mret []
  | e :: rest =>
      lines ← entry_lines e use_color display_type colors notes_width widths;
      more ← report_lines rest use_color display_type colors notes_width widths;
      mret (lines ++ more)
  end.

(** The confidences that have a text in a terminal row. *)
Definition conf_ok (c : pyval) : bool :=
  match conf_string_of c with
  | Ok _ => true
  | Raise _ => false
  end.

Definition bare_confidences_ok (self : TestResults.t) : bool :=
  forallb (fun e : entry =>
             match result_of e with
             | Single r => conf_ok (TestResult.confidence r)
             | Group _ => true
             end) self.

Definition confidences_ok (self : TestResults.t) : bool :=
  forallb (fun l : leaf => conf_ok (TestResult.confidence l.2)) (leaves self).

(** The members of the groups of a collection. *)
Definition group_members (self : TestResults.t) : list (named TestResult.t) :=
  flat_map (fun e : entry =>
              match result_of e with
              | Single _ => []
              | Group g => GroupTestResult.results g
              end) self.

(** The notes of a row as the specification has them, for a column of
    [notes_width] characters: nothing for absent or empty notes, the first
    [notes_width - 3] characters and three dots for notes longer than the
    column, the notes themselves otherwise. *)
Definition rendered_notes (notes : option string) (notes_width : Z) : string :=
  match notes with
  | None => ""
  | Some "" => ""
  | Some s =>
      if py_len s >? notes_width
      then substring 0 (Z.to_nat (notes_width - 3)) s +:+ "..."
      else s
  end.

(** No notes of the collection are cut: they are absent or empty, or not
    longer than the column. *)
Definition notes_fit (self : TestResults.t) (notes_width : Z) : bool :=
  forallb (fun l : leaf =>
             negb (truthy (TestResult.notes l.2))
             || (py_len (default "" (TestResult.notes l.2)) <=? notes_width))
          (leaves self).

(** The columns of a row before its notes: the row of a record without
    notes. *)
Definition row_columns (nm : string) (result : Z) (confidence : pyval)
    (use_color : bool) (colors : term_colors_t) (indent : bool) (widths : widths_t)
    : string :=
  match _build_result_string nm result confidence None use_color colors indent widths with
  | Ok row => row
  | Raise _ => ""
  end.

(** The rows of the report as the specification has them: the row of a
    bare record that is shown; the row of a group that is shown, followed
    by the rows of its members that pass the filter; every row of a record
    ends with its notes, shortened to the column. *)
Definition expected_rows (self : TestResults.t) (use_color : bool) (display_type : Z)
    (colors : term_colors_t) (notes_width : Z) (widths : widths_t) : list string :=
  flat_map
    (fun e : entry =>
       match result_of e with
       | Single r =>
           if _check_display_result (TestResult.result r) display_type
              || (display_type =? ResultDisplayType.DISPLAY_OVERALL_ONLY)
           then [row_columns (name e) (TestResult.result r) (TestResult.confidence r)
                   use_color colors false widths
                 +:+ rendered_notes (TestResult.notes r) notes_width]
           else []
       | Group g =>
           if _check_display_result (GroupTestResult.result g) display_type
              || (display_type =? ResultDisplayType.DISPLAY_OVERALL_ONLY)
           then row_columns (name e) (GroupTestResult.result g) PyNone use_color colors
                  false widths
                :: map (fun m : named TestResult.t =>
                          row_columns (name m) (TestResult.result (result_of m))
                            (TestResult.confidence (result_of m)) use_color colors true
                            widths
                          +:+ rendered_notes (TestResult.notes (result_of m)) notes_width)
                       (List.filter
                          (fun m : named TestResult.t =>
                             _check_display_result (TestResult.result (result_of m))
                               display_type)
                          (GroupTestResult.results g))
           else []
       end) self.

(** The confidences that the terminal rows can show, with their texts. *)
Definition confidence_texts : list (pyval * string) :=
  [(PyInt Result.CONF_SURE, ""); (PyNone, ""); (PyInt Result.CONF_GUESS, "guess")].

(** ** Reading the output of stty *)

(** [x] is a part of [s]. *)
Definition substr (x s : string) : Prop := exists a b, s = a +:+ x +:+ b.

(** A setting that holds no semicolon and no end of line, and a text
    without whitespace. *)
Definition clean_setting (s : string) : bool :=
  no_char ";" s && no_char LF s && no_char CR s.

Fixpoint no_space (s : string) : bool :=
  match s with
  | EmptyString => true
  | String a s' => negb (is_space a) && no_space s'
  end.

(** The text of lines of settings: the settings of a line joined by
    semicolons, the lines joined by LF. *)
Definition render_stty (lines : list (list string)) : string :=
  String.concat nl (map (String.concat ";") lines).

(** A reading of decimal numbers, to run the probe on. *)
Fixpoint digits_value (acc : Z) (s : string) : option Z :=
  match s with
  | EmptyString => Some acc
  | String a s' =>
      let n := nat_of_ascii a in
      if (48 <=? n)%nat && (n <=? 57)%nat
      then digits_value (10 * acc + Z.of_nat (n - 48)) s'
      else None
  end.

Definition sample_int (s : string) : option Z :=
  match s with
  | EmptyString => None
  | _ => digits_value 0 s
  end.

(** ** Collections as checks hand them over *)

(** An entry as a check makes it: a record under a name, or a group filled
    from empty by [add_result] calls. *)
Definition build_entry (b : string * (TestResult.t + list (named TestResult.t))) : entry :=
  match b.2 with
  | inl r => Named b.1 (Single r)
  | inr members =>
      Named b.1 (Group (GroupTestResult.add_all GroupTestResult.__init__ members))
  end.

(** * Properties *)

(** ** The group aggregate *)

Section Aggregate.
Import GroupTestResult.

Lemma add_all_snoc g rs r :
  add_all g (rs ++ [r]) = add_result (add_all g rs) (name r) (result_of r).
Proof. unfold add_all. now rewrite fold_left_app. Qed.

Lemma add_all_results g rs : results (add_all g rs) = results g ++ rs.
Proof.
  revert g. induction rs as [|r rs IH]; intros g.
  - simpl. now rewrite app_nil_r.
  - change (add_all g (r :: rs))
      with (add_all (add_result g (name r) (result_of r)) rs).
    rewrite IH. unfold results. simpl.
    destruct r. now rewrite <- app_assoc.
Qed.

Lemma add_all_result g rs : result (add_all g rs) = fold_left step rs (result g).
Proof.
  revert g. induction rs as [|r rs IH]; intros g; [reflexivity|].
  change (add_all g (r :: rs))
    with (add_all (add_result g (name r) (result_of r)) rs).
  now rewrite IH.
Qed.

Lemma fold_step_fail rs : fold_left step rs Result.FAIL = Result.FAIL.
Proof.
  induction rs as [|r rs IH]; [reflexivity|]. simpl.
  unfold step at 2. replace (Result.FAIL =? Result.SKIP) with false by reflexivity.
  rewrite andb_false_r. now destruct (is_fail r).
Qed.

Lemma is_pass_not_fail r : is_pass r = true -> is_fail r = false.
Proof.
  unfold is_pass, is_fail, Result.PASS, Result.FAIL. intros H.
  apply Z.eqb_eq in H. rewrite H. reflexivity.
Qed.

Lemma fold_step_pass rs :
  fold_left step rs Result.PASS =
  if existsb is_fail rs then Result.FAIL else Result.PASS.
Proof.
  induction rs as [|r rs IH]; [reflexivity|]. simpl.
  unfold step at 2. replace (Result.PASS =? Result.SKIP) with false by reflexivity.
  rewrite andb_false_r. destruct (is_fail r); simpl; [apply fold_step_fail | exact IH].
Qed.

Lemma fold_step_skip rs :
  fold_left step rs Result.SKIP =
  if existsb is_fail rs then Result.FAIL
  else if existsb is_pass rs then Result.PASS
  else Result.SKIP.
Proof.
  induction rs as [|r rs IH]; [reflexivity|]. simpl.
  unfold step at 2. rewrite Z.eqb_refl, andb_true_r.
  destruct (is_pass r) eqn:Hp; simpl.
  - rewrite (is_pass_not_fail _ Hp). simpl. rewrite fold_step_pass.
    now destruct (existsb is_fail rs).
  - destruct (is_fail r); simpl; [apply fold_step_fail | exact IH].
Qed.
End Aggregate.

(** ** had_failures *)

(** The query only ever sees the aggregate of a group. *)
Lemma had_failures_groups self :
  TestResults.had_failures self =
  existsb (fun e : entry =>
             match result_of e with
             | Single _ => false
             | Group g => GroupTestResult.result g =? Result.FAIL
             end) self.
Proof.
  induction self as [|e self IH]; [reflexivity|]. simpl.
  destruct (result_of e) as [r|g].
  - exact IH.
  - unfold py_eq, int_PyEq. now destruct (GroupTestResult.result g =? Result.FAIL).
Qed.

(** C1 (the code departs from the claim).  The claim asks [had_failures]
    to answer true as soon as one entry has outcome FAIL, a bare record
    through its outcome field.  The code compares the record itself with
    the constant, which never holds: a collection made of one bare record,
    whatever its name, notes and confidence, whose outcome is FAIL is
    reported as free of failures, while the same record inside a group is
    seen through the aggregate.  In general the answer is true exactly
    when some group has the aggregate FAIL; it is false for the empty
    collection. *)
Theorem C1_had_failures_misses_bare_fail :
  forall (nm : string) (notes : option string) (confidence : pyval),
    let r := TestResult.__init__ Result.FAIL notes confidence in
    entry_outcome (Named nm (Single r)) = Result.FAIL
    /\ TestResults.had_failures [Named nm (Single r)] = false
    /\ TestResults.had_failures
         [Named nm (Group (GroupTestResult.add_result GroupTestResult.__init__ nm r))]
       = true
    /\ TestResults.had_failures [] = false
    /\ (forall self : TestResults.t,
          TestResults.had_failures self =
          existsb (fun e : entry =>
                     match result_of e with
                     | Single _ => false
                     | Group g => GroupTestResult.result g =? Result.FAIL
                     end) self).
Proof.
  intros nm notes confidence. repeat split. exact had_failures_groups.
Qed.

(** C2.  A group starts with the aggregate SKIP.  After any run of
    [add_result] calls the members are exactly the added records, in
    order, each call appending one member and removing none; the
    aggregate is FAIL when a FAIL member was added (also when PASS
    members follow it), PASS when a PASS member and no FAIL member was
    added, and SKIP otherwise.  This holds for any outcomes, hence for
    outcomes among PASS, FAIL and SKIP. *)
Theorem C2_group_aggregate :
  forall rs : list (named TestResult.t),
    GroupTestResult.result GroupTestResult.__init__ = Result.SKIP
    /\ GroupTestResult.results GroupTestResult.__init__ = []
    /\ GroupTestResult.results (GroupTestResult.add_all GroupTestResult.__init__ rs) = rs
    /\ GroupTestResult.result (GroupTestResult.add_all GroupTestResult.__init__ rs) =
       (if existsb is_fail rs then Result.FAIL
        else if existsb is_pass rs then Result.PASS
        else Result.SKIP)
    /\ (forall (pre post : list (named TestResult.t)) nm notes confidence,
          GroupTestResult.result
            (GroupTestResult.add_all GroupTestResult.__init__
               (pre ++ Named nm (TestResult.__init__ Result.FAIL notes confidence) :: post))
          = Result.FAIL)
    /\ (forall g nm r,
          GroupTestResult.results (GroupTestResult.add_result g nm r) =
          GroupTestResult.results g ++ [Named nm r]
          /\ GroupTestResult.__len__ (GroupTestResult.add_result g nm r) =
             S (GroupTestResult.__len__ g)).
Proof.
  intros rs. split; [reflexivity|]. split; [reflexivity|].
  split; [apply add_all_results|].
  split; [rewrite add_all_result; apply fold_step_skip|].
  split.
  - intros pre post nm notes confidence.
    rewrite add_all_result. change (GroupTestResult.result GroupTestResult.__init__)
      with Result.SKIP.
    rewrite fold_step_skip, existsb_app. simpl.
    now rewrite orb_true_r.
  - intros g nm r. split; [reflexivity|].
    unfold GroupTestResult.__len__. simpl. rewrite length_app. simpl. lia.
Qed.

(** ** The visibility filter *)

(** C3.  At each of the four verbosity levels the filter shows a FAIL
    exactly at FAIL_ONLY, NOT_PASS and ALL, a SKIP exactly at NOT_PASS and
    ALL, and a PASS exactly at ALL. *)
Theorem C3_check_display_result :
  forall display_mode : Z,
    In display_mode display_types ->
    (_check_display_result Result.FAIL display_mode = true <->
       display_mode = ResultDisplayType.DISPLAY_FAIL_ONLY
       \/ display_mode = ResultDisplayType.DISPLAY_NOT_PASS
       \/ display_mode = ResultDisplayType.DISPLAY_ALL)
    /\ (_check_display_result Result.SKIP display_mode = true <->
          display_mode = ResultDisplayType.DISPLAY_NOT_PASS
          \/ display_mode = ResultDisplayType.DISPLAY_ALL)
    /\ (_check_display_result Result.PASS display_mode = true <->
          display_mode = ResultDisplayType.DISPLAY_ALL).
Proof.
  intros m Hm. simpl in Hm.
  destruct Hm as [<-|[<-|[<-|[<-|[]]]]]; vm_compute;
    (repeat split; intros; try discriminate; try congruence; auto;
     repeat match goal with H : _ \/ _ |- _ => destruct H end; congruence).
Qed.

Lemma C3_check_display_result_witness :
  In ResultDisplayType.DISPLAY_NOT_PASS display_types
  /\ (_check_display_result Result.SKIP ResultDisplayType.DISPLAY_NOT_PASS = true <->
        ResultDisplayType.DISPLAY_NOT_PASS = ResultDisplayType.DISPLAY_NOT_PASS
        \/ ResultDisplayType.DISPLAY_NOT_PASS = ResultDisplayType.DISPLAY_ALL).
Proof.
  split.
  - simpl. auto.
  - apply (C3_check_display_result ResultDisplayType.DISPLAY_NOT_PASS). simpl. auto.
Defined.

(** ** Statements, step by step *)

Lemma IO_bind_run {A B} (m : IO A) (k : A -> IO B) (w : World) :
  (m ≫= k) w =
  match m w with
  | (w', Ok a) => k a w'
  | (w', Raise e) => (w', Raise e)
  end.
Proof. reflexivity. Qed.

Lemma lift_bind_ok {A B} (a : A) (k : A -> IO B) (w : World) :
  (lift (Ok a) ≫= k) w = k a w.
Proof. reflexivity. Qed.

Lemma lift_bind_raise {A B} (e : exn) (k : A -> IO B) (w : World) :
  (lift (Raise e) ≫= k) w = (w, Raise e).
Proof. reflexivity. Qed.

Lemma set_stdout_same w : set_stdout (stdout w) w = w.
Proof. now destruct w. Qed.

Lemma set_files_same w : set_files (files w) w = w.
Proof. now destruct w. Qed.

Lemma for_each_print (xs : list string) (w : World) :
  for_each xs print w = (set_stdout (stdout w ++ xs) w, Ok tt).
Proof.
  revert w. induction xs as [|x xs IH]; intros w.
  - simpl. rewrite app_nil_r, set_stdout_same. reflexivity.
  - simpl. rewrite IO_bind_run. unfold print at 1. rewrite IH.
    unfold set_stdout. simpl. now rewrite <- app_assoc.
Qed.

(** A row is built whenever the confidence has a text. *)
Lemma build_result_string_ok nm result confidence notes use_color colors indent widths cs :
  conf_string_of confidence = Ok cs ->
  exists s, _build_result_string nm result confidence notes use_color colors indent widths
            = Ok s.
Proof.
  intros Hc. unfold _build_result_string. rewrite Hc.
  destruct (result =? Result.PASS), (result =? Result.SKIP), (result =? Result.FAIL);
    eexists; reflexivity.
Qed.

Lemma build_result_string_raise nm result confidence notes use_color colors indent widths e :
  conf_string_of confidence = Raise e ->
  _build_result_string nm result confidence notes use_color colors indent widths = Raise e.
Proof.
  intros Hc. unfold _build_result_string. rewrite Hc.
  now destruct (result =? Result.PASS), (result =? Result.SKIP), (result =? Result.FAIL).
Qed.

(** What the loop body does with a group. *)
Lemma display_entry_group nm g use_color display_type colors notes_width widths w :
  TestResults.display_entry (Named nm (Group g)) use_color display_type colors
    notes_width widths w =
  match TestResults.child_results (GroupTestResult.results g) use_color display_type
          colors notes_width widths with
  | Raise e => (w, Raise e)
  | Ok children =>
      if _check_display_result (GroupTestResult.result g) display_type
         || (display_type =? ResultDisplayType.DISPLAY_OVERALL_ONLY)
      then
        match _build_result_string nm (GroupTestResult.result g) PyNone (Some "")
                use_color colors false widths with
        | Raise e => (w, Raise e)
        | Ok parent => (set_stdout (stdout w ++ parent :: children) w, Ok tt)
        end
      else (w, Ok tt)
  end.
Proof.
  cbv beta iota zeta delta [TestResults.display_entry result_of name].
  destruct (TestResults.child_results _ _ _ _ _ _) as [children|e];
    [rewrite lift_bind_ok | now rewrite lift_bind_raise].
  destruct (_ || _); [|reflexivity].
  destruct (_build_result_string _ _ _ _ _ _ _ _) as [parent|e];
    [rewrite lift_bind_ok | now rewrite lift_bind_raise].
  rewrite IO_bind_run. unfold print at 1. rewrite for_each_print.
  unfold set_stdout. simpl. now rewrite <- app_assoc.
Qed.

(** ** The parent row of a group in the HTML report *)

(** The condition that guards the parent row hands the entry itself, a
    dict, to the filter: it depends on the verbosity alone. *)
Lemma html_parent_condition (res : entry) (display_type : Z) :
  _check_display_result res display_type
  || (display_type =? ResultDisplayType.DISPLAY_OVERALL_ONLY)
  = (display_type =? ResultDisplayType.DISPLAY_ALL)
    || (display_type =? ResultDisplayType.DISPLAY_OVERALL_ONLY).
Proof.
  unfold _check_display_result, py_eq, dict_PyEq.
  now destruct (display_type =? ResultDisplayType.DISPLAY_ALL).
Qed.

(** C4 (the code departs from the claim).  The claim asks the HTML report
    to show the parent row of a group when the aggregate passes the
    filter.  For the group [check-b] with a FAIL member [s1] and a PASS
    member [s2], at FAIL_ONLY, the aggregate FAIL passes the filter and
    the terminal report prints the parent row above the row of [s1]; the
    HTML rows are the row of [s1] alone.  The HTML parent row appears at
    ALL and at OVERALL_ONLY only, whatever the aggregate. *)
Theorem C4_html_group_row_dropped :
  let s1 := TestResult.__init__ Result.FAIL None (PyInt Result.CONF_SURE) in
  let s2 := TestResult.__init__ Result.PASS None (PyInt Result.CONF_SURE) in
  let g := GroupTestResult.add_result
             (GroupTestResult.add_result GroupTestResult.__init__ "s1" s1) "s2" s2 in
  let check_b : entry := Named "check-b" (Group g) in
  _check_display_result (GroupTestResult.result g) ResultDisplayType.DISPLAY_FAIL_ONLY = true
  /\ TestResults.html_entry_rows check_b ResultDisplayType.DISPLAY_FAIL_ONLY
     = _create_html_result_row (Named "s1" s1) true
  /\ (exists parent_row row1 row2,
        _create_html_group_row (Named "check-b" g) = Ok parent_row
        /\ _create_html_result_row (Named "s1" s1) true = Ok row1
        /\ _create_html_result_row (Named "s2" s2) true = Ok row2
        /\ TestResults.html_entry_rows check_b ResultDisplayType.DISPLAY_FAIL_ONLY
           = Ok row1
        /\ TestResults.html_entry_rows check_b ResultDisplayType.DISPLAY_ALL
           = Ok (parent_row +:+ row1 +:+ row2)
        /\ TestResults.html_entry_rows check_b ResultDisplayType.DISPLAY_OVERALL_ONLY
           = Ok parent_row)
  /\ (forall use_color colors notes_width widths w,
        exists parent child,
          _build_result_string "check-b" Result.FAIL PyNone (Some "") use_color colors
            false widths = Ok parent
          /\ stdout (TestResults.display_entry check_b use_color
                       ResultDisplayType.DISPLAY_FAIL_ONLY colors notes_width widths w).1
             = stdout w ++ [parent; child])
  /\ (forall (res : entry) (display_type : Z),
        _check_display_result res display_type
        || (display_type =? ResultDisplayType.DISPLAY_OVERALL_ONLY)
        = (display_type =? ResultDisplayType.DISPLAY_ALL)
          || (display_type =? ResultDisplayType.DISPLAY_OVERALL_ONLY)).
Proof.
  intros s1 s2 g check_b.
  split; [reflexivity|]. split; [reflexivity|]. split.
  - do 3 eexists. split; [reflexivity|]. split; [reflexivity|].
    split; [reflexivity|]. repeat split.
  - split; [|exact html_parent_condition].
    intros use_color colors notes_width widths w.
    destruct (build_result_string_ok "check-b" Result.FAIL PyNone (Some "") use_color
                colors false widths "" eq_refl) as [parent Hp].
    destruct (build_result_string_ok "s1" Result.FAIL (PyInt Result.CONF_SURE) None
                use_color colors true widths "" eq_refl) as [child Hc].
    exists parent, child. split; [exact Hp|].
    assert (Hch : TestResults.child_results (GroupTestResult.results g) use_color
                    ResultDisplayType.DISPLAY_FAIL_ONLY colors notes_width widths
                  = Ok [child]).
    { change (GroupTestResult.results g) with [Named "s1" s1; Named "s2" s2].
      cbn [TestResults.child_results result_of name].
      change (_check_display_result (TestResult.result s1) _) with true.
      change (_check_display_result (TestResult.result s2) _) with false.
      cbv iota.
      change (_build_result_string _ _ _ _ _ _ _ _)
        with (_build_result_string "s1" Result.FAIL (PyInt Result.CONF_SURE) None
                use_color colors true widths).
      now rewrite Hc. }
    unfold check_b. rewrite display_entry_group, Hch.
    change (GroupTestResult.result g) with Result.FAIL.
    change (_check_display_result Result.FAIL ResultDisplayType.DISPLAY_FAIL_ONLY) with true.
    cbv iota beta. simpl orb. cbv iota. now rewrite Hp.
Qed.

(** ** Strings and files *)

Lemma str_app_cons (a : ascii) (s1 s2 : string) :
  String a s1 +:+ s2 = String a (s1 +:+ s2).
Proof. reflexivity. Qed.

Lemma str_app_nil_r (s : string) : s +:+ "" = s.
Proof.
  induction s as [|a s IH]; [reflexivity|]. now rewrite str_app_cons, IH.
Qed.

Lemma str_app_assoc (s1 s2 s3 : string) : (s1 +:+ s2) +:+ s3 = s1 +:+ (s2 +:+ s3).
Proof.
  induction s1 as [|a s1 IH]; [reflexivity|]. now rewrite !str_app_cons, IH.
Qed.

Lemma str_length_app (s1 s2 : string) :
  String.length (s1 +:+ s2) = (String.length s1 + String.length s2)%nat.
Proof.
  induction s1 as [|a s1 IH]; [reflexivity|].
  rewrite str_app_cons. simpl. now rewrite IH.
Qed.

Lemma str_length_substring_0 (n : nat) (s : string) :
  (n <= String.length s)%nat -> String.length (substring 0 n s) = n.
Proof.
  revert s. induction n as [|n IH]; intros s Hn.
  - now destruct s.
  - destruct s as [|a s]; simpl in *; [lia|]. rewrite IH; [reflexivity | lia].
Qed.

Lemma concat_cons (x : string) (l : list string) :
  String.concat "" (x :: l) = x +:+ String.concat "" l.
Proof. destruct l; simpl; [symmetry; apply str_app_nil_r | reflexivity]. Qed.

Lemma open_w_ok path w :
  open_error w path = None ->
  open_w path w = (set_files (<[path := ""]> (files w)) w, Ok tt).
Proof. intros H. unfold open_w. now rewrite H. Qed.

Lemma open_w_fail path w e :
  open_error w path = Some e -> open_w path w = (w, Raise e).
Proof. intros H. unfold open_w. now rewrite H. Qed.

(** A path with a NUL character is refused; any other path is opened or
    meets an environment error. *)
Lemma open_error_cases w path :
  (no_char NUL path = false /\ open_error w path = Some ValueError)
  \/ (no_char NUL path = true
      /\ (open_error w path = None \/ open_error w path = Some EnvironmentError)).
Proof.
  unfold open_error. destruct (no_char NUL path); cbn [negb]; [right | now left].
  split; [reflexivity|]. destruct (_ || _); auto.
Qed.

(** A run of writes on an open file adds the texts in order. *)
Lemma for_each_file_write {A} (f : A -> string) path (xs : list A) (w : World) c :
  files w !! path = Some c ->
  for_each xs (fun x => file_write path (f x)) w
  = (set_files (<[path := c +:+ String.concat "" (map f xs)]> (files w)) w, Ok tt).
Proof.
  revert w c. induction xs as [|x xs IH]; intros w c Hc.
  - simpl. rewrite str_app_nil_r, insert_id by exact Hc.
    now rewrite set_files_same.
  - cbn [for_each]. rewrite IO_bind_run. unfold file_write at 1. rewrite Hc.
    cbn [default]. erewrite IH.
    2:{ cbn [files set_files]. apply lookup_insert_eq. }
    cbn [files set_files map]. rewrite insert_insert_eq, concat_cons, str_app_assoc.
    reflexivity.
Qed.

(** ** One row, one object per leaf *)

Lemma confidence_text_hashable (c : pyval) :
  hashable c = true -> _confidence_text c = Ok (confidence_cell c).
Proof.
  destruct c as [|n|s|xs]; intros H; try discriminate; try reflexivity.
  unfold _confidence_text, dict_get, confidence_cell. cbn [hashable dict_find py_key_eqb].
  rewrite (Z.eqb_sym Result.CONF_GUESS n), (Z.eqb_sym Result.CONF_SURE n).
  destruct (n =? Result.CONF_GUESS) eqn:Hg, (n =? Result.CONF_SURE) eqn:Hs; try reflexivity.
  apply Z.eqb_eq in Hg, Hs. subst n. discriminate.
Qed.

Lemma sub_rows_ok (nm : string) (subs : list (named TestResult.t)) :
  forallb (fun m : named TestResult.t => hashable (TestResult.confidence (result_of m)))
          subs = true ->
  TestResults.sub_rows nm subs =
  Ok (map (fun m : named TestResult.t => csv_row_of_leaf (nm, Some (name m), result_of m))
          subs).
Proof.
  induction subs as [|m subs IH]; intros H; [reflexivity|].
  cbn [forallb] in H. apply andb_true_iff in H as [Hm Hs].
  cbn [TestResults.sub_rows]. rewrite (confidence_text_hashable _ Hm), (IH Hs).
  reflexivity.
Qed.

Lemma forallb_map {A B} (f : B -> bool) (g : A -> B) (l : list A) :
  forallb f (map g l) = forallb (fun x => f (g x)) l.
Proof. induction l as [|x l IH]; simpl; [reflexivity | now rewrite IH]. Qed.

Lemma leaves_cons (e : entry) (self : TestResults.t) :
  leaves (e :: self) = leaves [e] ++ leaves self.
Proof. unfold leaves. simpl. now rewrite app_nil_r. Qed.

Lemma csv_rows_ok (self : TestResults.t) :
  hashable_confidences self = true ->
  TestResults.csv_rows self = Ok (map csv_row_of_leaf (leaves self)).
Proof.
  unfold hashable_confidences.
  induction self as [|e self IH]; intros H; [reflexivity|].
  rewrite leaves_cons, forallb_app in H. apply andb_true_iff in H as [He Hs].
  rewrite leaves_cons, map_app. cbn [TestResults.csv_rows]. rewrite (IH Hs).
  destruct e as [nm [r|g]]; cbn [result_of name].
  - cbn in He. rewrite andb_true_r in He.
    rewrite (confidence_text_hashable _ He). reflexivity.
  - rewrite sub_rows_ok.
    + cbn. rewrite app_nil_r, map_map. reflexivity.
    + cbn in He. rewrite app_nil_r, forallb_map in He. exact He.
Qed.

Lemma json_leaf_objects_ok (self : TestResults.t) :
  json_leaf_objects (TestResults.json_tests self) = map json_of_leaf (leaves self).
Proof.
  induction self as [|e self IH]; [reflexivity|].
  rewrite leaves_cons, map_app, <- IH.
  destruct e as [nm [r|g]].
  - change (TestResults.json_tests (Named nm (Single r) :: self))
      with (TestResults.json_leaf nm r :: TestResults.json_tests self).
    unfold json_leaf_objects at 1. cbn [flat_map].
    unfold TestResults.json_leaf at 1.
    now destruct (json_of_opt (_result_text (TestResult.result r))).
  - cbn. rewrite app_nil_r, map_map. reflexivity.
Qed.

(** ** The writers on a destination that can be opened *)

Lemma write_csv_ok csv_line (self : TestResults.t) filename w :
  hashable_confidences self = true ->
  open_error w filename = None ->
  TestResults.write_csv csv_line self filename w =
  (set_logged (logged w ++ [(INFO, "Preparing to write CSV file [ " +:+ filename +:+ " ] ");
                            (INFO, "Writing CSV file: [ " +:+ filename +:+ " ] successful ")])
     (set_files (<[filename := String.concat ""
                                 (map csv_line
                                      (csv_header :: map csv_row_of_leaf (leaves self)))]>
                   (files w)) w),
   Ok tt).
Proof.
  intros Hh Ho. rewrite map_cons, concat_cons. unfold TestResults.write_csv.
  rewrite IO_bind_run. unfold logger_info at 1. cbv zeta.
  rewrite (csv_rows_ok _ Hh), lift_bind_ok.
  unfold try_except_else. rewrite IO_bind_run, open_w_ok by exact Ho.
  rewrite IO_bind_run. unfold file_write at 1.
  cbn [files set_files set_logged]. rewrite lookup_insert_eq. cbn [default].
  erewrite for_each_file_write.
  2:{ cbn [files set_files]. apply lookup_insert_eq. }
  unfold logger_info, set_logged, set_files. cbn -[String.concat String.append].
  rewrite !insert_insert_eq, <- app_assoc. reflexivity.
Qed.

Lemma write_json_ok json_dump (self : TestResults.t) filename w :
  open_error w filename = None ->
  TestResults.write_json json_dump self filename w =
  (set_logged (logged w ++ [(INFO, "Preparing to write JSON file [ " +:+ filename +:+ " ]");
                            (INFO, "Writing JSON file: [ " +:+ filename +:+ " ] successful!")])
     (set_files (<[filename := json_dump (JArray (TestResults.json_tests self))]> (files w)) w),
   Ok tt).
Proof.
  intros Ho. unfold TestResults.write_json.
  rewrite IO_bind_run. unfold logger_info at 1. cbv zeta.
  unfold try_except_else. rewrite IO_bind_run, open_w_ok by exact Ho.
  unfold file_write. cbn [files set_files set_logged]. rewrite lookup_insert_eq.
  unfold logger_info, set_logged, set_files. cbn.
  rewrite !insert_insert_eq, <- app_assoc. reflexivity.
Qed.

(** C5.  On a collection whose confidences can be looked up, the rows
    handed to the CSV writer are the rows of the leaves, one each and in
    the order of the collection, and the leaf objects of the JSON value
    are the objects of the leaves, one each and in the same order; neither
    writer takes a verbosity.  On a destination that can be opened both
    writers return, the CSV file holds the header line followed by the
    lines of those rows and the JSON file holds the dump of the array; for
    the empty collection these are the header line alone and the dump of
    the empty array. *)
Theorem C5_csv_json_one_per_leaf :
  forall (csv_line : list cell -> string) (json_dump : json -> string)
         (self : TestResults.t) (filename : string) (w : World),
    hashable_confidences self = true ->
    open_error w filename = None ->
    TestResults.csv_rows self = Ok (map csv_row_of_leaf (leaves self))
    /\ (TestResults.write_csv csv_line self filename w).2 = Ok tt
    /\ files (TestResults.write_csv csv_line self filename w).1 !! filename
       = Some (String.concat ""
                 (map csv_line (csv_header :: map csv_row_of_leaf (leaves self))))
    /\ json_leaf_objects (TestResults.json_tests self) = map json_of_leaf (leaves self)
    /\ (TestResults.write_json json_dump self filename w).2 = Ok tt
    /\ files (TestResults.write_json json_dump self filename w).1 !! filename
       = Some (json_dump (JArray (TestResults.json_tests self)))
    /\ files (TestResults.write_csv csv_line [] filename w).1 !! filename
       = Some (csv_line csv_header)
    /\ files (TestResults.write_json json_dump [] filename w).1 !! filename
       = Some (json_dump (JArray [])).
Proof.
  intros csv_line json_dump self filename w Hh Ho.
  split; [now apply csv_rows_ok|].
  rewrite (write_csv_ok csv_line self filename w Hh Ho).
  rewrite (write_csv_ok csv_line [] filename w eq_refl Ho).
  rewrite !(write_json_ok json_dump _ filename w Ho).
  cbn [fst snd files set_files set_logged].
  rewrite !lookup_insert_eq.
  repeat split; try reflexivity. apply json_leaf_objects_ok.
Qed.

Lemma C5_csv_json_one_per_leaf_witness :
  hashable_confidences scenario = true
  /\ open_error sample_world "report.csv" = None
  /\ TestResults.csv_rows scenario = Ok (map csv_row_of_leaf (leaves scenario))
  /\ length (leaves scenario) = 3%nat.
Proof.
  split; [reflexivity|]. split; [reflexivity|]. split; [|reflexivity].
  apply (C5_csv_json_one_per_leaf sample_csv_line sample_json_dump scenario
           "report.csv" sample_world); reflexivity.
Defined.

(** ** Notes in the terminal report *)

Lemma truthy_nonempty (s : string) : 0 < py_len s -> truthy (Some s) = true.
Proof. destruct s; [unfold py_len; simpl; lia | reflexivity]. Qed.

Lemma slice_to_nonneg (s : string) (stop : Z) :
  0 <= stop <= py_len s -> slice_to s stop = substring 0 (Z.to_nat stop) s.
Proof.
  intros H. unfold slice_to.
  destruct (stop <? 0) eqn:Hs; [apply Z.ltb_lt in Hs; lia|].
  now rewrite Z.min_l by lia.
Qed.

Lemma check_display_all {A} `{PyEq A} (x : A) :
  _check_display_result x ResultDisplayType.DISPLAY_ALL = true.
Proof. reflexivity. Qed.

(** What the loop body does with a bare record. *)
Lemma display_entry_single nm r use_color display_type colors notes_width widths w :
  TestResults.display_entry (Named nm (Single r)) use_color display_type colors
    notes_width widths w =
  if _check_display_result (TestResult.result r) display_type
     || (display_type =? ResultDisplayType.DISPLAY_OVERALL_ONLY)
  then
    match _build_result_string nm (TestResult.result r) (TestResult.confidence r)
            (truncate_notes (TestResult.notes r) notes_width) use_color colors false
            widths with
    | Raise e => (w, Raise e)
    | Ok row => (set_stdout (stdout w ++ [row]) w, Ok tt)
    end
  else (w, Ok tt).
Proof.
  cbv beta iota zeta delta [TestResults.display_entry result_of name].
  destruct (_ || _); [|reflexivity].
  now destruct (_build_result_string _ _ _ _ _ _ _ _) as [row|e].
Qed.

(** ** The writers on a destination that cannot be opened *)

Lemma read_file_run path w : read_file path w = (w, template_text w path).
Proof.
  unfold template_text, read_file.
  destruct (open_error w path); [reflexivity|]. now destruct (files w !! path).
Qed.

Lemma write_csv_locked csv_line (self : TestResults.t) filename w :
  hashable_confidences self = true ->
  open_error w filename = Some EnvironmentError ->
  TestResults.write_csv csv_line self filename w =
  (set_logged (logged w ++ [(INFO, "Preparing to write CSV file [ " +:+ filename +:+ " ] ");
                            (INFO, "Unable to open CSV file [ " +:+ filename
                                   +:+ " ] for writing")]) w,
   Ok tt).
Proof.
  intros Hh Ho. unfold TestResults.write_csv.
  rewrite IO_bind_run. unfold logger_info at 1. cbv zeta.
  rewrite (csv_rows_ok _ Hh), lift_bind_ok.
  unfold try_except_else. rewrite IO_bind_run. erewrite open_w_fail by exact Ho.
  unfold logger_info, set_logged. cbn -[String.append]. now rewrite <- app_assoc.
Qed.

Lemma write_json_locked json_dump (self : TestResults.t) filename w :
  open_error w filename = Some EnvironmentError ->
  TestResults.write_json json_dump self filename w =
  (set_logged (logged w ++ [(INFO, "Preparing to write JSON file [ " +:+ filename +:+ " ]");
                            (INFO, "Unable to open JSON file [ " +:+ filename
                                   +:+ " ] for writing!")]) w,
   Ok tt).
Proof.
  intros Ho. unfold TestResults.write_json.
  rewrite IO_bind_run. unfold logger_info at 1. cbv zeta.
  unfold try_except_else. rewrite IO_bind_run. erewrite open_w_fail by exact Ho.
  unfold logger_info, set_logged. cbn -[String.append]. now rewrite <- app_assoc.
Qed.

(** The HTML rows of a collection with valid outcomes are built. *)
Lemma result_to_class_ok r :
  valid_outcome r = true -> exists c, _result_to_class r = Ok c.
Proof.
  unfold valid_outcome, _result_to_class, dict_getitem.
  cbn [hashable dict_find py_key_eqb].
  rewrite (Z.eqb_sym Result.PASS r), (Z.eqb_sym Result.FAIL r), (Z.eqb_sym Result.SKIP r).
  destruct (r =? Result.PASS); [eexists; reflexivity|].
  destruct (r =? Result.FAIL); [eexists; reflexivity|].
  destruct (r =? Result.SKIP); [eexists; reflexivity|]. discriminate.
Qed.

Lemma create_html_result_row_ok (m : named TestResult.t) do_indent :
  valid_outcome (TestResult.result (result_of m)) = true ->
  exists row, _create_html_result_row m do_indent = Ok row.
Proof.
  intros Hv. destruct (result_to_class_ok _ Hv) as [c Hc].
  unfold _create_html_result_row. rewrite Hc. eexists. reflexivity.
Qed.

Lemma create_html_group_row_ok (m : named GroupTestResult.t) :
  valid_outcome (GroupTestResult.result (result_of m)) = true ->
  exists row, _create_html_group_row m = Ok row.
Proof.
  intros Hv. destruct (result_to_class_ok _ Hv) as [c Hc].
  unfold _create_html_group_row. rewrite Hc. eexists. reflexivity.
Qed.

Lemma child_rows_ok (ms : list (named TestResult.t)) display_type :
  forallb (fun m : named TestResult.t => valid_outcome (TestResult.result (result_of m)))
          ms = true ->
  exists rows, TestResults.child_rows ms display_type = Ok rows.
Proof.
  induction ms as [|m ms IH]; intros H; [eexists; reflexivity|].
  cbn [forallb] in H. apply andb_true_iff in H as [Hm Hs].
  destruct (IH Hs) as [rows Hrows].
  destruct (create_html_result_row_ok m true Hm) as [row Hrow].
  cbn [TestResults.child_rows]. rewrite Hrow, Hrows.
  destruct (_check_display_result _ _); eexists; reflexivity.
Qed.

Lemma valid_outcomes_cons (e : entry) (self : TestResults.t) :
  valid_outcomes (e :: self) = true ->
  valid_outcome (entry_outcome e) = true
  /\ forallb (fun l : leaf => valid_outcome (TestResult.result l.2)) (leaves [e]) = true
  /\ valid_outcomes self = true.
Proof.
  unfold valid_outcomes. rewrite leaves_cons, forallb_app. cbn [forallb].
  rewrite !andb_true_iff. tauto.
Qed.

Lemma html_entry_rows_ok (e : entry) display_type :
  valid_outcome (entry_outcome e) = true ->
  forallb (fun l : leaf => valid_outcome (TestResult.result l.2)) (leaves [e]) = true ->
  exists rows, TestResults.html_entry_rows e display_type = Ok rows.
Proof.
  destruct e as [nm [r|g]]; intros He Hl; unfold TestResults.html_entry_rows;
    cbn [result_of name].
  - destruct (_ || _); [|eexists; reflexivity].
    now apply create_html_result_row_ok.
  - destruct (child_rows_ok (GroupTestResult.results g) display_type) as [rows Hrows].
    { cbn in Hl. rewrite app_nil_r, forallb_map in Hl. exact Hl. }
    rewrite Hrows.
    destruct (create_html_group_row_ok (Named nm g) He) as [row Hrow].
    rewrite Hrow. destruct (_ || _); eexists; reflexivity.
Qed.

Lemma html_rows_ok (self : TestResults.t) display_type acc :
  valid_outcomes self = true ->
  exists rows, TestResults.html_rows_from acc self display_type = Ok rows.
Proof.
  revert acc. induction self as [|e self IH]; intros acc H; [eexists; reflexivity|].
  apply valid_outcomes_cons in H as (He & Hl & Hs).
  destruct (html_entry_rows_ok e display_type He Hl) as [new Hnew].
  cbn [TestResults.html_rows_from]. rewrite Hnew. apply (IH _ Hs).
Qed.

Lemma write_html_run (self : TestResults.t) filename html_template display_type w rows :
  TestResults.html_rows_from "" self display_type = Ok rows ->
  TestResults.write_html self filename html_template display_type w =
  match template_text w html_template with
  | Raise EnvironmentError =>
      (set_logged (logged w ++ [(INFO, "Preparing to write HTML file: [ " +:+ filename
                                       +:+ " ]");
                                (ERROR, "Unable to open template file: [ "
                                        +:+ html_template +:+ " ]")]) w,
       Ok tt)
  | Raise e =>
      (set_logged (logged w ++ [(INFO, "Preparing to write HTML file: [ " +:+ filename
                                       +:+ " ]")]) w,
       Raise e)
  | Ok template =>
      match open_error w filename with
      | Some EnvironmentError =>
          (set_logged (logged w ++ [(INFO, "Preparing to write HTML file: [ " +:+ filename
                                           +:+ " ]");
                                    (ERROR, "Unable to open output file: [ " +:+ filename
                                            +:+ " ] for writing")]) w,
           Ok tt)
      | Some e =>
          (set_logged (logged w ++ [(INFO, "Preparing to write HTML file: [ " +:+ filename
                                           +:+ " ]")]) w,
           Raise e)
      | None =>
          (set_logged (logged w ++ [(INFO, "Preparing to write HTML file: [ " +:+ filename
                                           +:+ " ]");
                                    (INFO, "Successfully wrote HTML file: [ " +:+ filename
                                           +:+ " ]")])
             (set_files (<[filename := str_replace "$$$RESULTS$$$" rows template]> (files w))
                w),
           Ok tt)
      end
  end.
Proof.
  intros Hrows. unfold TestResults.write_html. cbv zeta.
  rewrite IO_bind_run. unfold logger_info at 1.
  rewrite Hrows, lift_bind_ok.
  unfold try_except_else at 1. rewrite read_file_run.
  change (template_text (set_logged _ w) html_template)
    with (template_text w html_template).
  destruct (template_text w html_template) as [template|[]]; try reflexivity.
  - unfold try_except_else, open_w.
    change (open_error (set_logged _ w) filename) with (open_error w filename).
    destruct (open_error w filename) as [[]|]; try reflexivity.
    + unfold logger_error, set_logged. cbn -[String.append]. now rewrite <- app_assoc.
    + rewrite IO_bind_run. unfold file_write, logger_info, set_logged, set_files.
      cbn -[String.append str_replace]. rewrite lookup_insert_eq, insert_insert_eq.
      cbn [default from_option id]. now rewrite <- app_assoc.
  - unfold logger_error, set_logged. cbn -[String.append]. now rewrite <- app_assoc.
Qed.

(** C7.  On a collection of the data model (valid outcomes, confidences
    that can be looked up) and a destination whose open raises an
    environment error, the CSV, JSON and HTML writers log the failure and
    return without raising, and leave every file as it was; the HTML
    writer does so with a template that it can read and with one that it
    cannot.  When the template of the HTML writer cannot be read, the
    writer logs that and returns before opening any destination, whatever
    the destination. *)
Theorem C7_writers_open_failure :
  forall (csv_line : list cell -> string) (json_dump : json -> string)
         (self : TestResults.t) (filename html_template bad_template : string)
         (display_type : Z) (w : World),
    hashable_confidences self = true ->
    valid_outcomes self = true ->
    open_error w filename = Some EnvironmentError ->
    template_text w bad_template = Raise EnvironmentError ->
    TestResults.write_csv csv_line self filename w
    = (set_logged
         (logged w ++ [(INFO, "Preparing to write CSV file [ " +:+ filename +:+ " ] ");
                       (INFO, "Unable to open CSV file [ " +:+ filename
                              +:+ " ] for writing")]) w,
       Ok tt)
    /\ TestResults.write_json json_dump self filename w
       = (set_logged
            (logged w ++ [(INFO, "Preparing to write JSON file [ " +:+ filename +:+ " ]");
                          (INFO, "Unable to open JSON file [ " +:+ filename
                                 +:+ " ] for writing!")]) w,
          Ok tt)
    /\ (forall template : string,
          template_text w html_template = Ok template ->
          TestResults.write_html self filename html_template display_type w
          = (set_logged
               (logged w ++ [(INFO, "Preparing to write HTML file: [ " +:+ filename
                                    +:+ " ]");
                             (ERROR, "Unable to open output file: [ " +:+ filename
                                     +:+ " ] for writing")]) w,
             Ok tt))
    /\ (forall destination : string,
          TestResults.write_html self destination bad_template display_type w
          = (set_logged
               (logged w ++ [(INFO, "Preparing to write HTML file: [ " +:+ destination
                                    +:+ " ]");
                             (ERROR, "Unable to open template file: [ " +:+ bad_template
                                     +:+ " ]")]) w,
             Ok tt))
    /\ files (TestResults.write_csv csv_line self filename w).1 = files w
    /\ files (TestResults.write_json json_dump self filename w).1 = files w
    /\ files (TestResults.write_html self filename html_template display_type w).1 = files w
    /\ (forall destination : string,
          files (TestResults.write_html self destination bad_template display_type w).1
          = files w).
Proof.
  intros csv_line json_dump self filename html_template bad_template display_type w
         Hh Hv Ho Ht.
  destruct (html_rows_ok self display_type "" Hv) as [rows Hrows].
  assert (Hhtml : forall template : string,
            template_text w html_template = Ok template ->
            TestResults.write_html self filename html_template display_type w
            = (set_logged
                 (logged w ++ [(INFO, "Preparing to write HTML file: [ " +:+ filename
                                      +:+ " ]");
                               (ERROR, "Unable to open output file: [ " +:+ filename
                                       +:+ " ] for writing")]) w,
               Ok tt)).
  { intros template Htemplate.
    now rewrite (write_html_run _ _ _ _ _ _ Hrows), Htemplate, Ho. }
  assert (Hbad : forall destination : string,
            TestResults.write_html self destination bad_template display_type w
            = (set_logged
                 (logged w ++ [(INFO, "Preparing to write HTML file: [ " +:+ destination
                                      +:+ " ]");
                               (ERROR, "Unable to open template file: [ " +:+ bad_template
                                       +:+ " ]")]) w,
               Ok tt)).
  { intros destination. now rewrite (write_html_run _ _ _ _ _ _ Hrows), Ht. }
  rewrite (write_csv_locked csv_line self filename w Hh Ho).
  rewrite (write_json_locked json_dump self filename w Ho).
  repeat split; try reflexivity; try exact Hhtml; try exact Hbad.
  - rewrite (write_html_run _ _ _ _ _ _ Hrows), Ho.
    now destruct (template_text w html_template) as [template|[]].
  - intros destination. now rewrite Hbad.
Qed.

Lemma C7_writers_open_failure_witness :
  hashable_confidences scenario = true
  /\ valid_outcomes scenario = true
  /\ open_error sample_world "/missing/report.csv" = Some EnvironmentError
  /\ template_text sample_world "/missing/report.tpl" = Raise EnvironmentError
  /\ TestResults.write_csv sample_csv_line scenario "/missing/report.csv" sample_world
     = (set_logged
          [(INFO, "Preparing to write CSV file [ /missing/report.csv ] ");
           (INFO, "Unable to open CSV file [ /missing/report.csv ] for writing")]
          sample_world,
        Ok tt).
Proof.
  split; [reflexivity|]. split; [reflexivity|]. split; [reflexivity|].
  split; [reflexivity|].
  exact (proj1 (C7_writers_open_failure sample_csv_line sample_json_dump scenario
                  "/missing/report.csv" "report.tpl" "/missing/report.tpl"
                  ResultDisplayType.DISPLAY_NOT_PASS sample_world
                  eq_refl eq_refl eq_refl eq_refl)).
Defined.

(** ** The text of a confidence *)

Lemma conf_string_of_other (confidence : pyval) :
  confidence <> PyInt Result.CONF_SURE ->
  confidence <> PyInt Result.CONF_GUESS ->
  confidence <> PyNone ->
  conf_string_of confidence = Raise KeyError
  \/ conf_string_of confidence = Raise TypeError.
Proof.
  intros Hs Hg Hn. destruct confidence as [|n|s|xs]; [congruence| |now left|now right].
  left. unfold conf_string_of, dict_getitem. cbn [hashable dict_find py_key_eqb].
  destruct (Result.CONF_SURE =? n) eqn:H1; [apply Z.eqb_eq in H1; congruence|].
  destruct (Result.CONF_GUESS =? n) eqn:H3; [apply Z.eqb_eq in H3; congruence|].
  reflexivity.
Qed.

(** A row is a text that depends on neither the confidence nor the
    notes, then the text of the confidence padded to its column, then the
    notes. *)
Lemma build_result_string_shape nm result use_color colors indent widths :
  exists head : string,
    forall (c : pyval) (notes : option string) (cs : string),
      conf_string_of c = Ok cs ->
      _build_result_string nm result c notes use_color colors indent widths
      = Ok (head +:+ ljust cs (TEST_CONFIDENCE widths) +:+ default "" notes).
Proof.
  unfold _build_result_string.
  destruct (result =? Result.PASS), (result =? Result.SKIP), (result =? Result.FAIL);
    eexists; intros c notes cs Hc; rewrite Hc;
    cbv beta iota zeta delta [mbind raising_bind];
    apply f_equal;
    rewrite <- (str_app_assoc _ (ljust cs (TEST_CONFIDENCE widths)) (default "" notes));
    destruct notes as [[|a s]|]; cbn [truthy format_opt default from_option id];
    rewrite ?(str_app_nil_r (_ +:+ ljust cs _)); reflexivity.
Qed.

(** C8.  The confidence text of a terminal row is looked up without a
    fallback.  For SURE and for an absent confidence it is empty and for
    GUESS it is [guess], and the row shows it: the rows of the same record
    under these confidences are one and the same text, then the text of
    the confidence padded to the confidence column, then the notes.  For
    any other value the lookup raises, so that building the row raises and
    the report stops on the entry. *)
Theorem C8_confidence_lookup_fatal :
  forall (nm : string) (result : Z) (confidence : pyval) (notes : option string)
         (use_color indent : bool) (colors : term_colors_t) (widths : widths_t)
         (notes_width : Z) (w : World),
    confidence <> PyInt Result.CONF_SURE ->
    confidence <> PyInt Result.CONF_GUESS ->
    confidence <> PyNone ->
    conf_string_of (PyInt Result.CONF_SURE) = Ok ""
    /\ conf_string_of PyNone = Ok ""
    /\ conf_string_of (PyInt Result.CONF_GUESS) = Ok "guess"
    /\ (exists head : string,
          forall (c : pyval) (cs : string),
            In (c, cs) confidence_texts ->
            _build_result_string nm result c notes use_color colors indent widths
            = Ok (head +:+ ljust cs (TEST_CONFIDENCE widths) +:+ default "" notes))
    /\ raises (conf_string_of confidence)
    /\ raises (_build_result_string nm result confidence notes use_color colors indent
                 widths)
    /\ (exists e,
          TestResults.display_entry
            (Named nm (Single (TestResult.__init__ result notes confidence))) use_color
            ResultDisplayType.DISPLAY_ALL colors notes_width widths w
          = (w, Raise e)).
Proof.
  intros nm result confidence notes use_color indent colors widths notes_width w Hs Hg Hn.
  split; [reflexivity|]. split; [reflexivity|]. split; [reflexivity|]. split.
  { destruct (build_result_string_shape nm result use_color colors indent widths)
      as [head Hhead].
    exists head. intros c cs [H|[H|[H|[]]]]; injection H as <- <-; now apply Hhead. }
  assert (Hr : raises (conf_string_of confidence)).
  { destruct (conf_string_of_other confidence Hs Hg Hn) as [H|H]; eexists; exact H. }
  split; [exact Hr|]. destruct Hr as [e He]. split.
  - exists e. now apply build_result_string_raise.
  - exists e. rewrite display_entry_single, check_display_all. cbn [orb].
    unfold TestResult.result, TestResult.confidence, TestResult.notes.
    cbn [TestResult._result TestResult._confidence TestResult._notes].
    now rewrite (build_result_string_raise _ _ _ _ _ _ _ _ _ He).
Qed.

Lemma C8_confidence_lookup_fatal_witness :
  PyInt 2 <> PyInt Result.CONF_SURE
  /\ PyInt 2 <> PyInt Result.CONF_GUESS
  /\ PyInt 2 <> PyNone
  /\ raises (_build_result_string "check-a" Result.PASS (PyInt 2) None false
               sample_colors false
               {| TEST_NAME := 60; TEST_RESULT := 9; TEST_CONFIDENCE := 11; TOTAL := 80 |})
  /\ (exists head : string,
        _build_result_string "check-a" Result.PASS (PyInt Result.CONF_GUESS) None false
          sample_colors false
          {| TEST_NAME := 60; TEST_RESULT := 9; TEST_CONFIDENCE := 11; TOTAL := 80 |}
        = Ok (head +:+ "guess      ")).
Proof.
  assert (H1 : PyInt 2 <> PyInt Result.CONF_SURE) by discriminate.
  assert (H2 : PyInt 2 <> PyInt Result.CONF_GUESS) by discriminate.
  assert (H3 : PyInt 2 <> PyNone) by discriminate.
  split; [exact H1|]. split; [exact H2|]. split; [exact H3|].
  pose proof (C8_confidence_lookup_fatal "check-a" Result.PASS (PyInt 2) None false false
                sample_colors
                {| TEST_NAME := 60; TEST_RESULT := 9; TEST_CONFIDENCE := 11; TOTAL := 80 |}
                0 sample_world H1 H2 H3) as (_ & _ & _ & [head Hhead] & _ & Hraise & _).
  split; [exact Hraise|].
  exists head. exact (Hhead (PyInt Result.CONF_GUESS) "guess" ltac:(right; right; now left)).
Defined.

(** C10 (counterexample).  A value that cannot be hashed, such as a list,
    cannot be looked up at all: the conversion raises [TypeError] and the
    CSV writer fails with it, before any file is opened. *)
Lemma C10_counterexample :
  _confidence_text (PyList []) = Raise TypeError
  /\ TestResults.csv_rows
       [Named "check-a" (Single (TestResult.__init__ Result.PASS None (PyList [])))]
     = Raise TypeError
  /\ (TestResults.write_csv sample_csv_line
        [Named "check-a" (Single (TestResult.__init__ Result.PASS None (PyList [])))]
        "report.csv" sample_world).2
     = Raise TypeError.
Proof. repeat split. Qed.

Lemma confidence_cell_eq (v : pyval) :
  confidence_cell v =
  if py_key_eqb v (PyInt Result.CONF_SURE) then Some "sure"
  else if py_key_eqb v (PyInt Result.CONF_GUESS) then Some "guess"
  else None.
Proof. now destruct v. Qed.

(** C10 (amended).  For every value that can be hashed (an absent value, an
    integer, a string) the CSV conversion returns: [sure] for SURE, [guess]
    for GUESS and nothing for any other value, where the terminal lookup
    raises for such a value; the rows of a collection whose confidences
    can be hashed are built whatever the confidences are. *)
Theorem C10_confidence_text_total :
  forall (v : pyval) (self : TestResults.t),
    hashable v = true ->
    hashable_confidences self = true ->
    _confidence_text v
    = Ok (if py_key_eqb v (PyInt Result.CONF_SURE) then Some "sure"
          else if py_key_eqb v (PyInt Result.CONF_GUESS) then Some "guess"
          else None)
    /\ _confidence_text (PyInt Result.CONF_SURE) = Ok (Some "sure")
    /\ _confidence_text (PyInt Result.CONF_GUESS) = Ok (Some "guess")
    /\ _confidence_text (PyStr "maybe") = Ok None
    /\ conf_string_of (PyStr "maybe") = Raise KeyError
    /\ (exists rows, TestResults.csv_rows self = Ok rows).
Proof.
  intros v self Hv Hself.
  split; [rewrite <- confidence_cell_eq; now apply confidence_text_hashable|].
  repeat split. eexists. now apply csv_rows_ok.
Qed.

Lemma C10_confidence_text_total_witness :
  hashable (PyInt 7) = true
  /\ hashable_confidences
       [Named "check-a" (Single (TestResult.__init__ Result.PASS None (PyInt 7)))] = true
  /\ _confidence_text (PyInt 7) = Ok None.
Proof.
  split; [reflexivity|]. split; [reflexivity|].
  exact (proj1 (C10_confidence_text_total (PyInt 7)
                  [Named "check-a" (Single (TestResult.__init__ Result.PASS None (PyInt 7)))]
                  eq_refl eq_refl)).
Defined.

(** ** Hidden groups in the terminal report *)

Lemma for_each_app {A} (xs ys : list A) (body : A -> IO unit) (w : World) :
  for_each (xs ++ ys) body w =
  match for_each xs body w with
  | (w', Ok _) => for_each ys body w'
  | (w', Raise e) => (w', Raise e)
  end.
Proof.
  revert w. induction xs as [|x xs IH]; intros w; [reflexivity|].
  cbn [app for_each]. rewrite !IO_bind_run.
  destruct (body x w) as [w1 [[]|e]]; [apply IH | reflexivity].
Qed.

(** The loop body prints, and does nothing else to the world. *)
Lemma display_entry_prints e use_color display_type colors notes_width widths w :
  exists out,
    (TestResults.display_entry e use_color display_type colors notes_width widths w).1
    = set_stdout (stdout w ++ out) w.
Proof.
  destruct e as [nm [r|g]].
  - rewrite display_entry_single.
    destruct (_ || _); [destruct (_build_result_string _ _ _ _ _ _ _ _)|].
    + eexists. reflexivity.
    + exists []. now rewrite app_nil_r, set_stdout_same.
    + exists []. now rewrite app_nil_r, set_stdout_same.
  - rewrite display_entry_group.
    destruct (TestResults.child_results _ _ _ _ _ _);
      [destruct (_ || _); [destruct (_build_result_string _ _ _ _ _ _ _ _)|]|];
      try (eexists; reflexivity);
      exists []; now rewrite app_nil_r, set_stdout_same.
Qed.

Lemma for_each_display_prints es use_color display_type colors notes_width widths w :
  exists out,
    (for_each es (fun res => TestResults.display_entry res use_color display_type colors
                               notes_width widths) w).1
    = set_stdout (stdout w ++ out) w.
Proof.
  revert w. induction es as [|e es IH]; intros w.
  - exists []. cbn. now rewrite app_nil_r, set_stdout_same.
  - cbn [for_each]. rewrite IO_bind_run.
    destruct (display_entry_prints e use_color display_type colors notes_width widths w)
      as [out1 H1].
    destruct (TestResults.display_entry e _ _ _ _ _ w) as [w1 [[]|err]];
      cbn [fst] in H1; subst w1.
    + destruct (IH (set_stdout (stdout w ++ out1) w)) as [out2 H2].
      exists (out1 ++ out2). rewrite H2. unfold set_stdout. cbn.
      now rewrite <- app_assoc.
    + exists out1. reflexivity.
Qed.

(** The report stops before its first line when the colours cannot be
    made; otherwise it is the head lines, the loop and the closing line. *)
Lemma display_on_terminal_run (self : TestResults.t) use_color display_type w :
  TestResults.display_on_terminal self use_color display_type w =
  match term_colors w with
  | None => (w, Raise IndexError)
  | Some colors =>
      match for_each self
              (fun res => TestResults.display_entry res use_color display_type
                            colors (notes_width_of w) (widths_of w))
              (set_stdout (stdout w ++ report_head w) w) with
      | (w', Ok _) => (set_stdout (stdout w' ++ [nl]) w', Ok tt)
      | (w', Raise e) => (w', Raise e)
      end
  end.
Proof.
  unfold TestResults.display_on_terminal, _get_term_colors, _get_term_width.
  rewrite IO_bind_run. destruct (term_colors w) as [colors|]; [|reflexivity].
  rewrite !IO_bind_run. cbv zeta. cbn [TEST_NAME TEST_RESULT TEST_CONFIDENCE TOTAL].
  unfold print at 1. rewrite IO_bind_run. unfold print at 1. rewrite IO_bind_run.
  unfold print at 1. rewrite IO_bind_run. unfold print at 1. rewrite IO_bind_run.
  unfold set_stdout at 1 2 3 4.
  cbn [stdout files locked logged get_config TC term_width].
  rewrite <- !app_assoc. cbn [app].
  reflexivity.
Qed.

(** The loop body on a group whose parent row is hidden. *)
Lemma display_entry_hidden_group nm g use_color display_type colors notes_width widths w :
  _check_display_result (GroupTestResult.result g) display_type = false ->
  display_type <> ResultDisplayType.DISPLAY_OVERALL_ONLY ->
  TestResults.display_entry (Named nm (Group g)) use_color display_type colors
    notes_width widths w
  = (w, match TestResults.child_results (GroupTestResult.results g) use_color
                display_type colors notes_width widths with
        | Ok _ => Ok tt
        | Raise e => Raise e
        end).
Proof.
  intros Hf Hd. rewrite display_entry_group, Hf.
  apply Z.eqb_neq in Hd. rewrite Hd. cbn [orb].
  now destruct (TestResults.child_results _ _ _ _ _ _).
Qed.

(** C9.  A group whose aggregate does not pass the filter, at a verbosity
    other than OVERALL_ONLY, prints nothing: handling it leaves the
    standard output as it was, also when members of the group pass the
    filter, and every line of the report of a collection that holds the
    group is a line of the report of the collection without it. *)
Theorem C9_hidden_group_prints_nothing :
  forall (nm : string) (g : GroupTestResult.t) (use_color : bool) (display_type : Z)
         (colors : term_colors_t) (notes_width : Z) (widths : widths_t)
         (pre post : TestResults.t) (w : World),
    _check_display_result (GroupTestResult.result g) display_type = false ->
    display_type <> ResultDisplayType.DISPLAY_OVERALL_ONLY ->
    (TestResults.display_entry (Named nm (Group g)) use_color display_type colors
       notes_width widths w).1 = w
    /\ stdout (TestResults.display_entry (Named nm (Group g)) use_color display_type colors
                 notes_width widths w).1 = stdout w
    /\ stdout (TestResults.display_on_terminal (pre ++ Named nm (Group g) :: post)
                 use_color display_type w).1
       `prefix_of`
       stdout (TestResults.display_on_terminal (pre ++ post) use_color display_type w).1.
Proof.
  intros nm g use_color display_type colors notes_width widths pre post w Hf Hd.
  rewrite display_entry_hidden_group by assumption.
  split; [reflexivity|]. split; [reflexivity|].
  rewrite !display_on_terminal_run.
  destruct (term_colors w) as [probed|]; [|reflexivity].
  rewrite !for_each_app.
  destruct (for_each pre _ _) as [w1 [[]|e]]; [|reflexivity].
  cbn [for_each]. rewrite IO_bind_run, display_entry_hidden_group by assumption.
  destruct (TestResults.child_results _ _ _ _ _ _); [reflexivity|].
  cbn [fst].
  destruct (for_each_display_prints post use_color display_type probed
              (notes_width_of w) (widths_of w) w1) as [out Hout].
  destruct (for_each post _ w1) as [w2 [[]|e']]; cbn [fst] in *; subst w2;
    cbn [stdout set_stdout]; [rewrite <- app_assoc|]; now eexists.
Qed.

Lemma C9_hidden_group_prints_nothing_witness :
  _check_display_result Result.PASS ResultDisplayType.DISPLAY_NOT_PASS = false
  /\ ResultDisplayType.DISPLAY_NOT_PASS <> ResultDisplayType.DISPLAY_OVERALL_ONLY
  /\ _check_display_result Result.SKIP ResultDisplayType.DISPLAY_NOT_PASS = true
  /\ stdout (TestResults.display_entry pass_group false ResultDisplayType.DISPLAY_NOT_PASS
               sample_colors (notes_width_of sample_world)
               (widths_of sample_world) sample_world).1
     = stdout sample_world.
Proof.
  assert (Hd : ResultDisplayType.DISPLAY_NOT_PASS <> ResultDisplayType.DISPLAY_OVERALL_ONLY)
    by discriminate.
  split; [reflexivity|]. split; [exact Hd|]. split; [reflexivity|].
  exact (proj1 (proj2
    (C9_hidden_group_prints_nothing "check-c" (GroupTestResult.add_all
         GroupTestResult.__init__
         [Named "s1" (TestResult.__init__ Result.PASS None (PyInt Result.CONF_SURE));
          Named "s2" (TestResult.__init__ Result.SKIP (Some "not installed")
                        (PyInt Result.CONF_SURE))])
       false ResultDisplayType.DISPLAY_NOT_PASS sample_colors
       (notes_width_of sample_world) (widths_of sample_world) [] [] sample_world
       eq_refl Hd))).
Defined.

(** ** The lines of the terminal report *)

Lemma display_entry_lines e use_color display_type colors notes_width widths w :
  TestResults.display_entry e use_color display_type colors notes_width widths w
  = match entry_lines e use_color display_type colors notes_width widths with
    | Ok lines => (set_stdout (stdout w ++ lines) w, Ok tt)
    | Raise err => (w, Raise err)
    end.
Proof.
  destruct e as [nm [r|g]]; unfold entry_lines; cbn [result_of name].
  - rewrite display_entry_single.
    destruct (_ || _).
    + now destruct (_build_result_string _ _ _ _ _ _ _ _).
    + cbn. now rewrite app_nil_r, set_stdout_same.
  - rewrite display_entry_group.
    destruct (TestResults.child_results _ _ _ _ _ _) as [children|err]; [|reflexivity].
    cbn. destruct (_ || _).
    + now destruct (_build_result_string _ _ _ _ _ _ _ _).
    + cbn. now rewrite app_nil_r, set_stdout_same.
Qed.

Lemma for_each_report_lines self use_color display_type colors notes_width widths w lines :
  report_lines self use_color display_type colors notes_width widths = Ok lines ->
  for_each self (fun res => TestResults.display_entry res use_color display_type colors
                              notes_width widths) w
  = (set_stdout (stdout w ++ lines) w, Ok tt).
Proof.
  revert w lines. induction self as [|e self IH]; intros w lines H.
  - injection H as <-. cbn. now rewrite app_nil_r, set_stdout_same.
  - cbn [report_lines] in H. cbn [for_each]. rewrite IO_bind_run, display_entry_lines.
    destruct (entry_lines e _ _ _ _ _) as [ls|err]; [|discriminate].
    destruct (report_lines self _ _ _ _ _) as [more|err]; [|discriminate].
    injection H as <-. rewrite (IH _ more eq_refl).
    unfold set_stdout. cbn. now rewrite <- app_assoc.
Qed.

Lemma display_on_terminal_lines self use_color display_type w colors lines :
  term_colors w = Some colors ->
  report_lines self use_color display_type colors (notes_width_of w) (widths_of w)
  = Ok lines ->
  TestResults.display_on_terminal self use_color display_type w
  = (set_stdout (stdout w ++ report_head w ++ lines ++ [nl]) w, Ok tt).
Proof.
  intros Hc H.
  rewrite display_on_terminal_run, Hc, (for_each_report_lines _ _ _ _ _ _ _ _ H).
  unfold set_stdout. cbn. now rewrite <- !app_assoc.
Qed.

Lemma display_on_terminal_no_colors self use_color display_type w :
  term_colors w = None ->
  TestResults.display_on_terminal self use_color display_type w = (w, Raise IndexError).
Proof. intros Hc. now rewrite display_on_terminal_run, Hc. Qed.

Lemma conf_ok_text (c : pyval) :
  conf_ok c = true -> exists cs, conf_string_of c = Ok cs.
Proof. unfold conf_ok. destruct (conf_string_of c); [eauto | discriminate]. Qed.

Lemma confidences_ok_cons (e : entry) (self : TestResults.t) :
  confidences_ok (e :: self) = true ->
  forallb (fun l : leaf => conf_ok (TestResult.confidence l.2)) (leaves [e]) = true
  /\ confidences_ok self = true.
Proof.
  unfold confidences_ok. rewrite leaves_cons, forallb_app.
  apply andb_true_iff.
Qed.

(** ** Notes in the rows of the terminal report *)

(** The three lines on notes longer than a column of three characters or
    more, and on notes that fit. *)
Lemma truncate_notes_cut (s : string) (notes_width : Z) :
  3 <= notes_width -> py_len s > notes_width ->
  truncate_notes (Some s) notes_width
  = Some (substring 0 (Z.to_nat (notes_width - 3)) s +:+ "...").
Proof.
  intros Hw Hlen. unfold truncate_notes.
  rewrite truthy_nonempty by lia.
  destruct (Z.gtb_spec (py_len s) notes_width) as [_|Hle]; [|lia]. cbn [andb].
  now rewrite slice_to_nonneg by lia.
Qed.

Lemma truncate_notes_fit (s : string) (notes_width : Z) :
  py_len s <= notes_width -> truncate_notes (Some s) notes_width = Some s.
Proof.
  intros Hlen. unfold truncate_notes.
  destruct (Z.gtb_spec (py_len s) notes_width) as [Hgt|_]; [lia|].
  now rewrite andb_false_r.
Qed.

Lemma py_len_cut (s : string) (notes_width : Z) :
  3 <= notes_width -> py_len s > notes_width ->
  py_len (substring 0 (Z.to_nat (notes_width - 3)) s +:+ "...") = notes_width.
Proof.
  intros Hw Hlen. unfold py_len in *.
  rewrite str_length_app, str_length_substring_0 by lia.
  simpl String.length. lia.
Qed.

Lemma truncate_notes_rendered (notes : option string) (notes_width : Z) :
  3 <= notes_width \/ truthy notes = false
  \/ py_len (default "" notes) <= notes_width ->
  default "" (truncate_notes notes notes_width) = rendered_notes notes notes_width.
Proof.
  intros H. destruct notes as [[|a s]|]; [reflexivity| |reflexivity].
  cbn [default from_option id truthy] in H. unfold rendered_notes.
  destruct (Z.gtb_spec (py_len (String a s)) notes_width) as [Hgt|Hle].
  - destruct H as [H|[H|H]]; [|discriminate|lia].
    now rewrite truncate_notes_cut by lia.
  - now rewrite truncate_notes_fit.
Qed.

(** A row is its columns followed by its notes. *)
Lemma build_result_string_notes nm result c notes use_color colors indent widths :
  conf_ok c = true ->
  _build_result_string nm result c notes use_color colors indent widths
  = Ok (row_columns nm result c use_color colors indent widths +:+ default "" notes).
Proof.
  intros Hc. apply conf_ok_text in Hc as [cs Hc].
  destruct (build_result_string_shape nm result use_color colors indent widths)
    as [head Hhead].
  unfold row_columns. rewrite (Hhead c None cs Hc), (Hhead c notes cs Hc).
  cbn [default from_option id]. now rewrite str_app_nil_r, str_app_assoc.
Qed.

Lemma notes_fit_leaves (self : TestResults.t) (notes_width : Z) :
  3 <= notes_width \/ notes_fit self notes_width = true ->
  forall l : leaf, In l (leaves self) ->
    3 <= notes_width \/ truthy (TestResult.notes l.2) = false
    \/ py_len (default "" (TestResult.notes l.2)) <= notes_width.
Proof.
  intros [H|H] l Hl; [now left | right].
  unfold notes_fit in H. rewrite forallb_forall in H. specialize (H l Hl).
  apply orb_true_iff in H as [H|H].
  - left. now apply negb_true_iff.
  - right. now apply Z.leb_le.
Qed.

(** The rows of the members of a group, at the second of the two places
    that shorten notes. *)
Lemma child_results_expected ms use_color display_type colors notes_width widths :
  forallb (fun m : named TestResult.t => conf_ok (TestResult.confidence (result_of m)))
          ms = true ->
  (forall m : named TestResult.t, In m ms ->
     3 <= notes_width \/ truthy (TestResult.notes (result_of m)) = false
     \/ py_len (default "" (TestResult.notes (result_of m))) <= notes_width) ->
  TestResults.child_results ms use_color display_type colors notes_width widths
  = Ok (map (fun m : named TestResult.t =>
               row_columns (name m) (TestResult.result (result_of m))
                 (TestResult.confidence (result_of m)) use_color colors true widths
               +:+ rendered_notes (TestResult.notes (result_of m)) notes_width)
            (List.filter
               (fun m : named TestResult.t =>
                  _check_display_result (TestResult.result (result_of m)) display_type)
               ms)).
Proof.
  induction ms as [|m ms IH]; intros Hc Hn; [reflexivity|].
  cbn [forallb] in Hc. apply andb_true_iff in Hc as [Hm Hs].
  cbn [TestResults.child_results List.filter].
  rewrite (IH Hs) by (intros m' Hm'; apply Hn; now right).
  destruct (_check_display_result _ _); [|reflexivity].
  rewrite (build_result_string_notes _ _ _ _ _ _ _ _ Hm).
  rewrite truncate_notes_rendered by (apply Hn; now left).
  reflexivity.
Qed.

Lemma report_lines_expected self use_color display_type colors notes_width widths :
  confidences_ok self = true ->
  3 <= notes_width \/ notes_fit self notes_width = true ->
  report_lines self use_color display_type colors notes_width widths
  = Ok (expected_rows self use_color display_type colors notes_width widths).
Proof.
  intros Hc Hn. pose proof (notes_fit_leaves self notes_width Hn) as Hl. clear Hn.
  induction self as [|e self IH]; [reflexivity|].
  apply confidences_ok_cons in Hc as [He Hs].
  assert (Hle : forall l : leaf, In l (leaves [e]) ->
            3 <= notes_width \/ truthy (TestResult.notes l.2) = false
            \/ py_len (default "" (TestResult.notes l.2)) <= notes_width).
  { intros l Hin. apply Hl. rewrite leaves_cons. apply in_or_app. now left. }
  assert (Hls : forall l : leaf, In l (leaves self) ->
            3 <= notes_width \/ truthy (TestResult.notes l.2) = false
            \/ py_len (default "" (TestResult.notes l.2)) <= notes_width).
  { intros l Hin. apply Hl. rewrite leaves_cons. apply in_or_app. now right. }
  cbn [report_lines]. rewrite (IH Hs Hls). clear IH Hl Hls.
  unfold expected_rows. cbn [flat_map]. unfold entry_lines.
  destruct e as [nm [r|g]]; cbn [result_of name].
  - cbn in He. rewrite andb_true_r in He.
    destruct (_ || _); [|reflexivity].
    rewrite (build_result_string_notes _ _ _ _ _ _ _ _ He).
    rewrite truncate_notes_rendered by (apply (Hle (nm, None, r)); now left).
    reflexivity.
  - cbn in He. rewrite app_nil_r, forallb_map in He.
    rewrite (child_results_expected _ _ _ _ _ _ He).
    2:{ intros m Hm.
        apply (Hle (nm, Some (name m), result_of m)).
        cbn. rewrite app_nil_r.
        apply (in_map (fun m0 : named TestResult.t => (nm, Some (name m0), result_of m0))).
        exact Hm. }
    cbn. destruct (_ || _); [|reflexivity].
    rewrite (build_result_string_notes nm (GroupTestResult.result g) PyNone (Some "")
               use_color colors false widths eq_refl).
    cbn [default from_option id]. now rewrite str_app_nil_r.
Qed.

(** C6 (amended).  The notes column of the report is the terminal width
    minus the 60, 9 and 11 characters of the other columns.  When that
    column has three characters or more, or no notes of the collection are
    longer than it, the report is the head lines, the rows of the
    specification and the closing line, each row of a record, bare or
    member of a group, being its columns followed by its notes as the
    specification renders them.  The three lines of the code give that
    rendering: notes longer than a column of three characters or more are
    their first [width - 3] characters followed by three dots, which makes
    exactly [width] characters; notes that fit, empty notes and absent
    notes are unchanged, at every width. *)
Theorem C6_truncate_notes :
  forall (self : TestResults.t) (use_color : bool) (display_type : Z)
         (colors : term_colors_t) (w : World),
    term_colors w = Some colors ->
    confidences_ok self = true ->
    3 <= term_width w - 60 - 9 - 11
    \/ notes_fit self (term_width w - 60 - 9 - 11) = true ->
    TestResults.display_on_terminal self use_color display_type w
    = (set_stdout
         (stdout w ++ report_head w
          ++ expected_rows self use_color display_type colors
               (term_width w - 60 - 9 - 11) (widths_of w)
          ++ [nl]) w,
       Ok tt)
    /\ (forall (notes : option string) (width : Z),
          3 <= width \/ truthy notes = false \/ py_len (default "" notes) <= width ->
          default "" (truncate_notes notes width) = rendered_notes notes width)
    /\ (forall (s : string) (width : Z),
          3 <= width -> py_len s > width ->
          truncate_notes (Some s) width
          = Some (substring 0 (Z.to_nat (width - 3)) s +:+ "...")
          /\ py_len (default "" (truncate_notes (Some s) width)) = width
          /\ py_len (rendered_notes (Some s) width) = width)
    /\ (forall (s : string) (width : Z),
          py_len s <= width ->
          truncate_notes (Some s) width = Some s
          /\ rendered_notes (Some s) width = s)
    /\ (forall width : Z,
          truncate_notes (Some "") width = Some ""
          /\ truncate_notes None width = None
          /\ rendered_notes (Some "") width = ""
          /\ rendered_notes None width = "").
Proof.
  intros self use_color display_type colors w Hcolors Hconf Hnotes.
  split.
  { apply (display_on_terminal_lines _ _ _ _ colors); [exact Hcolors|].
    now apply report_lines_expected. }
  split; [exact truncate_notes_rendered|]. split; [|split].
  - intros s width Hw Hlen.
    assert (Hr : rendered_notes (Some s) width
                 = substring 0 (Z.to_nat (width - 3)) s +:+ "...").
    { rewrite <- truncate_notes_rendered by now left.
      now rewrite truncate_notes_cut. }
    rewrite Hr, truncate_notes_cut by assumption. cbn [default from_option id].
    rewrite py_len_cut by assumption. now repeat split.
  - intros s width Hlen. split; [now apply truncate_notes_fit|].
    rewrite <- truncate_notes_rendered by (right; now right).
    now rewrite truncate_notes_fit.
  - intros width. now repeat split.
Qed.

Lemma C6_truncate_notes_witness :
  term_colors wide_world = Some sample_colors
  /\ confidences_ok scenario = true
  /\ 3 <= term_width wide_world - 60 - 9 - 11
  /\ nth 6 (stdout (TestResults.display_on_terminal scenario false
                      ResultDisplayType.DISPLAY_ALL wide_world).1) ""
     = ljust "     s1" 60 +:+ ljust "FAIL" 9 +:+ ljust "" 11 +:+ "world wr..."
  /\ truncate_notes (Some "world writable") 11 = Some "world wr...".
Proof.
  assert (Hw : 3 <= term_width wide_world - 60 - 9 - 11) by (cbn; lia).
  split; [reflexivity|]. split; [reflexivity|]. split; [exact Hw|].
  destruct (C6_truncate_notes scenario false ResultDisplayType.DISPLAY_ALL sample_colors
              wide_world eq_refl eq_refl (or_introl Hw)) as (Hreport & _ & Hcut & _).
  split; [now rewrite Hreport|].
  apply (Hcut "world writable" 11); [lia | reflexivity].
Defined.

(** C6 (counterexample).  On a terminal of 80 columns the notes column has
    no width: notes of 14 characters are longer than the column, lose their
    last three characters to the dots and are still 14 characters long. *)
Lemma C6_counterexample :
  py_len "world writable" > 80 - 60 - 9 - 11
  /\ truncate_notes (Some "world writable") (80 - 60 - 9 - 11) = Some "world writa..."
  /\ py_len "world writa..." <> 80 - 60 - 9 - 11
  /\ "world writa..." <>
     substring 0 (Z.to_nat (80 - 60 - 9 - 11 - 3)) "world writable" +:+ "...".
Proof.
  split; [reflexivity|]. split; [reflexivity|]. split; [discriminate|].
  vm_compute. discriminate.
Qed.

(** * Further properties of the module *)

(** ** Collections and groups *)

Lemma add_results_app (self new_results : TestResults.t) :
  TestResults.add_results self new_results = self ++ new_results.
Proof.
  revert self. induction new_results as [|e new_results IH]; intros self.
  - simpl. now rewrite app_nil_r.
  - change (TestResults.add_results self (e :: new_results))
      with (TestResults.add_results (self ++ [e]) new_results).
    now rewrite IH, <- app_assoc.
Qed.

Lemma leaves_app (a b : TestResults.t) : leaves (a ++ b) = leaves a ++ leaves b.
Proof. unfold leaves. apply flat_map_app. Qed.

(** X1.  [add_results] puts the new entries after the entries already
    held, in the order given, and changes none of them; adding two lists
    one after the other is adding their concatenation, and the leaves of
    the collection grow in the same way. *)
Theorem X1_add_results_appends :
  forall self a b : TestResults.t,
    TestResults.add_results self a = self ++ a
    /\ TestResults.add_results (TestResults.add_results self a) b
       = TestResults.add_results self (a ++ b)
    /\ length (TestResults.add_results self a) = (length self + length a)%nat
    /\ leaves (TestResults.add_results self a) = leaves self ++ leaves a.
Proof.
  intros self a b. rewrite !add_results_app.
  split; [reflexivity|]. split; [now rewrite app_assoc|].
  split; [apply length_app | apply leaves_app].
Qed.

(** X2.  [had_failures] of a collection extended by [add_results] is the
    disjunction of the answers on the two parts: an answer true is never
    lost by adding entries, and entries added to a collection without
    failures decide the answer alone. *)
Theorem X2_had_failures_add_results :
  forall self new_results : TestResults.t,
    TestResults.had_failures (TestResults.add_results self new_results)
    = TestResults.had_failures self || TestResults.had_failures new_results.
Proof.
  intros self new_results.
  now rewrite add_results_app, !had_failures_groups, existsb_app.
Qed.

Lemma existsb_Permutation {A} (f : A -> bool) (l l' : list A) :
  Permutation l l' -> existsb f l = existsb f l'.
Proof.
  induction 1 as [|x l l' _ IH|x y l|l l' l'' _ IH1 _ IH2]; simpl.
  - reflexivity.
  - now rewrite IH.
  - now destruct (f x), (f y).
  - congruence.
Qed.

(** X3.  The aggregate of a group does not depend on the order in which
    the members were added: two runs of [add_result] calls that add the
    same records in different orders end with the same aggregate. *)
Theorem X3_aggregate_order_independent :
  forall rs rs' : list (named TestResult.t),
    Permutation rs rs' ->
    GroupTestResult.result (GroupTestResult.add_all GroupTestResult.__init__ rs)
    = GroupTestResult.result (GroupTestResult.add_all GroupTestResult.__init__ rs').
Proof.
  intros rs rs' Hp. rewrite !add_all_result.
  change (GroupTestResult.result GroupTestResult.__init__) with Result.SKIP.
  rewrite !fold_step_skip.
  now rewrite (existsb_Permutation is_fail _ _ Hp), (existsb_Permutation is_pass _ _ Hp).
Qed.

Lemma X3_aggregate_order_independent_witness :
  let a := Named "s1" (TestResult.__init__ Result.PASS None (PyInt Result.CONF_SURE)) in
  let b := Named "s2" (TestResult.__init__ Result.FAIL None (PyInt Result.CONF_SURE)) in
  Permutation [a; b] [b; a]
  /\ GroupTestResult.result (GroupTestResult.add_all GroupTestResult.__init__ [a; b])
     = GroupTestResult.result (GroupTestResult.add_all GroupTestResult.__init__ [b; a]).
Proof.
  intros a b. split; [apply perm_swap|].
  apply (X3_aggregate_order_independent [a; b] [b; a]). apply perm_swap.
Defined.

(** X4.  Whatever the outcomes of the records added, also outcomes outside
    the three constants, the aggregate of a group built from an empty
    group is one of PASS, FAIL and SKIP, and the length of the group is
    the number of [add_result] calls. *)
Theorem X4_aggregate_valid :
  forall rs : list (named TestResult.t),
    valid_outcome
      (GroupTestResult.result (GroupTestResult.add_all GroupTestResult.__init__ rs))
    = true
    /\ GroupTestResult.__len__ (GroupTestResult.add_all GroupTestResult.__init__ rs)
       = length rs.
Proof.
  intros rs. split.
  - rewrite add_all_result.
    change (GroupTestResult.result GroupTestResult.__init__) with Result.SKIP.
    rewrite fold_step_skip.
    now destruct (existsb is_fail rs), (existsb is_pass rs).
  - unfold GroupTestResult.__len__.
    change (GroupTestResult._results_list ?g) with (GroupTestResult.results g).
    now rewrite add_all_results.
Qed.

(** ** The filter across verbosity levels *)

(** X5.  Among the four verbosity levels the filter is monotone: an
    outcome shown at a level is shown at every more verbose level.  No
    outcome passes the filter at OVERALL_ONLY and every outcome passes it
    at ALL, outcomes outside the three constants included. *)
Theorem X5_filter_monotone :
  forall (result m m' : Z),
    In m display_types -> In m' display_types -> m <= m' ->
    _check_display_result result m = true ->
    _check_display_result result m' = true
    /\ _check_display_result result ResultDisplayType.DISPLAY_OVERALL_ONLY = false
    /\ _check_display_result result ResultDisplayType.DISPLAY_ALL = true.
Proof.
  intros result m m' Hm Hm' Hle Hshown.
  assert (Hlow : _check_display_result result ResultDisplayType.DISPLAY_OVERALL_ONLY
                 = false).
  { unfold _check_display_result, py_eq, int_PyEq. cbn. now rewrite !andb_false_r. }
  split; [|split; [exact Hlow | reflexivity]].
  simpl in Hm, Hm'.
  destruct Hm as [<-|[<-|[<-|[<-|[]]]]], Hm' as [<-|[<-|[<-|[<-|[]]]]];
    try reflexivity; try exact Hshown;
    try (unfold ResultDisplayType.DISPLAY_OVERALL_ONLY,
           ResultDisplayType.DISPLAY_FAIL_ONLY, ResultDisplayType.DISPLAY_NOT_PASS,
           ResultDisplayType.DISPLAY_ALL in Hle; lia);
    try (rewrite Hlow in Hshown; discriminate).
  revert Hshown. unfold _check_display_result, py_eq, int_PyEq. cbn.
  rewrite !andb_true_r, !andb_false_r.
  destruct (result =? Result.FAIL); [reflexivity | discriminate].
Qed.

Lemma X5_filter_monotone_witness :
  In ResultDisplayType.DISPLAY_FAIL_ONLY display_types
  /\ In ResultDisplayType.DISPLAY_NOT_PASS display_types
  /\ ResultDisplayType.DISPLAY_FAIL_ONLY <= ResultDisplayType.DISPLAY_NOT_PASS
  /\ _check_display_result Result.FAIL ResultDisplayType.DISPLAY_FAIL_ONLY = true
  /\ _check_display_result Result.FAIL ResultDisplayType.DISPLAY_NOT_PASS = true.
Proof.
  assert (H1 : In ResultDisplayType.DISPLAY_FAIL_ONLY display_types) by (simpl; auto).
  assert (H2 : In ResultDisplayType.DISPLAY_NOT_PASS display_types) by (simpl; auto).
  assert (H3 : ResultDisplayType.DISPLAY_FAIL_ONLY <= ResultDisplayType.DISPLAY_NOT_PASS)
    by (vm_compute; discriminate).
  split; [exact H1|]. split; [exact H2|]. split; [exact H3|]. split; [reflexivity|].
  exact (proj1 (X5_filter_monotone Result.FAIL ResultDisplayType.DISPLAY_FAIL_ONLY
                  ResultDisplayType.DISPLAY_NOT_PASS H1 H2 H3 eq_refl)).
Defined.

(** ** The CSV and JSON writers on any collection *)

Lemma sub_rows_raise (nm : string) (subs : list (named TestResult.t)) :
  forallb (fun m : named TestResult.t => hashable (TestResult.confidence (result_of m)))
          subs = false ->
  TestResults.sub_rows nm subs = Raise TypeError.
Proof.
  induction subs as [|m subs IH]; intros H; [discriminate|].
  cbn [forallb] in H. cbn [TestResults.sub_rows].
  destruct (hashable (TestResult.confidence (result_of m))) eqn:Hm.
  - rewrite (confidence_text_hashable _ Hm), (IH H). reflexivity.
  - destruct (TestResult.confidence (result_of m)); try discriminate. reflexivity.
Qed.

Lemma csv_rows_raise (self : TestResults.t) :
  hashable_confidences self = false -> TestResults.csv_rows self = Raise TypeError.
Proof.
  unfold hashable_confidences.
  induction self as [|e self IH]; intros H; [discriminate|].
  rewrite leaves_cons, forallb_app in H. cbn [TestResults.csv_rows].
  destruct (forallb _ (leaves [e])) eqn:He.
  - rewrite (IH H).
    destruct e as [nm [r|g]]; cbn [result_of name].
    + cbn in He. rewrite andb_true_r in He.
      now rewrite (confidence_text_hashable _ He).
    + rewrite sub_rows_ok; [reflexivity|].
      cbn in He. rewrite app_nil_r, forallb_map in He. exact He.
  - destruct e as [nm [r|g]]; cbn [result_of name].
    + cbn in He. rewrite andb_true_r in He.
      destruct (TestResult.confidence r); try discriminate. reflexivity.
    + rewrite sub_rows_raise; [reflexivity|].
      cbn in He. rewrite app_nil_r, forallb_map in He. exact He.
Qed.

(** X6.  The rows of the CSV report are built exactly when every
    confidence of the collection can be hashed, and a confidence that
    cannot makes the whole construction raise [TypeError]; when built,
    every row has the five cells of the header, one row per leaf. *)
Theorem X6_csv_rows_total :
  forall self : TestResults.t,
    TestResults.csv_rows self
    = (if hashable_confidences self then Ok (map csv_row_of_leaf (leaves self))
       else Raise TypeError)
    /\ Forall (fun row : list cell => length row = length csv_header)
              (map csv_row_of_leaf (leaves self)).
Proof.
  intros self. split.
  - destruct (hashable_confidences self) eqn:H;
      [now apply csv_rows_ok | now apply csv_rows_raise].
  - induction (leaves self) as [|l ls IH]; constructor; [reflexivity | exact IH].
Qed.

(** X7.  When a confidence of the collection cannot be hashed, [write_csv]
    raises [TypeError] after its first log message and before opening the
    destination: no file is created or changed, and no failure is
    logged, whether or not the destination could have been opened. *)
Theorem X7_write_csv_raises_before_open :
  forall (csv_line : list cell -> string) (self : TestResults.t) (filename : string)
         (w : World),
    hashable_confidences self = false ->
    TestResults.write_csv csv_line self filename w
    = (set_logged (logged w ++ [(INFO, "Preparing to write CSV file [ " +:+ filename
                                       +:+ " ] ")]) w,
       Raise TypeError).
Proof.
  intros csv_line self filename w H. unfold TestResults.write_csv.
  rewrite IO_bind_run. unfold logger_info at 1. cbv zeta.
  now rewrite (csv_rows_raise _ H), lift_bind_raise.
Qed.

Lemma X7_write_csv_raises_before_open_witness :
  let self := [Named "check-a"
                 (Single (TestResult.__init__ Result.PASS None (PyList [PyInt 1])))] in
  hashable_confidences self = false
  /\ files (TestResults.write_csv sample_csv_line self "report.csv" sample_world).1
     = files sample_world.
Proof.
  intros self. split; [reflexivity|].
  now rewrite (X7_write_csv_raises_before_open sample_csv_line self "report.csv"
                 sample_world eq_refl).
Defined.

Lemma write_json_refused json_dump (self : TestResults.t) filename w :
  open_error w filename = Some ValueError ->
  TestResults.write_json json_dump self filename w =
  (set_logged (logged w ++ [(INFO, "Preparing to write JSON file [ " +:+ filename +:+ " ]")])
     w,
   Raise ValueError).
Proof.
  intros Ho. unfold TestResults.write_json.
  rewrite IO_bind_run. unfold logger_info at 1. cbv zeta.
  unfold try_except_else. rewrite IO_bind_run. erewrite open_w_fail by exact Ho.
  reflexivity.
Qed.

(** X8.  [write_json] raises for one reason only: a destination path that
    holds a NUL character, which [open] refuses with [ValueError], an
    exception that the writer does not catch; it then stops after its
    first log message.  For every other path it returns, whatever the
    collection (outcomes and confidences outside the constants included)
    and whether or not the destination can be opened.  It prints
    nothing. *)
Theorem X8_write_json_raises_for_nul_only :
  forall (json_dump : json -> string) (self : TestResults.t) (filename : string)
         (w : World),
    (TestResults.write_json json_dump self filename w).2
    = (if no_char NUL filename then Ok tt else Raise ValueError)
    /\ (no_char NUL filename = true
        \/ TestResults.write_json json_dump self filename w
           = (set_logged (logged w ++ [(INFO, "Preparing to write JSON file [ "
                                              +:+ filename +:+ " ]")]) w,
              Raise ValueError))
    /\ stdout (TestResults.write_json json_dump self filename w).1 = stdout w.
Proof.
  intros json_dump self filename w.
  destruct (open_error_cases w filename) as [[Hn Ho]|[Hn [Ho|Ho]]]; rewrite Hn.
  - rewrite (write_json_refused json_dump self filename w Ho). split; [reflexivity|].
    split; [now right | reflexivity].
  - rewrite (write_json_ok json_dump self filename w Ho). split; [reflexivity|].
    split; [now left | reflexivity].
  - rewrite (write_json_locked json_dump self filename w Ho). split; [reflexivity|].
    split; [now left | reflexivity].
Qed.

(** X9.  The JSON report has one object per entry, in the order of the
    collection and under the name of the entry; the object of a bare
    record has the keys [name], [result], [notes] and the object of a
    group has the keys [name] and [result], also for a group without
    members. *)
Theorem X9_json_one_object_per_entry :
  forall self : TestResults.t,
    length (TestResults.json_tests self) = length self
    /\ map json_name (TestResults.json_tests self)
       = map (fun e : entry => Some (name e)) self
    /\ map json_keys (TestResults.json_tests self)
       = map (fun e : entry =>
                match result_of e with
                | Single _ => ["name"; "result"; "notes"]
                | Group _ => ["name"; "result"]
                end) self.
Proof.
  intros self. unfold TestResults.json_tests.
  split; [apply length_map|]. rewrite !map_map.
  split; apply map_ext; intros [nm [r|g]]; reflexivity.
Qed.

(** ** Outcomes outside the constants *)

Lemma result_to_class_inv (r : Z) (c : string) :
  _result_to_class r = Ok c -> r = Result.PASS \/ r = Result.FAIL \/ r = Result.SKIP.
Proof.
  unfold _result_to_class, dict_getitem. cbn [hashable dict_find py_key_eqb].
  destruct (Result.PASS =? r) eqn:H1; [apply Z.eqb_eq in H1; auto|].
  destruct (Result.FAIL =? r) eqn:H2; [apply Z.eqb_eq in H2; auto|].
  destruct (Result.SKIP =? r) eqn:H3; [apply Z.eqb_eq in H3; auto|].
  discriminate.
Qed.


Lemma html_rows_raise_run (self : TestResults.t) filename html_template display_type w e :
  TestResults.html_rows_from "" self display_type = Raise e ->
  TestResults.write_html self filename html_template display_type w
  = (set_logged (logged w ++ [(INFO, "Preparing to write HTML file: [ " +:+ filename
                                     +:+ " ]")]) w,
     Raise e).
Proof.
  intros H. unfold TestResults.write_html. cbv zeta.
  rewrite IO_bind_run. unfold logger_info at 1.
  now rewrite H, lift_bind_raise.
Qed.



(** ** The HTML writer *)

Lemma replace_from_no_occurrence (old new s : string) :
  occurs old s = false -> replace_from O old new s = s.
Proof.
  induction s as [|a s IH]; intros H; [reflexivity|].
  cbn [occurs] in H. apply orb_false_iff in H as [Hp Ho].
  cbn [replace_from]. rewrite Hp. now rewrite (IH Ho).
Qed.

Lemma count_char_app (c : ascii) (s1 s2 : string) :
  count_char c (s1 +:+ s2) = (count_char c s1 + count_char c s2)%nat.
Proof.
  induction s1 as [|a s1 IH]; [reflexivity|].
  rewrite str_app_cons. cbn [count_char]. rewrite IH. lia.
Qed.

Lemma no_char_cons (c a : ascii) (s : string) :
  no_char c (String a s) = true -> Ascii.eqb a c = false /\ no_char c s = true.
Proof.
  unfold no_char. cbn [count_char]. intros H. apply Nat.eqb_eq in H.
  destruct (Ascii.eqb a c); [discriminate|]. split; [reflexivity|].
  apply Nat.eqb_eq. lia.
Qed.

(** A text without [$] holds no start of the marker. *)
Lemma replace_marker_skip (new pre rest : string) :
  no_char "$" pre = true ->
  replace_from O RESULTS_MARKER new (pre +:+ rest)
  = pre +:+ replace_from O RESULTS_MARKER new rest.
Proof.
  induction pre as [|a pre IH]; intros H; [reflexivity|].
  apply no_char_cons in H as [Ha Hpre].
  rewrite !str_app_cons. cbn [replace_from].
  replace (String.prefix RESULTS_MARKER (String a (pre +:+ rest))) with false.
  - now rewrite (IH Hpre).
  - unfold RESULTS_MARKER. cbn [String.prefix].
    destruct (ascii_dec "$" a) as [<-|_]; [discriminate | reflexivity].
Qed.

Lemma replace_marker_once (new pre post : string) :
  no_char "$" pre = true -> no_char "$" post = true ->
  str_replace RESULTS_MARKER new (pre +:+ RESULTS_MARKER +:+ post)
  = pre +:+ new +:+ post.
Proof.
  intros Hpre Hpost. unfold str_replace. rewrite (replace_marker_skip _ _ _ Hpre).
  f_equal. unfold RESULTS_MARKER at 2.
  rewrite !str_app_cons. cbn [replace_from String.append].
  replace (String.prefix RESULTS_MARKER _) with true.
  - cbn [String.length Nat.pred RESULTS_MARKER replace_from]. f_equal.
    change ("" +:+ post) with post.
    transitivity (replace_from O RESULTS_MARKER new (post +:+ ""));
      [now rewrite str_app_nil_r|].
    rewrite (replace_marker_skip _ _ _ Hpost). apply str_app_nil_r.
  - unfold RESULTS_MARKER. cbn [String.prefix].
    repeat (destruct (ascii_dec _ _); [|congruence]).
    change ("" +:+ post) with post. now destruct post.
Qed.

(** X11.  When the rows are built, the template is read and the
    destination is opened, [write_html] leaves in the destination the
    template with the rows in the place of the marker: for a template
    [pre], marker, [post] whose texts [pre] and [post] hold no dollar
    sign, the destination holds [pre], the rows, [post] (the rows
    themselves are not searched for the marker), and the writer logs its
    success and returns. *)
Theorem X11_write_html_fills_marker :
  forall (self : TestResults.t) (filename html_template : string) (display_type : Z)
         (w : World) (rows pre post : string),
    TestResults.html_rows_from "" self display_type = Ok rows ->
    template_text w html_template = Ok (pre +:+ RESULTS_MARKER +:+ post) ->
    no_char "$" pre = true ->
    no_char "$" post = true ->
    open_error w filename = None ->
    TestResults.write_html self filename html_template display_type w
    = (set_logged
         (logged w ++ [(INFO, "Preparing to write HTML file: [ " +:+ filename +:+ " ]");
                       (INFO, "Successfully wrote HTML file: [ " +:+ filename +:+ " ]")])
         (set_files (<[filename := pre +:+ rows +:+ post]> (files w)) w),
       Ok tt).
Proof.
  intros self filename html_template display_type w rows pre post Hrows Ht Hpre Hpost Ho.
  rewrite (write_html_run _ _ _ _ _ _ Hrows), Ht, Ho.
  change "$$$RESULTS$$$" with RESULTS_MARKER.
  now rewrite (replace_marker_once rows pre post Hpre Hpost).
Qed.

Lemma X11_write_html_fills_marker_witness :
  exists rows,
    TestResults.html_rows_from "" scenario ResultDisplayType.DISPLAY_FAIL_ONLY = Ok rows
    /\ template_text sample_world "report.tpl"
       = Ok ("<table>" +:+ RESULTS_MARKER +:+ "</table>")
    /\ no_char "$" "<table>" = true
    /\ no_char "$" "</table>" = true
    /\ open_error sample_world "report.html" = None
    /\ files (TestResults.write_html scenario "report.html" "report.tpl"
                ResultDisplayType.DISPLAY_FAIL_ONLY sample_world).1 !! "report.html"
       = Some ("<table>" +:+ rows +:+ "</table>").
Proof.
  eexists. split; [reflexivity|]. split; [reflexivity|]. split; [reflexivity|].
  split; [reflexivity|]. split; [reflexivity|].
  rewrite (X11_write_html_fills_marker scenario "report.html" "report.tpl"
             ResultDisplayType.DISPLAY_FAIL_ONLY sample_world _ "<table>" "</table>"
             eq_refl eq_refl eq_refl eq_refl eq_refl).
  cbn [fst files set_files set_logged]. apply lookup_insert_eq.
Defined.

(** X12.  A template in which the marker does not occur is copied to the
    destination as it is: the rows are dropped without a message, and the
    writer logs a success. *)
Theorem X12_write_html_without_marker :
  forall (self : TestResults.t) (filename html_template : string) (display_type : Z)
         (w : World) (rows template : string),
    TestResults.html_rows_from "" self display_type = Ok rows ->
    template_text w html_template = Ok template ->
    occurs RESULTS_MARKER template = false ->
    open_error w filename = None ->
    TestResults.write_html self filename html_template display_type w
    = (set_logged
         (logged w ++ [(INFO, "Preparing to write HTML file: [ " +:+ filename +:+ " ]");
                       (INFO, "Successfully wrote HTML file: [ " +:+ filename +:+ " ]")])
         (set_files (<[filename := template]> (files w)) w),
       Ok tt).
Proof.
  intros self filename html_template display_type w rows template Hrows Ht Hocc Ho.
  rewrite (write_html_run _ _ _ _ _ _ Hrows), Ht, Ho.
  change "$$$RESULTS$$$" with RESULTS_MARKER. unfold str_replace.
  now rewrite (replace_from_no_occurrence _ _ _ Hocc).
Qed.

Lemma X12_write_html_without_marker_witness :
  let w := set_files (<["plain.tpl" := "<table></table>"]> (files sample_world))
             sample_world in
  exists rows,
    TestResults.html_rows_from "" scenario ResultDisplayType.DISPLAY_ALL = Ok rows
    /\ template_text w "plain.tpl" = Ok "<table></table>"
    /\ occurs RESULTS_MARKER "<table></table>" = false
    /\ open_error w "report.html" = None
    /\ files (TestResults.write_html scenario "report.html" "plain.tpl"
                ResultDisplayType.DISPLAY_ALL w).1 !! "report.html"
       = Some "<table></table>".
Proof.
  intros w. eexists. split; [reflexivity|]. split; [reflexivity|].
  split; [reflexivity|]. split; [reflexivity|].
  rewrite (X12_write_html_without_marker scenario "report.html" "plain.tpl"
             ResultDisplayType.DISPLAY_ALL w _ "<table></table>"
             eq_refl eq_refl eq_refl eq_refl).
  cbn [fst files set_files set_logged]. apply lookup_insert_eq.
Defined.

Lemma count_replace_same (c : ascii) (new s : string) :
  count_char c new = O -> count_char c (replace_char c new s) = O.
Proof.
  intros Hnew. induction s as [|a s IH]; [reflexivity|].
  cbn [replace_char]. destruct (Ascii.eqb a c) eqn:Ha.
  - rewrite count_char_app, Hnew, IH. reflexivity.
  - cbn [count_char]. now rewrite Ha, IH.
Qed.

Lemma count_replace_other (c c' : ascii) (new s : string) :
  Ascii.eqb c' c = false -> count_char c new = O ->
  count_char c (replace_char c' new s) = count_char c s.
Proof.
  intros Hc Hnew. induction s as [|a s IH]; [reflexivity|].
  cbn [replace_char count_char]. destruct (Ascii.eqb a c') eqn:Ha.
  - apply Ascii.eqb_eq in Ha. subst a. rewrite Hc.
    rewrite count_char_app, Hnew, IH. reflexivity.
  - cbn [count_char]. now rewrite IH.
Qed.

Lemma escape_no_angle (s : string) :
  count_char "<" (cgi_escape s) = O /\ count_char ">" (cgi_escape s) = O.
Proof.
  unfold cgi_escape. split.
  - rewrite count_replace_other by reflexivity. now apply count_replace_same.
  - now apply count_replace_same.
Qed.

(** X13.  The names and the notes of the records cannot add markup to the
    HTML report: whatever their text, a row that is built holds exactly
    the eight opening and the eight closing angle brackets of its own
    tags, for a record as for a group. *)
Theorem X13_html_rows_escape_text :
  forall (m : named TestResult.t) (g : named GroupTestResult.t) (do_indent : bool)
         (row group_row : string),
    _create_html_result_row m do_indent = Ok row ->
    _create_html_group_row g = Ok group_row ->
    count_char "<" row = 8%nat /\ count_char ">" row = 8%nat
    /\ count_char "<" group_row = 8%nat /\ count_char ">" group_row = 8%nat.
Proof.
  intros [nm [r notes conf]] [gnm [members agg]] do_indent row group_row Hrow Hgroup.
  unfold _create_html_result_row in Hrow. unfold _create_html_group_row in Hgroup.
  cbn [result_of name TestResult.result TestResult._result TestResult.notes
       TestResult._notes GroupTestResult.result GroupTestResult._group_result]
    in Hrow, Hgroup.
  destruct (_result_to_class r) as [c|] eqn:Hc; [|discriminate].
  destruct (_result_to_class agg) as [gc|] eqn:Hgc; [|discriminate].
  injection Hrow as <-. injection Hgroup as <-.
  destruct (escape_no_angle nm) as [Hn1 Hn2].
  destruct (escape_no_angle gnm) as [Hg1 Hg2].
  destruct (escape_no_angle (default "" (if truthy notes then notes else None)))
    as [Ht1 Ht2].
  apply result_to_class_inv in Hc as Hr. apply result_to_class_inv in Hgc as Hagg.
  destruct Hr as [-> | [-> | ->]], Hagg as [-> | [-> | ->]];
    injection Hc as <-; injection Hgc as <-;
    destruct do_indent;
    rewrite !count_char_app, ?Hn1, ?Hn2, ?Hg1, ?Hg2, ?Ht1, ?Ht2;
    repeat split; reflexivity.
Qed.

Lemma X13_html_rows_escape_text_witness :
  exists row group_row,
    _create_html_result_row
      (Named "<b>s1</b>" (TestResult.__init__ Result.FAIL (Some "a < b & c > d")
                            (PyInt Result.CONF_SURE))) true = Ok row
    /\ _create_html_group_row
         (Named "<check>"
            (GroupTestResult.add_all GroupTestResult.__init__
               [Named "s1" (TestResult.__init__ Result.FAIL None (PyInt Result.CONF_SURE))]))
       = Ok group_row
    /\ count_char "<" row = 8%nat.
Proof.
  eexists. eexists. split; [reflexivity|]. split; [reflexivity|].
  exact (proj1 (X13_html_rows_escape_text
                  (Named "<b>s1</b>" (TestResult.__init__ Result.FAIL
                                        (Some "a < b & c > d") (PyInt Result.CONF_SURE)))
                  (Named "<check>"
                     (GroupTestResult.add_all GroupTestResult.__init__
                        [Named "s1" (TestResult.__init__ Result.FAIL None
                                       (PyInt Result.CONF_SURE))]))
                  true _ _ eq_refl eq_refl)).
Defined.

Lemma child_rows_overall_only (ms : list (named TestResult.t)) :
  TestResults.child_rows ms ResultDisplayType.DISPLAY_OVERALL_ONLY = Ok [].
Proof.
  induction ms as [|m ms IH]; [reflexivity|].
  cbn [TestResults.child_rows].
  replace (_check_display_result _ ResultDisplayType.DISPLAY_OVERALL_ONLY) with false;
    [exact IH|].
  unfold _check_display_result, py_eq, int_PyEq. cbn. now rewrite !andb_false_r.
Qed.

(** X14.  At OVERALL_ONLY the HTML report holds one row per entry and no
    row of a member: an entry adds its own row, a record its result row
    and a group its parent row, whatever the outcomes of the members. *)
Theorem X14_html_overall_only :
  forall e : entry,
    TestResults.html_entry_rows e ResultDisplayType.DISPLAY_OVERALL_ONLY
    = match result_of e with
      | Single r => _create_html_result_row (Named (name e) r) false
      | Group g => _create_html_group_row (Named (name e) g)
      end.
Proof.
  intros [nm [r|g]]; unfold TestResults.html_entry_rows; cbn [result_of name].
  - replace (_ || _) with true; [reflexivity|].
    now rewrite orb_true_r.
  - rewrite child_rows_overall_only, html_parent_condition.
    destruct (_create_html_group_row (Named nm g)) as [row|err]; [|reflexivity].
    cbn. now rewrite str_app_nil_r.
Qed.

(** ** The terminal report as a list of lines *)

Lemma check_display_overall_only (result : Z) :
  _check_display_result result ResultDisplayType.DISPLAY_OVERALL_ONLY = false.
Proof.
  unfold _check_display_result, py_eq, int_PyEq. cbn. now rewrite !andb_false_r.
Qed.

Lemma child_results_overall_only ms use_color colors notes_width widths :
  TestResults.child_results ms use_color ResultDisplayType.DISPLAY_OVERALL_ONLY colors
    notes_width widths = Ok [].
Proof.
  induction ms as [|m ms IH]; [reflexivity|].
  cbn [TestResults.child_results]. now rewrite check_display_overall_only.
Qed.

Lemma report_lines_overall_only self use_color colors notes_width widths :
  bare_confidences_ok self = true ->
  exists rows,
    report_lines self use_color ResultDisplayType.DISPLAY_OVERALL_ONLY colors notes_width
      widths = Ok rows
    /\ length rows = length self.
Proof.
  induction self as [|e self IH]; intros H; [exists []; now split|].
  cbn [bare_confidences_ok forallb] in H. apply andb_true_iff in H as [He Hs].
  destruct (IH Hs) as [rows [Hrows Hlen]].
  assert (Hentry : exists row,
             entry_lines e use_color ResultDisplayType.DISPLAY_OVERALL_ONLY colors
               notes_width widths = Ok [row]).
  { destruct e as [nm [r|g]]; unfold entry_lines; cbn [result_of name] in *.
    - destruct (conf_ok_text _ He) as [cs Hcs].
      destruct (build_result_string_ok nm (TestResult.result r) _
                  (truncate_notes (TestResult.notes r) notes_width) use_color colors
                  false widths cs Hcs) as [row Hrow].
      exists row. rewrite orb_true_r, Hrow. reflexivity.
    - destruct (build_result_string_ok nm (GroupTestResult.result g) PyNone (Some "")
                  use_color colors false widths "" eq_refl) as [row Hrow].
      exists row. rewrite child_results_overall_only, orb_true_r. cbn.
      rewrite Hrow. reflexivity. }
  destruct Hentry as [row Hrow].
  exists (row :: rows). cbn [report_lines]. rewrite Hrow, Hrows. cbn.
  split; [reflexivity | now rewrite Hlen].
Qed.

(** X15.  At OVERALL_ONLY the terminal report of a collection whose bare
    records have a confidence among SURE, GUESS and none is, when the
    colours of the terminal can be made, the four head lines, one row per
    entry and the closing blank line: no row of a member is printed, the
    members are not even formatted (a member with another confidence does
    not make the report fail), and the call returns leaving files and log
    as they were.  When a configured colour holds no bracket the call
    raises [IndexError] and prints nothing. *)
Theorem X15_terminal_overall_only :
  forall (self : TestResults.t) (use_color : bool) (w : World),
    bare_confidences_ok self = true ->
    match term_colors w with
    | Some _ =>
        exists rows,
          length rows = length self
          /\ TestResults.display_on_terminal self use_color
               ResultDisplayType.DISPLAY_OVERALL_ONLY w
             = (set_stdout (stdout w ++ report_head w ++ rows ++ [nl]) w, Ok tt)
    | None =>
        TestResults.display_on_terminal self use_color
          ResultDisplayType.DISPLAY_OVERALL_ONLY w
        = (w, Raise IndexError)
    end.
Proof.
  intros self use_color w H.
  destruct (term_colors w) as [colors|] eqn:Hc;
    [|now apply display_on_terminal_no_colors].
  destruct (report_lines_overall_only self use_color colors (notes_width_of w)
              (widths_of w) H) as [rows [Hrows Hlen]].
  exists rows. split; [exact Hlen|]. now apply (display_on_terminal_lines _ _ _ _ colors).
Qed.

Lemma X15_terminal_overall_only_witness :
  let self := [Named "check-a" (Single (TestResult.__init__ Result.PASS None PyNone));
               Named "check-b"
                 (Group (GroupTestResult.add_all GroupTestResult.__init__
                           [Named "s1" (TestResult.__init__ Result.FAIL None
                                          (PyStr "maybe"))]))] in
  bare_confidences_ok self = true
  /\ (TestResults.display_on_terminal self false ResultDisplayType.DISPLAY_OVERALL_ONLY
        sample_world).2 = Ok tt
  /\ TestResults.display_on_terminal self false ResultDisplayType.DISPLAY_OVERALL_ONLY
       plain_colour_world
     = (plain_colour_world, Raise IndexError).
Proof.
  intros self. split; [reflexivity|]. split.
  - pose proof (X15_terminal_overall_only self false sample_world eq_refl) as H.
    change (term_colors sample_world) with (Some sample_colors) in H.
    cbv beta iota in H. destruct H as [rows [_ H]]. now rewrite H.
  - exact (X15_terminal_overall_only self false plain_colour_world eq_refl).
Defined.

Lemma child_results_all ms use_color colors notes_width widths :
  forallb (fun m : named TestResult.t => conf_ok (TestResult.confidence (result_of m)))
          ms = true ->
  exists rows,
    TestResults.child_results ms use_color ResultDisplayType.DISPLAY_ALL colors
      notes_width widths = Ok rows
    /\ length rows = length ms.
Proof.
  induction ms as [|m ms IH]; intros H; [exists []; now split|].
  cbn [forallb] in H. apply andb_true_iff in H as [Hm Hs].
  destruct (IH Hs) as [rows [Hrows Hlen]].
  destruct (conf_ok_text _ Hm) as [cs Hcs].
  destruct (build_result_string_ok (name m) (TestResult.result (result_of m)) _
              (truncate_notes (TestResult.notes (result_of m)) notes_width) use_color
              colors true widths cs Hcs) as [row Hrow].
  exists (row :: rows). cbn [TestResults.child_results].
  rewrite check_display_all, Hrow, Hrows. cbn.
  split; [reflexivity | now rewrite Hlen].
Qed.

Lemma report_lines_all self use_color colors notes_width widths :
  confidences_ok self = true ->
  exists rows,
    report_lines self use_color ResultDisplayType.DISPLAY_ALL colors notes_width widths
    = Ok rows
    /\ length rows = (length self + length (group_members self))%nat.
Proof.
  induction self as [|e self IH]; intros H; [exists []; now split|].
  apply confidences_ok_cons in H as [He Hs].
  destruct (IH Hs) as [rows [Hrows Hlen]].
  destruct e as [nm [r|g]].
  - cbn in He. rewrite andb_true_r in He.
    destruct (conf_ok_text _ He) as [cs Hcs].
    destruct (build_result_string_ok nm (TestResult.result r) _
                (truncate_notes (TestResult.notes r) notes_width) use_color colors
                false widths cs Hcs) as [row Hrow].
    exists (row :: rows). cbn [report_lines]. unfold entry_lines. cbn [result_of name].
    rewrite check_display_all. cbn [orb]. rewrite Hrow, Hrows. cbn.
    split; [reflexivity | now rewrite Hlen].
  - cbn in He. rewrite app_nil_r, forallb_map in He.
    destruct (child_results_all (GroupTestResult.results g) use_color colors notes_width
                widths He) as [children [Hch Hchlen]].
    destruct (build_result_string_ok nm (GroupTestResult.result g) PyNone (Some "")
                use_color colors false widths "" eq_refl) as [parent Hparent].
    exists ((parent :: children) ++ rows). cbn [report_lines]. unfold entry_lines.
    cbn [result_of name]. rewrite Hch, check_display_all. cbn [orb].
    cbn. rewrite Hparent, Hrows. cbn.
    split; [reflexivity|].
    change (group_members (Named nm (Group g) :: self))
      with (GroupTestResult.results g ++ group_members self).
    cbn [length]. rewrite !length_app, Hchlen, Hlen. unfold group_members. lia.
Qed.

(** X16.  At ALL the terminal report of a collection whose confidences
    are all among SURE, GUESS and none shows, when the colours of the
    terminal can be made, every entry and every member: between the four
    head lines and the closing blank line it prints as many rows as there
    are entries and members of groups, and it returns leaving files and
    log as they were.  When a configured colour holds no bracket the call
    raises [IndexError] and prints nothing, with and without colour. *)
Theorem X16_terminal_all :
  forall (self : TestResults.t) (use_color : bool) (w : World),
    confidences_ok self = true ->
    match term_colors w with
    | Some _ =>
        exists rows,
          length rows = (length self + length (group_members self))%nat
          /\ TestResults.display_on_terminal self use_color ResultDisplayType.DISPLAY_ALL w
             = (set_stdout (stdout w ++ report_head w ++ rows ++ [nl]) w, Ok tt)
    | None =>
        TestResults.display_on_terminal self use_color ResultDisplayType.DISPLAY_ALL w
        = (w, Raise IndexError)
    end.
Proof.
  intros self use_color w H.
  destruct (term_colors w) as [colors|] eqn:Hc;
    [|now apply display_on_terminal_no_colors].
  destruct (report_lines_all self use_color colors (notes_width_of w)
              (widths_of w) H) as [rows [Hrows Hlen]].
  exists rows. split; [exact Hlen|]. now apply (display_on_terminal_lines _ _ _ _ colors).
Qed.

Lemma X16_terminal_all_witness :
  confidences_ok scenario = true
  /\ length (stdout (TestResults.display_on_terminal scenario false
                       ResultDisplayType.DISPLAY_ALL sample_world).1) = 9%nat
  /\ TestResults.display_on_terminal scenario false ResultDisplayType.DISPLAY_ALL
       plain_colour_world
     = (plain_colour_world, Raise IndexError).
Proof.
  split; [reflexivity|]. split.
  - pose proof (X16_terminal_all scenario false sample_world eq_refl) as H.
    change (term_colors sample_world) with (Some sample_colors) in H.
    cbv beta iota in H. destruct H as [rows [Hlen H]].
    rewrite H. cbn [fst stdout set_stdout]. rewrite !length_app, Hlen. reflexivity.
  - exact (X16_terminal_all scenario false plain_colour_world eq_refl).
Defined.

(** X17.  Whatever the collection and the verbosity, and also when a row
    cannot be built, the terminal report only adds lines to the standard
    output: it changes no file, logs nothing and keeps the lines that were
    printed before it.  When the colours of the terminal can be made the
    lines added start with the four head lines; when a configured colour
    holds no bracket no line is added and the call raises [IndexError]. *)
Theorem X17_terminal_only_prints :
  forall (self : TestResults.t) (use_color : bool) (display_type : Z) (w : World),
    exists out,
      (TestResults.display_on_terminal self use_color display_type w).1
      = set_stdout (stdout w ++ out) w
      /\ match term_colors w with
         | Some _ => exists rows, out = report_head w ++ rows
         | None =>
             out = []
             /\ (TestResults.display_on_terminal self use_color display_type w).2
                = Raise IndexError
         end.
Proof.
  intros self use_color display_type w. rewrite display_on_terminal_run.
  destruct (term_colors w) as [colors|].
  2:{ exists []. cbn [fst snd]. now rewrite app_nil_r, set_stdout_same. }
  destruct (for_each_display_prints self use_color display_type colors
              (notes_width_of w) (widths_of w)
              (set_stdout (stdout w ++ report_head w) w)) as [out Hout].
  destruct (for_each self _ _) as [w1 [[]|err]]; cbn [fst] in *; subst w1.
  - exists (report_head w ++ out ++ [nl]). split; [|now eexists].
    unfold set_stdout. cbn. now rewrite <- !app_assoc.
  - exists (report_head w ++ out). split; [|now eexists].
    unfold set_stdout. cbn. now rewrite <- !app_assoc.
Qed.

(** ** The layout of a terminal row *)

Lemma py_len_app (s1 s2 : string) : py_len (s1 +:+ s2) = py_len s1 + py_len s2.
Proof. unfold py_len. rewrite str_length_app. lia. Qed.

Lemma length_iter_space (k : nat) :
  String.length (Nat.iter k (fun acc => " " +:+ acc) "") = k.
Proof.
  induction k as [|k IH]; [reflexivity|].
  rewrite Nat.iter_succ, str_length_app. simpl String.length. now rewrite IH.
Qed.

Lemma py_len_ljust (s : string) (w : Z) : py_len (ljust s w) = Z.max (py_len s) w.
Proof.
  unfold ljust, str_repeat. rewrite py_len_app. unfold py_len at 2.
  rewrite length_iter_space. unfold py_len. lia.
Qed.

Lemma conf_string_values (c : pyval) (cs : string) :
  conf_string_of c = Ok cs -> cs = "" \/ cs = "guess".
Proof.
  unfold conf_string_of, dict_getitem.
  destruct (hashable c); [|discriminate]. cbn [dict_find].
  destruct (py_key_eqb _ c); [intros [= <-]; now left|].
  destruct (py_key_eqb _ c); [intros [= <-]; now right|].
  destruct (py_key_eqb _ c); [intros [= <-]; now left | discriminate].
Qed.

(** X18.  A row built without colour for the 60, 9 and 11 character
    columns has its notes at a fixed place: when the name, with the
    indent of a member, fits in 60 characters, the row is 80 characters
    long before the notes; when it does not, the name is followed by a
    line break and 60 spaces, and the 20 characters of result and
    confidence and then the notes come after them. *)
Theorem X18_row_layout :
  forall (nm : string) (result : Z) (confidence : pyval) (notes : option string)
         (colors : term_colors_t) (indent : bool) (total : Z) (row : string),
    _build_result_string nm result confidence notes false colors indent
      {| TEST_NAME := 60; TEST_RESULT := 9; TEST_CONFIDENCE := 11; TOTAL := total |}
    = Ok row ->
    let shown_name := (if indent then "     " else "") +:+ nm in
    py_len row
    = (if py_len shown_name >? 60 then py_len shown_name + 1 + 60 else 60)
      + 9 + 11 + (if truthy notes then py_len (default "" notes) else 0).
Proof.
  intros nm result confidence notes colors indent total row H shown_name.
  unfold _build_result_string in H.
  cbn [TEST_NAME TEST_RESULT TEST_CONFIDENCE] in H.
  destruct (conf_string_of confidence) as [cs|] eqn:Hcs.
  2:{ destruct (result =? Result.PASS), (result =? Result.SKIP), (result =? Result.FAIL);
        discriminate. }
  apply conf_string_values in Hcs.
  assert (Hcs' : py_len (ljust cs 11) = 11)
    by (rewrite py_len_ljust; destruct Hcs as [-> | ->]; reflexivity).
  fold shown_name in H.
  destruct (result =? Result.PASS), (result =? Result.SKIP), (result =? Result.FAIL);
    cbn in H; injection H as <-;
    destruct (py_len shown_name >? 60) eqn:Hlong;
    destruct (truthy notes) eqn:Htr;
    rewrite ?py_len_app, ?Hcs', ?py_len_ljust;
    try (destruct notes; [|discriminate]; cbn [format_opt default from_option id]);
    try (apply Z.gtb_lt in Hlong);
    try (assert (py_len shown_name <= 60)
           by (destruct (Z.gtb_spec (py_len shown_name) 60); [discriminate | lia]));
    change (py_len "PASS") with 4; change (py_len "SKIP") with 4;
    change (py_len "FAIL") with 4; change (py_len "") with 0;
    change (py_len nl) with 1; change (py_len (str_repeat " " 60)) with 60;
    lia.
Qed.

Lemma X18_row_layout_witness :
  exists row,
    _build_result_string "s1" Result.FAIL (PyInt Result.CONF_GUESS) (Some "world writable")
      false sample_colors true
      {| TEST_NAME := 60; TEST_RESULT := 9; TEST_CONFIDENCE := 11; TOTAL := 80 |}
    = Ok row
    /\ py_len row = 94.
Proof.
  eexists. split; [reflexivity|].
  exact (X18_row_layout "s1" Result.FAIL (PyInt Result.CONF_GUESS) (Some "world writable")
           sample_colors true 80 _ eq_refl).
Defined.

(** ** The colours of the terminal *)

Lemma split_char_length (sep : ascii) (s : string) :
  length (split_char sep s) = S (count_char sep s).
Proof.
  induction s as [|a s IH]; [reflexivity|].
  cbn [split_char count_char]. destruct (Ascii.eqb a sep).
  - cbn [length]. now rewrite IH.
  - destruct (split_char sep s) as [|piece pieces]; [discriminate|]. exact IH.
Qed.

Lemma split_char_pieces (sep : ascii) (s : string) :
  Forall (fun piece => count_char sep piece = O) (split_char sep s).
Proof.
  induction s as [|a s IH]; [now repeat constructor|].
  cbn [split_char]. destruct (Ascii.eqb a sep) eqn:Ha.
  - constructor; [reflexivity | exact IH].
  - destruct (split_char sep s) as [|piece pieces].
    + repeat constructor. cbn [count_char]. now rewrite Ha.
    + inversion IH as [|? ? Hp Hps]; subst. constructor; [|exact Hps].
      cbn [count_char]. now rewrite Ha, Hp.
Qed.

Lemma split_char_first (sep : ascii) (p rest : string) :
  count_char sep p = O ->
  split_char sep (p +:+ String sep rest) = p :: split_char sep rest.
Proof.
  induction p as [|a p IH]; intros H.
  - change ("" +:+ String sep rest) with (String sep rest).
    cbn [split_char]. now rewrite Ascii.eqb_refl.
  - cbn [count_char] in H. destruct (Ascii.eqb a sep) eqn:Ha; [discriminate|].
    rewrite str_app_cons. cbn [split_char]. rewrite Ha, IH by exact H. reflexivity.
Qed.

Lemma split_char_none (sep : ascii) (s : string) :
  count_char sep s = O -> split_char sep s = [s].
Proof.
  induction s as [|a s IH]; intros H; [reflexivity|].
  cbn [count_char] in H. destruct (Ascii.eqb a sep) eqn:Ha; [discriminate|].
  cbn [split_char]. now rewrite Ha, IH.
Qed.

Lemma reconstruct_form (p code : string) :
  count_char "[" p = O -> count_char "[" code = O ->
  Terminal.reconstruct (p +:+ "[" +:+ code) = Some (ESC +:+ "[" +:+ code).
Proof.
  intros Hp Hc. unfold Terminal.reconstruct.
  change (p +:+ "[" +:+ code) with (p +:+ String "[" code).
  now rewrite (split_char_first _ _ _ Hp), (split_char_none _ _ Hc).
Qed.

Lemma reconstruct_none (value : string) :
  Terminal.reconstruct value = None -> count_char "[" value = O.
Proof.
  unfold Terminal.reconstruct. pose proof (split_char_length "[" value) as Hlen.
  destruct (split_char "[" value) as [|a [|b l]]; try discriminate.
  intros _. cbn in Hlen. lia.
Qed.

Lemma reconstruct_some (value colour : string) :
  Terminal.reconstruct value = Some colour ->
  count_char "[" value <> O
  /\ String.prefix (ESC +:+ "[") colour = true
  /\ count_char "[" colour = 1%nat
  /\ Terminal.reconstruct colour = Some colour.
Proof.
  unfold Terminal.reconstruct at 1.
  pose proof (split_char_length "[" value) as Hlen.
  pose proof (split_char_pieces "[" value) as Hpieces.
  destruct (split_char "[" value) as [|a [|code l]]; try discriminate.
  intros [= <-]. inversion Hpieces as [|? ? _ Hrest]; subst.
  inversion Hrest as [|? ? Hcode _]; subst.
  split; [cbn in Hlen; lia|]. split; [now destruct code|].
  split.
  - change (ESC +:+ "[" +:+ code) with (ESC +:+ String "[" code).
    rewrite count_char_app. cbn [count_char]. rewrite Hcode. reflexivity.
  - now apply (reconstruct_form ESC code).
Qed.

(** X19.  [_get_term_colors] fails with [IndexError] exactly when one of
    the four configured colours holds no opening bracket.  Otherwise each
    colour it returns starts with the escape character and a bracket,
    holds no other bracket (what follows a second bracket of the
    configured value is dropped), and is left unchanged by the same
    reconstruction. *)
Theorem X19_term_colors_normal_form :
  forall (get_config : string -> string -> string) (TC_PASS TC_FAIL TC_SKIP TC_END : string),
    let values := [get_config "output.terminal.term_color_pass" TC_PASS;
                   get_config "output.terminal.term_color_fail" TC_FAIL;
                   get_config "output.terminal.term_color_skip" TC_SKIP;
                   get_config "output.terminal.term_color_end" TC_END] in
    match Terminal._get_term_colors get_config TC_PASS TC_FAIL TC_SKIP TC_END with
    | Some c =>
        Forall (fun value => count_char "[" value <> O) values
        /\ Forall (fun colour =>
                     String.prefix (ESC +:+ "[") colour = true
                     /\ count_char "[" colour = 1%nat
                     /\ Terminal.reconstruct colour = Some colour)
                  [tc_pass c; tc_fail c; tc_skip c; tc_end c]
    | None => Exists (fun value => count_char "[" value = O) values
    end.
Proof.
  intros get_config TC_PASS TC_FAIL TC_SKIP TC_END values.
  unfold Terminal._get_term_colors. cbv zeta.
  set (v1 := get_config "output.terminal.term_color_pass" TC_PASS) in *.
  set (v2 := get_config "output.terminal.term_color_fail" TC_FAIL) in *.
  set (v3 := get_config "output.terminal.term_color_skip" TC_SKIP) in *.
  set (v4 := get_config "output.terminal.term_color_end" TC_END) in *.
  destruct (Terminal.reconstruct v1) as [c1|] eqn:H1; cbn;
    [|apply Exists_cons_hd; now apply reconstruct_none].
  destruct (Terminal.reconstruct v2) as [c2|] eqn:H2; cbn;
    [|apply Exists_cons_tl, Exists_cons_hd; now apply reconstruct_none].
  destruct (Terminal.reconstruct v3) as [c3|] eqn:H3; cbn;
    [|do 2 apply Exists_cons_tl; apply Exists_cons_hd; now apply reconstruct_none].
  destruct (Terminal.reconstruct v4) as [c4|] eqn:H4; cbn;
    [|do 3 apply Exists_cons_tl; apply Exists_cons_hd; now apply reconstruct_none].
  apply reconstruct_some in H1 as [? ?], H2 as [? ?], H3 as [? ?], H4 as [? ?].
  split; repeat (constructor; [assumption|]); constructor.
Qed.

(** X20.  A configured colour made of any text without bracket, a bracket
    and a code without bracket is reconstructed as the escape character,
    the bracket and the code: the escape written in the configuration as
    the four characters backslash, 0, 3, 3 becomes the escape character
    itself. *)
Theorem X20_reconstruct_colour :
  forall p code : string,
    count_char "[" p = O -> count_char "[" code = O ->
    Terminal.reconstruct (p +:+ "[" +:+ code) = Some (ESC +:+ "[" +:+ code).
Proof. exact reconstruct_form. Qed.

Lemma X20_reconstruct_colour_witness :
  count_char "[" "\033" = O
  /\ count_char "[" "92m" = O
  /\ Terminal.reconstruct "\033[92m" = Some (ESC +:+ "[92m").
Proof.
  split; [reflexivity|]. split; [reflexivity|].
  exact (X20_reconstruct_colour "\033" "92m" eq_refl eq_refl).
Defined.

(** ** The width of the terminal *)

Lemma substr_nil (s : string) : substr "" s.
Proof. exists "", s. reflexivity. Qed.

Lemma substr_prefix (x rest : string) : substr x (x +:+ rest).
Proof. exists "", rest. reflexivity. Qed.

Lemma substr_cons (a : ascii) (x s : string) : substr x s -> substr x (String a s).
Proof. intros [p [q ->]]. exists (String a p), q. reflexivity. Qed.

Lemma substr_trans (x y z : string) : substr x y -> substr y z -> substr x z.
Proof.
  intros [a [b ->]] [c [d ->]]. exists (c +:+ a), (b +:+ d).
  now rewrite !str_app_assoc.
Qed.

Lemma substr_app_r (x p s : string) : substr x s -> substr x (p +:+ s).
Proof.
  intros H. induction p as [|a p IH]; [exact H|].
  rewrite str_app_cons. now apply substr_cons.
Qed.

Lemma prefix_app (x b : string) : String.prefix x (x +:+ b) = true.
Proof.
  induction x as [|c x IH].
  - change ("" +:+ b) with b. now destruct b.
  - rewrite str_app_cons. cbn [String.prefix].
    destruct (ascii_dec c c); [exact IH | congruence].
Qed.

Lemma occurs_unfold (x s : string) :
  occurs x s = String.prefix x s
               || match s with
                  | EmptyString => false
                  | String _ s' => occurs x s'
                  end.
Proof. now destruct s. Qed.

Lemma occurs_substr (x s : string) : substr x s -> occurs x s = true.
Proof.
  intros [a [b ->]]. induction a as [|c a IH].
  - change ("" +:+ x +:+ b) with (x +:+ b). now rewrite occurs_unfold, prefix_app.
  - rewrite str_app_cons. cbn [occurs]. rewrite IH. apply orb_true_r.
Qed.

Lemma lstrip_suffix (s : string) : exists a, s = a +:+ lstrip s.
Proof.
  induction s as [|c s [a IH]]; [now exists ""|].
  cbn [lstrip]. destruct (is_space c).
  - exists (String c a). rewrite str_app_cons. now rewrite <- IH.
  - now exists "".
Qed.

Lemma rstrip_prefix (s : string) : exists b, s = rstrip s +:+ b.
Proof.
  induction s as [|c s [b IH]]; [now exists ""|].
  cbn [rstrip]. destruct (rstrip s) as [|d r] eqn:Hr.
  - destruct (is_space c).
    + now exists (String c s).
    + exists s. reflexivity.
  - exists b. rewrite str_app_cons. now rewrite <- IH.
Qed.

Lemma strip_substr (s : string) : substr (strip s) s.
Proof.
  unfold strip. destruct (lstrip_suffix s) as [a Ha].
  destruct (rstrip_prefix (lstrip s)) as [b Hb].
  exists a, b. now rewrite <- Hb.
Qed.

Lemma split_once_eq (sep : ascii) (s p1 p2 : string) :
  split_once sep s = Some (p1, p2) -> s = p1 +:+ String sep p2.
Proof.
  revert p1. induction s as [|c s IH]; intros p1 H; [discriminate|].
  cbn [split_once] in H. destruct (Ascii.eqb c sep) eqn:Hc.
  - apply Ascii.eqb_eq in Hc. now injection H as <- <-; subst.
  - destruct (split_once sep s) as [[q1 q2]|]; [|discriminate].
    injection H as <- <-. rewrite str_app_cons. now rewrite (IH q1 eq_refl).
Qed.

Lemma split_char_shape (sep : ascii) (s : string) :
  exists p ps,
    split_char sep s = p :: ps
    /\ (exists rest, s = p +:+ rest)
    /\ (forall q, In q ps -> substr q s).
Proof.
  induction s as [|c s (p & ps & Hsplit & [rest Hrest] & Hps)].
  - exists "", []. split; [reflexivity|]. split; [now exists ""|]. intros q [].
  - cbn [split_char]. rewrite Hsplit. destruct (Ascii.eqb c sep).
    + exists "", (p :: ps). split; [reflexivity|]. split; [now exists (String c s)|].
      intros q [<-|Hq]; apply substr_cons.
      * rewrite Hrest at 1. apply substr_prefix.
      * now apply Hps.
    + exists (String c p), ps. split; [reflexivity|]. split.
      * exists rest. rewrite str_app_cons. now rewrite <- Hrest.
      * intros q Hq. apply substr_cons. now apply Hps.
Qed.

Lemma split_char_substr (sep : ascii) (s piece : string) :
  In piece (split_char sep s) -> substr piece s.
Proof.
  destruct (split_char_shape sep s) as (p & ps & Hsplit & [rest Hrest] & Hps).
  rewrite Hsplit. intros [<-|Hq]; [|now apply Hps].
  rewrite Hrest at 1. apply substr_prefix.
Qed.

Lemma splitlines_shape (n : nat) (s : string) :
  (String.length s <= n)%nat ->
  (forall l, In l (splitlines s) -> substr l s)
  /\ (forall l ls, splitlines s = l :: ls -> exists rest, s = l +:+ rest).
Proof.
  revert s. induction n as [|n IH]; intros s Hlen.
  - destruct s; [|simpl in Hlen; lia]. split; [intros l [] | discriminate].
  - destruct s as [|c s]; [split; [intros l [] | discriminate]|].
    simpl in Hlen. destruct (IH s ltac:(lia)) as [Hin Hhead].
    cbn [splitlines]. destruct (Ascii.eqb c LF).
    { split.
      - intros l [<-|Hl]; [apply substr_nil | apply substr_cons; now apply Hin].
      - intros l ls [= <- _]. now exists (String c s). }
    destruct (Ascii.eqb c CR).
    { split.
      - intros l [<-|Hl]; [apply substr_nil|]. apply substr_cons.
        destruct s as [|b s']; [destruct Hl|].
        destruct (Ascii.eqb b LF); [|now apply Hin].
        apply substr_cons. simpl in Hlen.
        now apply (proj1 (IH s' ltac:(lia))).
      - intros l ls [= <- _]. now exists (String c s). }
    destruct (splitlines s) as [|line lines] eqn:Hs.
    + split.
      * intros l [<-|[]]. exists "", s. reflexivity.
      * intros l ls [= <- _]. now exists s.
    + destruct (Hhead line lines eq_refl) as [rest Hrest]. split.
      * intros l [<-|Hl].
        -- rewrite Hrest at 1. exists "", rest. reflexivity.
        -- apply substr_cons, Hin. now right.
      * intros l ls [= <- _]. exists rest. rewrite str_app_cons. now rewrite <- Hrest.
Qed.

Lemma splitlines_substr (s l : string) : In l (splitlines s) -> substr l s.
Proof. apply (proj1 (splitlines_shape (String.length s) s (le_n _))). Qed.

Lemma setting_width_columns py_int (setting : string) (n : Z) :
  Terminal.setting_width py_int setting = Some n -> substr "columns" setting.
Proof.
  unfold Terminal.setting_width.
  destruct (split_once " " (strip setting)) as [[part1 part2]|] eqn:Hsplit;
    [|discriminate].
  apply split_once_eq in Hsplit. intros H.
  apply (substr_trans _ (strip setting)); [|apply strip_substr]. rewrite Hsplit.
  destruct (String.eqb (strip part1) "columns") eqn:H1.
  - apply String.eqb_eq in H1. rewrite <- H1.
    apply (substr_trans _ part1); [apply strip_substr | apply substr_prefix].
  - destruct (String.eqb (strip part2) "columns") eqn:H2; [|discriminate].
    apply String.eqb_eq in H2. rewrite <- H2.
    apply (substr_trans _ part2); [apply strip_substr|].
    apply substr_app_r, substr_cons. exists "", "". now rewrite str_app_nil_r.
Qed.

Lemma scan_settings_found py_int (settings : list string) (n : Z) :
  Terminal.scan_settings py_int settings = Some n ->
  exists setting, In setting settings /\ Terminal.setting_width py_int setting = Some n.
Proof.
  induction settings as [|s settings IH]; [discriminate|].
  cbn [Terminal.scan_settings]. destruct (Terminal.setting_width py_int s) eqn:Hs.
  - intros [= <-]. exists s. split; [now left | exact Hs].
  - intros H. destruct (IH H) as [x [Hx Hw]]. exists x. split; [now right | exact Hw].
Qed.

Lemma scan_lines_found py_int (lines : list string) (n : Z) :
  Terminal.scan_lines py_int lines = Some n ->
  exists line setting,
    In line lines /\ In setting (split_char ";" line)
    /\ Terminal.setting_width py_int setting = Some n.
Proof.
  induction lines as [|l lines IH]; [discriminate|].
  cbn [Terminal.scan_lines].
  destruct (Terminal.scan_settings py_int (split_char ";" l)) eqn:Hl.
  - intros [= <-]. destruct (scan_settings_found _ _ _ Hl) as [x [Hx Hw]].
    exists l, x. split; [now left|]. now split.
  - intros H. destruct (IH H) as (line & x & Hline & Hx & Hw).
    exists line, x. split; [now right|]. now split.
Qed.

(** X21.  [_get_term_width] answers 80 when [stty] cannot be run, and when
    the word [columns] occurs nowhere in its output, whatever else the
    output holds and whatever [int] accepts. *)
Theorem X21_term_width_default :
  forall (py_int : string -> option Z) (term_settings : string),
    occurs "columns" term_settings = false ->
    Terminal._get_term_width py_int (Some term_settings) = 80
    /\ Terminal._get_term_width py_int None = 80.
Proof.
  intros py_int term_settings Hocc. split; [|reflexivity].
  unfold Terminal._get_term_width.
  destruct (Terminal.scan_lines py_int (splitlines term_settings)) as [n|] eqn:Hscan;
    [|reflexivity].
  destruct (scan_lines_found _ _ _ Hscan) as (line & setting & Hline & Hsetting & Hw).
  assert (Hsub : substr "columns" term_settings).
  { apply (substr_trans _ setting); [now apply (setting_width_columns py_int _ n)|].
    apply (substr_trans _ line); [now apply (split_char_substr ";")|].
    now apply splitlines_substr. }
  apply occurs_substr in Hsub. congruence.
Qed.

Lemma X21_term_width_default_witness :
  occurs "columns" "stty: standard input: unable to perform all requested operations"
  = false
  /\ Terminal._get_term_width sample_int
       (Some "stty: standard input: unable to perform all requested operations") = 80.
Proof.
  split; [reflexivity|].
  exact (proj1 (X21_term_width_default sample_int
                  "stty: standard input: unable to perform all requested operations"
                  eq_refl)).
Defined.

Lemma concat_cons2 (sep x y : string) (l : list string) :
  String.concat sep (x :: y :: l) = x +:+ sep +:+ String.concat sep (y :: l).
Proof. reflexivity. Qed.

Lemma count_concat (c : ascii) (sep : string) (l : list string) :
  count_char c sep = O ->
  Forall (fun s => count_char c s = O) l ->
  count_char c (String.concat sep l) = O.
Proof.
  intros Hsep. induction l as [|x [|y l] IH]; intros H.
  - reflexivity.
  - now inversion H.
  - inversion H as [|? ? Hx Hrest]; subst.
    rewrite concat_cons2, !count_char_app, Hx, Hsep, (IH Hrest). reflexivity.
Qed.

Lemma split_join (settings : list string) :
  Forall (fun s => count_char ";" s = O) settings ->
  settings <> [] ->
  split_char ";" (String.concat ";" settings) = settings.
Proof.
  induction settings as [|x [|y l] IH]; intros H Hne.
  - congruence.
  - inversion H; subst. now apply split_char_none.
  - inversion H as [|? ? Hx Hrest]; subst. rewrite concat_cons2.
    change (x +:+ ";" +:+ String.concat ";" (y :: l))
      with (x +:+ String ";" (String.concat ";" (y :: l))).
    rewrite (split_char_first _ _ _ Hx), (IH Hrest); [reflexivity | discriminate].
Qed.

Lemma scan_join py_int (settings : list string) :
  Forall (fun s => count_char ";" s = O) settings ->
  Terminal.scan_settings py_int (split_char ";" (String.concat ";" settings))
  = Terminal.scan_settings py_int settings.
Proof.
  intros H. destruct settings as [|x l]; [reflexivity|].
  rewrite split_join; [reflexivity | exact H | discriminate].
Qed.

Lemma scan_settings_app py_int (a b : list string) :
  Terminal.scan_settings py_int (a ++ b)
  = match Terminal.scan_settings py_int a with
    | Some n => Some n
    | None => Terminal.scan_settings py_int b
    end.
Proof.
  induction a as [|x a IH]; [reflexivity|]. cbn [app Terminal.scan_settings].
  now destruct (Terminal.setting_width py_int x).
Qed.

Lemma splitlines_line (l r : string) :
  count_char LF l = O -> count_char CR l = O ->
  splitlines (l +:+ String LF r) = l :: splitlines r.
Proof.
  induction l as [|a l IH]; intros H1 H2.
  - change ("" +:+ String LF r) with (String LF r). reflexivity.
  - cbn [count_char] in H1, H2.
    destruct (Ascii.eqb a LF) eqn:Ha; [discriminate|].
    destruct (Ascii.eqb a CR) eqn:Hb; [discriminate|].
    rewrite str_app_cons. cbn [splitlines]. rewrite Ha, Hb, IH by assumption.
    reflexivity.
Qed.

Lemma splitlines_single (l : string) :
  count_char LF l = O -> count_char CR l = O ->
  splitlines l = match l with
                 | EmptyString => []
                 | _ => [l]
                 end.
Proof.
  induction l as [|a l IH]; intros H1 H2; [reflexivity|].
  cbn [count_char] in H1, H2.
  destruct (Ascii.eqb a LF) eqn:Ha; [discriminate|].
  destruct (Ascii.eqb a CR) eqn:Hb; [discriminate|].
  cbn [splitlines]. rewrite Ha, Hb, IH by assumption. now destruct l.
Qed.

Lemma clean_setting_counts (s : string) :
  clean_setting s = true ->
  count_char ";" s = O /\ count_char LF s = O /\ count_char CR s = O.
Proof.
  unfold clean_setting, no_char. rewrite !andb_true_iff, !Nat.eqb_eq. tauto.
Qed.

Lemma clean_line (l : list string) :
  forallb clean_setting l = true ->
  Forall (fun s => count_char ";" s = O) l
  /\ count_char LF (String.concat ";" l) = O
  /\ count_char CR (String.concat ";" l) = O.
Proof.
  intros H.
  assert (Hall : Forall (fun s => count_char ";" s = O /\ count_char LF s = O
                                  /\ count_char CR s = O) l).
  { induction l as [|x l IH]; [constructor|].
    cbn [forallb] in H. apply andb_true_iff in H as [Hx Hl].
    constructor; [now apply clean_setting_counts | now apply IH]. }
  split; [|split].
  - eapply Forall_impl; [exact Hall|]. now intros s [? _].
  - apply count_concat; [reflexivity|].
    eapply Forall_impl; [exact Hall|]. now intros s (_ & ? & _).
  - apply count_concat; [reflexivity|].
    eapply Forall_impl; [exact Hall|]. now intros s (_ & _ & ?).
Qed.

Lemma scan_render py_int (lines : list (list string)) :
  forallb (forallb clean_setting) lines = true ->
  Terminal.scan_lines py_int (splitlines (render_stty lines))
  = Terminal.scan_settings py_int (concat lines).
Proof.
  induction lines as [|l [|l2 rest] IH]; intros H.
  - reflexivity.
  - cbn [forallb] in H. apply andb_true_iff in H as [Hl _].
    destruct (clean_line l Hl) as (Hsemi & Hlf & Hcr).
    change (render_stty [l]) with (String.concat ";" l).
    cbn [concat]. rewrite app_nil_r, <- (scan_join py_int l Hsemi).
    rewrite (splitlines_single _ Hlf Hcr).
    destruct (String.concat ";" l) as [|a s] eqn:HL; [reflexivity|].
    cbn [Terminal.scan_lines].
    destruct (Terminal.scan_settings py_int (split_char ";" (String a s))); reflexivity.
  - cbn [forallb] in H. apply andb_true_iff in H as [Hl Hrest].
    destruct (clean_line l Hl) as (Hsemi & Hlf & Hcr).
    change (render_stty (l :: l2 :: rest))
      with (String.concat ";" l +:+ String LF (render_stty (l2 :: rest))).
    rewrite (splitlines_line _ _ Hlf Hcr). cbn [Terminal.scan_lines concat].
    rewrite (IH Hrest), scan_settings_app, (scan_join py_int l Hsemi).
    reflexivity.
Qed.

(** X22.  On an output made of lines of settings, [_get_term_width] reads
    the settings in order, line after line, and answers with the first
    one that gives a width: a setting without [columns], and a [columns]
    setting whose number [int] refuses, are passed over; when no setting
    gives a width the answer is 80. *)
Theorem X22_term_width_first_setting :
  forall (py_int : string -> option Z) (lines : list (list string)),
    forallb (forallb clean_setting) lines = true ->
    Terminal._get_term_width py_int (Some (render_stty lines))
    = default 80 (Terminal.scan_settings py_int (concat lines)).
Proof.
  intros py_int lines H. unfold Terminal._get_term_width.
  now rewrite (scan_render py_int lines H).
Qed.

Lemma X22_term_width_first_setting_witness :
  let lines := [["speed 38400 baud"; " rows 24"; " columns x"; " columns 132"; " line = 0"; ""];
                ["intr = ^C"; " columns 99"; ""]] in
  forallb (forallb clean_setting) lines = true
  /\ Terminal._get_term_width sample_int (Some (render_stty lines)) = 132.
Proof.
  intros lines. split; [reflexivity|].
  now rewrite (X22_term_width_first_setting sample_int lines eq_refl).
Defined.

Lemma no_space_lstrip (d : string) : no_space d = true -> lstrip d = d.
Proof.
  destruct d as [|a d]; [reflexivity|]. cbn [no_space lstrip].
  now destruct (is_space a).
Qed.

Lemma no_space_rstrip (d : string) : no_space d = true -> rstrip d = d.
Proof.
  induction d as [|a d IH]; [reflexivity|]. cbn [no_space rstrip].
  intros H. apply andb_true_iff in H as [Ha Hd]. rewrite (IH Hd).
  destruct d; [|reflexivity]. now destruct (is_space a).
Qed.

Lemma no_space_count (d : string) : no_space d = true -> count_char " " d = O.
Proof.
  induction d as [|a d IH]; [reflexivity|]. cbn [no_space count_char].
  intros H. apply andb_true_iff in H as [Ha Hd]. rewrite (IH Hd).
  destruct (Ascii.eqb a " ") eqn:Hsp; [|reflexivity].
  apply Ascii.eqb_eq in Hsp. subst a. discriminate.
Qed.

Lemma rstrip_app (p d : string) :
  rstrip d = d -> d <> "" -> rstrip (p +:+ d) = p +:+ d.
Proof.
  intros Hd Hne. induction p as [|a p IH]; [exact Hd|].
  rewrite str_app_cons. cbn [rstrip]. rewrite IH.
  destruct (p +:+ d) eqn:Hpd; [|reflexivity].
  destruct p; [|discriminate]. change (d = "") in Hpd. congruence.
Qed.

Lemma split_once_first (sep : ascii) (p r : string) :
  count_char sep p = O -> split_once sep (p +:+ String sep r) = Some (p, r).
Proof.
  induction p as [|a p IH]; intros H.
  - change ("" +:+ String sep r) with (String sep r). cbn [split_once].
    now rewrite Ascii.eqb_refl.
  - cbn [count_char] in H. destruct (Ascii.eqb a sep) eqn:Ha; [discriminate|].
    rewrite str_app_cons. cbn [split_once]. now rewrite Ha, IH.
Qed.

(** X23.  Both orders of the setting are read.  For a text [d] without
    whitespace, not empty and other than the word itself, the setting
    [columns d], as Linux prints it, and the setting [d columns], as BSD
    prints it, each after the space that follows a semicolon, give the
    width that [int] reads in [d], and nothing when [int] refuses [d]. *)
Theorem X23_term_width_both_orders :
  forall (py_int : string -> option Z) (d : string),
    no_space d = true ->
    String.eqb d "" = false ->
    String.eqb d "columns" = false ->
    Terminal.setting_width py_int (" columns " +:+ d) = py_int d
    /\ Terminal.setting_width py_int (" " +:+ d +:+ " columns") = py_int d.
Proof.
  intros py_int d Hd Hne Hcol.
  apply String.eqb_neq in Hne.
  assert (Hstrip : strip d = d)
    by (unfold strip; now rewrite (no_space_lstrip _ Hd), (no_space_rstrip _ Hd)).
  split; unfold Terminal.setting_width.
  - replace (strip (" columns " +:+ d)) with ("columns" +:+ String " " d).
    + rewrite (split_once_first " " "columns" d eq_refl).
      change (strip "columns") with "columns". cbn [String.eqb].
      replace (String.eqb "columns" "columns") with true by reflexivity.
      now rewrite Hstrip.
    + unfold strip. change (lstrip (" columns " +:+ d)) with ("columns " +:+ d).
      symmetry. apply (rstrip_app "columns " d); [now apply no_space_rstrip | exact Hne].
  - replace (strip (" " +:+ d +:+ " columns")) with (d +:+ String " " "columns").
    + rewrite (split_once_first " " d "columns" (no_space_count _ Hd)).
      rewrite Hstrip, Hcol. change (strip "columns") with "columns".
      replace (String.eqb "columns" "columns") with true by reflexivity.
      reflexivity.
    + unfold strip. change (" " +:+ d +:+ " columns") with (String " " (d +:+ " columns")).
      cbn [lstrip]. change (is_space " ") with true. cbv iota.
      assert (Hl : lstrip (d +:+ " columns") = d +:+ " columns").
      { destruct d as [|a d']; [congruence|]. rewrite str_app_cons.
        cbn [no_space] in Hd. apply andb_true_iff in Hd as [Ha _].
        cbn [lstrip]. now destruct (is_space a). }
      rewrite Hl.
      change (d +:+ " columns") with (d +:+ (" " +:+ "columns")).
      rewrite <- str_app_assoc. symmetry.
      rewrite (rstrip_app (d +:+ " ") "columns" eq_refl); [|discriminate].
      now rewrite str_app_assoc.
Qed.

Lemma X23_term_width_both_orders_witness :
  no_space "132" = true
  /\ String.eqb "132" "" = false
  /\ String.eqb "132" "columns" = false
  /\ Terminal.setting_width sample_int " columns 132" = Some 132
  /\ Terminal.setting_width sample_int " 132 columns" = Some 132.
Proof.
  split; [reflexivity|]. split; [reflexivity|]. split; [reflexivity|].
  exact (X23_term_width_both_orders sample_int "132" eq_refl eq_refl eq_refl).
Defined.

(** ** What the writers and the report leave alone *)

Lemma write_csv_raise_run csv_line (self : TestResults.t) filename w :
  hashable_confidences self = false ->
  TestResults.write_csv csv_line self filename w
  = (set_logged (logged w ++ [(INFO, "Preparing to write CSV file [ " +:+ filename
                                     +:+ " ] ")]) w,
     Raise TypeError).
Proof.
  intros H. unfold TestResults.write_csv.
  rewrite IO_bind_run. unfold logger_info at 1. cbv zeta.
  now rewrite (csv_rows_raise _ H), lift_bind_raise.
Qed.

Lemma write_csv_refused csv_line (self : TestResults.t) filename w :
  hashable_confidences self = true ->
  open_error w filename = Some ValueError ->
  TestResults.write_csv csv_line self filename w =
  (set_logged (logged w ++ [(INFO, "Preparing to write CSV file [ " +:+ filename +:+ " ] ")])
     w,
   Raise ValueError).
Proof.
  intros Hh Ho. unfold TestResults.write_csv.
  rewrite IO_bind_run. unfold logger_info at 1. cbv zeta.
  rewrite (csv_rows_ok _ Hh), lift_bind_ok.
  unfold try_except_else. rewrite IO_bind_run. erewrite open_w_fail by exact Ho.
  reflexivity.
Qed.

(** X24.  The three writers change no file but their destination and
    print nothing: whatever the collection, the verbosity and the state
    of the files, and whether the writer succeeds, gives up or raises,
    every other path holds after the call what it held before, and the
    standard output is as it was. *)
Theorem X24_writers_touch_destination_only :
  forall (csv_line : list cell -> string) (json_dump : json -> string)
         (self : TestResults.t) (filename html_template : string) (display_type : Z)
         (w : World) (path : string),
    path <> filename ->
    files (TestResults.write_csv csv_line self filename w).1 !! path = files w !! path
    /\ files (TestResults.write_json json_dump self filename w).1 !! path
       = files w !! path
    /\ files (TestResults.write_html self filename html_template display_type w).1 !! path
       = files w !! path
    /\ stdout (TestResults.write_csv csv_line self filename w).1 = stdout w
    /\ stdout (TestResults.write_json json_dump self filename w).1 = stdout w
    /\ stdout (TestResults.write_html self filename html_template display_type w).1
       = stdout w.
Proof.
  intros csv_line json_dump self filename html_template display_type w path Hne.
  assert (Hins : forall c, <[filename := c]> (files w) !! path = files w !! path)
    by (intros c; now apply lookup_insert_ne).
  assert (Hcsv : files (TestResults.write_csv csv_line self filename w).1 !! path
                 = files w !! path
                 /\ stdout (TestResults.write_csv csv_line self filename w).1 = stdout w).
  { destruct (hashable_confidences self) eqn:Hh.
    - destruct (open_error_cases w filename) as [[_ Ho]|[_ [Ho|Ho]]].
      + now rewrite (write_csv_refused csv_line self filename w Hh Ho).
      + rewrite (write_csv_ok csv_line self filename w Hh Ho).
        cbn [fst files stdout set_files set_logged]. now rewrite Hins.
      + now rewrite (write_csv_locked csv_line self filename w Hh Ho).
    - now rewrite (write_csv_raise_run csv_line self filename w Hh). }
  assert (Hjson : files (TestResults.write_json json_dump self filename w).1 !! path
                  = files w !! path
                  /\ stdout (TestResults.write_json json_dump self filename w).1
                     = stdout w).
  { destruct (open_error_cases w filename) as [[_ Ho]|[_ [Ho|Ho]]].
    - now rewrite (write_json_refused json_dump self filename w Ho).
    - rewrite (write_json_ok json_dump self filename w Ho).
      cbn [fst files stdout set_files set_logged]. now rewrite Hins.
    - now rewrite (write_json_locked json_dump self filename w Ho). }
  assert (Hhtml : files (TestResults.write_html self filename html_template
                           display_type w).1 !! path = files w !! path
                  /\ stdout (TestResults.write_html self filename html_template
                               display_type w).1 = stdout w).
  { destruct (TestResults.html_rows_from "" self display_type) as [rows|err] eqn:Hrows.
    - rewrite (write_html_run _ _ _ _ _ _ Hrows).
      destruct (template_text w html_template) as [template|[]]; try (now split).
      destruct (open_error w filename) as [[]|]; try (now split).
      cbn [fst files stdout set_files set_logged]. now rewrite Hins.
    - now rewrite (html_rows_raise_run _ _ _ _ _ _ Hrows). }
  tauto.
Qed.

Lemma X24_writers_touch_destination_only_witness :
  "report.tpl" <> "report.html"
  /\ files (TestResults.write_html scenario "report.html" "report.tpl"
              ResultDisplayType.DISPLAY_NOT_PASS sample_world).1 !! "report.tpl"
     = files sample_world !! "report.tpl".
Proof.
  assert (Hne : "report.tpl" <> "report.html") by discriminate.
  split; [exact Hne|].
  exact (proj1 (proj2 (proj2
    (X24_writers_touch_destination_only sample_csv_line sample_json_dump scenario
       "report.html" "report.tpl" ResultDisplayType.DISPLAY_NOT_PASS sample_world
       "report.tpl" Hne)))).
Defined.

(** X25.  A row that cannot be built cuts the terminal report short: when
    the colours of the terminal are made, the entries before an entry
    print their lines and that entry raises, the report holds the head
    lines and the lines of the entries before it, without the closing
    blank line and without any line of the entries after it, and the
    exception goes to the caller. *)
Theorem X25_terminal_report_cut :
  forall (pre post : TestResults.t) (e : entry) (use_color : bool) (display_type : Z)
         (w : World) (colors : term_colors_t) (lines : list string) (err : exn),
    term_colors w = Some colors ->
    report_lines pre use_color display_type colors (notes_width_of w) (widths_of w)
    = Ok lines ->
    entry_lines e use_color display_type colors (notes_width_of w) (widths_of w)
    = Raise err ->
    TestResults.display_on_terminal (pre ++ e :: post) use_color display_type w
    = (set_stdout (stdout w ++ report_head w ++ lines) w, Raise err).
Proof.
  intros pre post e use_color display_type w colors lines err Hc Hpre He.
  rewrite display_on_terminal_run, Hc, for_each_app.
  rewrite (for_each_report_lines _ _ _ _ _ _ _ _ Hpre).
  cbn [for_each]. rewrite IO_bind_run, display_entry_lines, He.
  unfold set_stdout. cbn. now rewrite <- app_assoc.
Qed.

Lemma X25_terminal_report_cut_witness :
  let bad := Named "check-x" (Single (TestResult.__init__ Result.FAIL None (PyStr "sure"))) in
  exists lines,
    term_colors sample_world = Some sample_colors
    /\ report_lines scenario false ResultDisplayType.DISPLAY_ALL sample_colors
         (notes_width_of sample_world) (widths_of sample_world) = Ok lines
    /\ entry_lines bad false ResultDisplayType.DISPLAY_ALL sample_colors
         (notes_width_of sample_world) (widths_of sample_world) = Raise KeyError
    /\ (TestResults.display_on_terminal (scenario ++ bad :: scenario) false
          ResultDisplayType.DISPLAY_ALL sample_world).2 = Raise KeyError.
Proof.
  intros bad. eexists. split; [reflexivity|]. split; [reflexivity|].
  split; [reflexivity|].
  exact (f_equal snd (X25_terminal_report_cut scenario scenario bad false
                        ResultDisplayType.DISPLAY_ALL sample_world sample_colors _
                        KeyError eq_refl eq_refl eq_refl)).
Defined.

Lemma aggregate_is_fail (members : list (named TestResult.t)) :
  (GroupTestResult.result (GroupTestResult.add_all GroupTestResult.__init__ members)
   =? Result.FAIL)
  = existsb is_fail members.
Proof.
  rewrite add_all_result.
  change (GroupTestResult.result GroupTestResult.__init__) with Result.SKIP.
  rewrite fold_step_skip.
  now destruct (existsb is_fail members), (existsb is_pass members).
Qed.

(** X26.  On a collection as the checks build it, bare records and groups
    filled by [add_result], [had_failures] is true exactly when a member
    of some group has the outcome FAIL; the outcomes of the bare records
    play no part. *)
Theorem X26_had_failures_of_built_collection :
  forall bs : list (string * (TestResult.t + list (named TestResult.t))),
    TestResults.had_failures (map build_entry bs)
    = existsb (fun b : string * (TestResult.t + list (named TestResult.t)) =>
                 match b.2 with
                 | inl _ => false
                 | inr members => existsb is_fail members
                 end) bs.
Proof.
  intros bs. rewrite had_failures_groups.
  induction bs as [|[nm [r|members]] bs IH]; [reflexivity| |].
  - cbn [map existsb]. rewrite IH. reflexivity.
  - cbn [map existsb]. rewrite IH. unfold build_entry at 1. cbn [snd fst result_of].
    now rewrite aggregate_is_fail.
Qed.
